(** * paratest: the timing store, the shared priority queue, the workers
      and the coordinator of [paratest.py], embedded as Rocq functions.

    The embedding follows the Python source function by function.

    - The SQLite file behind [Persistence] is a value of type [dbfile]: the
      file is missing, exists without tables, or holds the two tables
      [executions] and [testtime] as lists of rows in rowid order.
    - [duration] and the queue priorities are Python floats; they are
      modelled as exact rationals [Q], so rounding is outside the model.
      Where rounding decides, in [avg(duration)] of [get_priority], the
      timing table is also given with its IEEE binary64 values
      ([testtime_row64], [avg64], [Persistence_get_priority64]).
    - Everything outside the program (hook scripts run through the shell,
      the plugin, the clocks) is an interface [World] over an abstract world
      state that is threaded through every call.
    - Calls of interest are recorded in a ghost [trace] of events. *)

From Stdlib Require Import ZArith QArith Qminmax List String Ascii Bool Lia.
From Stdlib Require Import Permutation Sorted DecimalString DecimalNat OrderedTypeEx.
From Stdlib Require Import PrimFloat Uint63.
Import ListNotations.

Local Open Scope string_scope.
Local Open Scope Z_scope.

Set Implicit Arguments.

(* ================================================================= *)
(** ** Python helpers *)

(** [s.replace(old, new)] for a non-empty [old]: every non-overlapping
    occurrence, left to right.  [skip] counts the characters of a matched
    occurrence that are still to be dropped. *)
Fixpoint replace_from (old new : string) (skip : nat) (s : string) : string :=
  match s with
  | EmptyString => EmptyString
  | String c s' =>
      match skip with
      | S k => replace_from old new k s'
      | O =>
          if String.prefix old s
          then new ++ replace_from old new (Nat.pred (String.length old)) s'
          else String c (replace_from old new O s')
      end
  end.

Definition replace (old new s : string) : string := replace_from old new O s.

(** [os.path.join(a, b)] for two components (POSIX). *)
Definition ends_with_slash (a : string) : bool :=
  match String.get (Nat.pred (String.length a)) a with
  | Some c => Ascii.eqb c "/"%char
  | None => false
  end.

Definition path_join (a b : string) : string :=
  if String.prefix "/" b then b
  else if String.eqb a "" then b
  else if ends_with_slash a then a ++ b
  else a ++ "/" ++ b.

(** [str(i)] for [i] in [range(n)]. *)
Definition str (i : nat) : string := NilZero.string_of_uint (Nat.to_uint i).

(** [range(n)]: empty when [n <= 0]. *)
Definition range (n : Z) : list nat := seq 0 (Z.to_nat n).

(** Truth value of a string: only [''] is false. *)
Definition truthy (s : string) : bool := negb (String.eqb s "").

(* ================================================================= *)
(** ** Exceptions and results *)

Inductive exn : Type :=
| Abort (msg : string)              (* class Abort(Exception) *)
| OperationalError (msg : string)   (* sqlite3.OperationalError *)
| AttributeError (msg : string).    (* None.plugin_object *)

(** Result of a call: it returns, raises, or never returns because it
    waits on the queue for ever. *)
Inductive res (A : Type) : Type :=
| Return (a : A)
| Raise (e : exn)
| Blocked.
Arguments Raise {A} e.
Arguments Blocked {A}.

(* ================================================================= *)
(** ** The SQLite file *)

(** [executions(id integer primary key, source varchar, timestamp date)] *)
Record execution_row : Type := {
  ex_id : Z;
  ex_source : string;
  ex_timestamp : string
}.

(** [testtime(id integer primary key, source varchar, test varchar,
    duration float, execution int)]; [execution] may be NULL.  The program
    never switches [PRAGMA foreign_keys] on, so the foreign key clause and its
    cascade are inert: timing rows go away only through the explicit delete. *)
Record testtime_row : Type := {
  tt_id : Z;
  tt_source : string;
  tt_test : string;
  tt_duration : Q;
  tt_execution : option Z
}.

Record database : Type := {
  executions : list execution_row;
  testtime : list testtime_row
}.

Inductive dbfile : Type :=
| Missing               (* no file at db_path *)
| Blank                 (* a file without tables *)
| Db (d : database).

Definition empty_database : database := {| executions := []; testtime := [] |}.

(** [os.path.exists(db_path)] *)
Definition path_exists (f : dbfile) : bool :=
  match f with Missing => false | _ => true end.

(** [sqlite3.connect(db_path)] creates the file when there is none. *)
Definition connect (f : dbfile) : dbfile :=
  match f with Missing => Blank | _ => f end.

(** The rowid given to an inserted row: one more than the largest in the
    table, 1 in an empty table.  This is SQLite's rule while the largest
    rowid is below 2^63 - 1; in a table that holds that rowid SQLite tries
    unused ids at random, which is not modelled. *)
Definition max_id (ids : list Z) : option Z :=
  match ids with
  | [] => None
  | i :: rest => Some (fold_left Z.max rest i)
  end.

Definition next_rowid (ids : list Z) : Z :=
  match max_id ids with
  | None => 1
  | Some m => m + 1
  end.

(** [order by id desc] *)
Fixpoint insert_desc (x : Z) (l : list Z) : list Z :=
  match l with
  | [] => [x]
  | y :: l' => if y <=? x then x :: l else y :: insert_desc x l'
  end.

Fixpoint sort_desc (l : list Z) : list Z :=
  match l with
  | [] => []
  | x :: l' => insert_desc x (sort_desc l')
  end.

Definition ids_of_source (source : string) (d : database) : list Z :=
  map ex_id (filter (fun r => String.eqb (ex_source r) source) (executions d)).

(** [select id from executions where source=? order by id desc limit 5, 1]:
    skip five rows, fetch one. *)
Definition select_deprecated (source : string) (d : database) : option Z :=
  nth_error (sort_desc (ids_of_source source d)) 5.

(** [x <= ?] on a nullable column: NULL compares to NULL, which is not true. *)
Definition null_leb (x : option Z) (c : Z) : bool :=
  match x with
  | Some e => e <=? c
  | None => false
  end.

(** [delete from executions where id <= ?] then
    [delete from testtime where execution <= ?] *)
Definition delete_upto (c : Z) (d : database) : database :=
  {| executions := filter (fun r => negb (ex_id r <=? c)) (executions d);
     testtime := filter (fun r => negb (null_leb (tt_execution r) c)) (testtime d) |}.

(** [insert into executions(source) values (?)] *)
Definition insert_execution (source now : string) (d : database) : database :=
  {| executions := executions d ++
       [{| ex_id := next_rowid (map ex_id (executions d));
           ex_source := source;
           ex_timestamp := now |}];
     testtime := testtime d |}.

(** [insert into testtime(source, test, duration, execution) values (?,?,?,?)] *)
Definition insert_testtime (source test : string) (duration : Q)
           (execution : option Z) (d : database) : database :=
  {| executions := executions d;
     testtime := testtime d ++
       [{| tt_id := next_rowid (map tt_id (testtime d));
           tt_source := source;
           tt_test := test;
           tt_duration := duration;
           tt_execution := execution |}] |}.

(** The durations that [where source=? and test=?] selects. *)
Definition durations (source test : string) (d : database) : list Q :=
  map tt_duration
      (filter (fun r => String.eqb (tt_source r) source && String.eqb (tt_test r) test)
              (testtime d)).

(** The sum and the mean in exact arithmetic; for [avg] on the stored
    doubles see [avg64]. *)
Definition Qsum (l : list Q) : Q := fold_right Qplus 0%Q l.

Definition mean (l : list Q) : Q := (Qsum l / inject_Z (Z.of_nat (List.length l)))%Q.

(** [avg(duration)]: NULL over no rows. *)
Definition avg (l : list Q) : option Q :=
  match l with
  | [] => None
  | _ => Some (mean l)
  end.

(** First occurrences, in order: [select distinct]. *)
Fixpoint distinct (l : list string) : list string :=
  match l with
  | [] => []
  | x :: l' => x :: filter (fun y => negb (String.eqb y x)) (distinct l')
  end.

(* ================================================================= *)
(** ** Persistence *)

Record Persistence : Type := {
  create : bool;
  source : string;
  db_path : string;
  execution : option Z
}.

(** [Persistence.__init__] *)
Definition Persistence_init (path src : string) (f : dbfile) : Persistence :=
  {| create := negb (path_exists f);
     source := src;
     db_path := path;
     execution := None |}.

Definition no_such_table (t : string) : exn :=
  OperationalError ("no such table: " ++ t).

(** [Persistence.initialize].  [now] is what SQLite's clock gives for the
    default of the timestamp column.  The result is the outcome, the
    [Persistence] object as the call leaves it, and the file. *)
Definition Persistence_initialize (p : Persistence) (now : string) (f : dbfile)
  : res unit * Persistence * dbfile :=
  let f0 := connect f in
  let created :=
    if create p then
      match f0 with
      | Db _ => (Raise (OperationalError "table executions already exists"), p, f0)
      | _ => (Return tt,
              {| create := false; source := source p;
                 db_path := db_path p; execution := execution p |},
              Db empty_database)
      end
    else (Return tt, p, f0) in
  match created with
  | (Return _, p1, Db d) =>
      let d1 :=
        match select_deprecated (source p1) d with
        | Some deprecated_executions => delete_upto deprecated_executions d
        | None => d
        end in
      let d2 := insert_execution (source p1) now d1 in
      (Return tt,
       {| create := create p1; source := source p1; db_path := db_path p1;
          execution := max_id (ids_of_source (source p1) d2) |},
       Db d2)
  | (Return _, p1, f1) => (Raise (no_such_table "executions"), p1, f1)
  | (r, p1, f1) => (r, p1, f1)
  end.

(** [cursor.fetchone()[0] or 0] *)
Definition or_zero (a : option Q) : Q :=
  match a with
  | None => 0%Q
  | Some q => if Qeq_bool q 0 then 0%Q else q
  end.

(** [Persistence.get_priority] *)
Definition Persistence_get_priority (p : Persistence) (test : string) (f : dbfile)
  : res Q * dbfile :=
  match connect f with
  | Db d => (Return (or_zero (avg (durations (source p) test d))), Db d)
  | f0 => (Raise (no_such_table "testtime"), f0)
  end.

(** [Persistence.add] *)
Definition Persistence_add (p : Persistence) (test : string) (duration : Q) (f : dbfile)
  : res unit * dbfile :=
  match connect f with
  | Db d => (Return tt, Db (insert_testtime (source p) test duration (execution p) d))
  | f0 => (Raise (no_such_table "testtime"), f0)
  end.

(** What [print] receives in [show]: a plain string, or the pair that
    ['    %s \t= %s' % test] formats. *)
Inductive line : Type :=
| PrintStr (s : string)
| PrintRow (test : string) (average : Q).

Definition tests_of_source (src : string) (d : database) : list string :=
  distinct (map tt_test (filter (fun r => String.eqb (tt_source r) src) (testtime d))).

(** [select test, avg(duration) from testtime where source=? group by test].
    The groups are listed by first occurrence; SQLite lists them sorted by
    test.  Which tests are listed, and how often, is the same. *)
Definition group_by_test (src : string) (d : database) : list (string * Q) :=
  map (fun t => (t, mean (durations src t d))) (tests_of_source src d).

Definition show_source (d : database) (src : string) : list line :=
  PrintStr src :: map (fun ta => PrintRow (fst ta) (snd ta)) (group_by_test src d).

(** [Persistence.show]: the outcome, the printed lines, the file. *)
Definition Persistence_show (p : Persistence) (f : dbfile)
  : res unit * list line * dbfile :=
  match f with
  | Missing => (Return tt, [PrintStr "No database found"], Missing)
  | Blank => (Raise (no_such_table "testtime"), [], Blank)
  | Db d =>
      (Return tt,
       flat_map (show_source d) (distinct (map tt_source (testtime d))),
       Db d)
  end.

(* ================================================================= *)
(** ** The timing table in binary64 *)











(* ================================================================= *)
(** ** The shared priority queue *)

(** A queue entry is the tuple [(priority, tid)]. *)
Definition entry : Type := (Q * string)%type.

(** [sys.maxsize] on a 64-bit build. *)
Definition INFINITE : Q := inject_Z 9223372036854775807.
Definition FINISH : string := "".

(** Python's [<] on the tuples: priorities first, then the strings. *)
Definition entry_ltb (a b : entry) : bool :=
  match Qcompare (fst a) (fst b) with
  | Lt => true
  | Gt => false
  | Eq => String.ltb (snd a) (snd b)
  end.

(** [queue.PriorityQueue] is kept as the list of its entries, smallest
    first; two entries that compare equal are the same Python value. *)
Definition queue : Type := list entry.

(** [shared_queue.put(e)] *)
Fixpoint put (e : entry) (q : queue) : queue :=
  match q with
  | [] => [e]
  | x :: q' => if entry_ltb e x then e :: q else x :: put e q'
  end.

(** [shared_queue.get()]: [None] when the caller has to wait. *)
Definition get (q : queue) : option (entry * queue) :=
  match q with
  | [] => None
  | e :: q' => Some (e, q')
  end.

(** [shared_queue.empty()] *)
Definition empty (q : queue) : bool :=
  match q with [] => true | _ => false end.

(** Entries handed out by successive [get]s until the queue is empty. *)
Fixpoint drain (n : nat) (q : queue) : list entry :=
  match n with
  | O => []
  | S n' =>
      match get q with
      | None => []
      | Some (e, q') => e :: drain n' q'
      end
  end.

(* ================================================================= *)
(** ** The outside world *)

(** What the program asks of its environment.  Each call may change the
    world. *)
Class World (W : Type) : Type := {
  (** [Popen(script, shell=True, ...).communicate()]: return code, decoded
      standard output and standard error. *)
  shell : string -> W -> (Z * string * string) * W;
  (** [time.time()] *)
  clock : W -> Q * W;
  (** SQLite's [datetime('now','localtime')]; reading it changes nothing. *)
  sqlite_now : W -> string
}.

(** A plugin object: [find(source_path, test_pattern)] yields the test
    identifiers; [run(id, tid, workspace, output_path)] returns ([None]) or
    raises an [Exception] ([Some message]). *)
Record Plugin (W : Type) : Type := {
  plugin_name : string;
  find : string -> string -> W -> list string * W;
  plugin_run : string -> string -> string -> string -> W -> option string * W
}.

Record Scripts : Type := {
  setup : option string;
  setup_workspace : option string;
  setup_test : option string;
  teardown_test : option string;
  teardown_workspace : option string;
  teardown : option string
}.

Inductive hook : Type :=
| HSetup | HSetupWorkspace | HSetupTest | HTeardownTest | HTeardownWorkspace | HTeardown.

Inductive level : Type := DEBUG | INFO | WARNING | ERROR.

(** Ghost record of what happened, oldest first.  [who] is the name of the
    worker thread, [MainThread] for the coordinator. *)
Inductive event : Type :=
| Hook (h : hook) (who : string)     (* a call of a run_script_* method *)
| Popen (cmd : string)
| Log (l : level) (msg : string)
| Put (e : entry)
| Get (who : string) (e : entry)
| TaskDone (who : string)
| Start (who : string)
| Join (who : string)
| Exec (who : string) (tid : string) (* a call of plugin.run *)
| Print (l : line).

Definition MainThread : string := "MainThread".

(** The state that calls pass along.  [pers] is the one [Persistence] object
    of the process: [main], [Paratest] and every [Worker] hold a reference to
    it, so they all read it from here. *)
Record state (W : Type) : Type := {
  world : W;
  db : dbfile;
  pers : Persistence;
  trace : list event
}.

Definition exn_message (e : exn) : string :=
  match e with
  | Abort m => m
  | OperationalError m => m
  | AttributeError m => m
  end.

Section Program.
Context {W : Type} `{World W}.

Definition M (A : Type) : Type := state W -> res A * state W.

Definition emit (e : event) (s : state W) : state W :=
  {| world := world s; db := db s; pers := pers s; trace := trace s ++ [e] |}.

Definition set_world (w : W) (s : state W) : state W :=
  {| world := w; db := db s; pers := pers s; trace := trace s |}.

Definition set_db (f : dbfile) (s : state W) : state W :=
  {| world := world s; db := f; pers := pers s; trace := trace s |}.

Definition set_pers (p : Persistence) (s : state W) : state W :=
  {| world := world s; db := db s; pers := p; trace := trace s |}.

(** [script.replace('{%s}' % k, v)] for each keyword argument, in call order. *)
Definition substitute (script : string) (kwargs : list (string * string)) : string :=
  fold_left (fun acc kv => replace ("{" ++ fst kv ++ "}") (snd kv) acc) kwargs script.

(** [run_script]: [None] without a script, else the return code. *)
Definition run_script (script : option string) (kwargs : list (string * string))
  : M (option Z) :=
  fun s =>
    match script with
    | None => (Return None, s)
    | Some sc =>
        if truthy sc then
          let cmd := substitute sc kwargs in
          let s1 := emit (Log INFO ("About to run script $" ++ cmd)) s in
          let '(rc, output, err, w1) := shell cmd (world s1) in
          let s2 := emit (Popen cmd) (set_world w1 s1) in
          let s3 := if String.eqb output "" then s2 else emit (Log INFO output) s2 in
          let s4 := if String.eqb err "" then s3 else emit (Log WARNING err) s3 in
          (Return (Some rc), s4)
        else (Return None, s)
    end.

(** [if run_script(...)]: a return code other than 0. *)
Definition failed (rc : option Z) : bool :=
  match rc with
  | Some c => negb (c =? 0)
  | None => false
  end.

End Program.

(* ================================================================= *)
(** ** Worker *)

(** A [Worker] thread object.  Its [persistence] attribute is the shared
    object [pers] of the state. *)
Record Worker (W : Type) : Type := {
  plugin : Plugin W;
  scripts : Scripts;
  source_path : string;
  output_path : string;
  name : string;
  workspace_path : string
}.

Section Workers.
Context {W : Type} `{World W}.

(** [Worker.__init__]; the workspace directory it creates is not modelled. *)
Definition Worker_init (pl : Plugin W) (sc : Scripts)
           (workspace source output nm : string) : Worker W :=
  {| plugin := pl;
     scripts := sc;
     source_path := source;
     output_path := output;
     name := nm;
     workspace_path := path_join workspace nm |}.

(** [Worker._run_script]; [h] only labels the ghost event. *)
Definition Worker_run_script (w : Worker W) (h : hook) (script : option string)
           (message : string) : M unit :=
  fun s =>
    match run_script script
            [("id", name w); ("workspace", workspace_path w);
             ("source", source_path w); ("output", output_path w)]
            (emit (Hook h (name w)) s) with
    | (Return rc, s') =>
        if failed rc then (Raise (Abort message), s') else (Return tt, s')
    | (Raise e, s') => (Raise e, s')
    | (Blocked, s') => (Blocked, s')
    end.

Definition run_script_setup_workspace (w : Worker W) : M unit :=
  Worker_run_script w HSetupWorkspace (setup_workspace (scripts w))
    ("Setup workspace failed on worker " ++ name w ++
     " and could not initialize the environment. Worker is dead").

Definition run_script_teardown_workspace (w : Worker W) : M unit :=
  Worker_run_script w HTeardownWorkspace (teardown_workspace (scripts w))
    ("Teardown workspace failed on worker " ++ name w ++ ". Worker is dead").

Definition run_script_setup_test (w : Worker W) : M unit :=
  Worker_run_script w HSetupTest (setup_test (scripts w))
    ("setup_test failed on worker " ++ name w ++ ". Worker is dead").

Definition run_script_teardown_test (w : Worker W) : M unit :=
  Worker_run_script w HTeardownTest (teardown_test (scripts w))
    ("teardown_test failed on worker " ++ name w ++ ". Worker is dead").

(** [Worker.process].  [tid is FINISH] is taken as equality with the empty
    string.  Whatever [Exception] [plugin.run] or [persistence.add] raise is
    caught by [except Exception] and logged, so the call returns.  A
    [SystemExit] or [KeyboardInterrupt] out of [plugin.run] is no [Exception]
    and would end the thread; a [Plugin] has no such outcome. *)
Definition process (w : Worker W) (tid : string) (s : state W) : state W :=
  if String.eqb tid FINISH then s
  else
    let '(start, w1) := clock (world s) in
    let s1 := emit (Exec (name w) tid) (set_world w1 s) in
    match plugin_run (plugin w) (name w) tid (workspace_path w) (output_path w) w1 with
    | (Some e, w2) => emit (Log ERROR e) (set_world w2 s1)
    | (None, w2) =>
        let '(stop, w3) := clock w2 in
        let s2 := set_world w3 s1 in
        match Persistence_add (pers s2) tid (stop - start)%Q (db s2) with
        | (Return _, f) => set_db f s2
        | (Raise e, f) => emit (Log ERROR (exn_message e)) (set_db f s2)
        | (Blocked, f) => set_db f s2
        end
    end.

(** The [while item:] loop of [Worker.run], on the queue as the worker
    finds it.  With an empty queue [shared_queue.get()] does not return. *)
Fixpoint Worker_loop (w : Worker W) (q : queue) (s : state W)
  : res unit * queue * state W :=
  match run_script_setup_test w s with
  | (Return _, s1) =>
      match q with
      | [] => (Blocked, [], s1)
      | (priority, item) :: q' =>
          let s2 := emit (Get (name w) (priority, item)) s1 in
          let s3 := process w item s2 in
          let s4 := emit (TaskDone (name w)) s3 in
          match run_script_teardown_test w s4 with
          | (Return _, s5) =>
              if truthy item then Worker_loop w q' s5 else (Return tt, q', s5)
          | (Raise e, s5) => (Raise e, q', s5)
          | (Blocked, s5) => (Blocked, q', s5)
          end
      end
  | (Raise e, s1) => (Raise e, q, s1)
  | (Blocked, s1) => (Blocked, q, s1)
  end.

(** [Worker.run] *)
Definition Worker_run (w : Worker W) (q : queue) (s : state W)
  : res unit * queue * state W :=
  let s0 := emit (Log DEBUG (name w ++ " START")) s in
  match run_script_setup_workspace w s0 with
  | (Return _, s1) =>
      match Worker_loop w q s1 with
      | (Return _, q', s2) =>
          match run_script_teardown_workspace w s2 with
          | (r, s3) => (r, q', s3)
          end
      | other => other
      end
  | (Raise e, s1) => (Raise e, q, s1)
  | (Blocked, s1) => (Blocked, q, s1)
  end.

End Workers.

(* ================================================================= *)
(** ** Paratest, the coordinator *)

Record Paratest (W : Type) : Type := {
  workspace_num : Z;
  pt_workspace_path : string;
  pt_scripts : Scripts;
  pt_source_path : string;
  pt_output_path : string;
  test_pattern : string;
  _workers : list (Worker W);
  pluginmgr : list (Plugin W)   (* the plugins that collectPlugins() found *)
}.

Section Coordinator.
Context {W : Type} `{World W}.

Definition set_workers (ws : list (Worker W)) (pt : Paratest W) : Paratest W :=
  {| workspace_num := workspace_num pt;
     pt_workspace_path := pt_workspace_path pt;
     pt_scripts := pt_scripts pt;
     pt_source_path := pt_source_path pt;
     pt_output_path := pt_output_path pt;
     test_pattern := test_pattern pt;
     _workers := ws;
     pluginmgr := pluginmgr pt |}.

(** [pluginmgr.getPluginByName(name)] *)
Definition getPluginByName (pt : Paratest W) (nm : string) : option (Plugin W) :=
  List.find (fun pl => String.eqb (plugin_name pl) nm) (pluginmgr pt).

(** [Paratest.run_script_setup] *)
Definition Paratest_run_script_setup (pt : Paratest W) : M unit :=
  fun s =>
    match run_script (setup (pt_scripts pt)) [("path", pt_workspace_path pt)]
            (emit (Hook HSetup MainThread) s) with
    | (Return rc, s') =>
        if failed rc then (Raise (Abort "The setup script failed. aborting."), s')
        else (Return tt, s')
    | (Raise e, s') => (Raise e, s')
    | (Blocked, s') => (Blocked, s')
    end.

(** [Paratest.run_script_teardown] *)
Definition Paratest_run_script_teardown (pt : Paratest W) : M unit :=
  fun s =>
    match run_script (teardown (pt_scripts pt)) [("path", pt_workspace_path pt)]
            (emit (Hook HTeardown MainThread) s) with
    | (Return rc, s') =>
        if failed rc
        then (Raise (Abort "The teardown script failed, but nothing can be done."), s')
        else (Return tt, s')
    | (Raise e, s') => (Raise e, s')
    | (Blocked, s') => (Blocked, s')
    end.

(** The [for tid in ...] loop of [queue_tests]; [tids] is the counter. *)
Fixpoint queue_tests_loop (found : list string) (tids : Z) (q : queue) (s : state W)
  : res Z * queue * state W :=
  match found with
  | [] => (Return tids, q, s)
  | tid :: rest =>
      match Persistence_get_priority (pers s) tid (db s) with
      | (Return priority, f) =>
          let e := (priority, tid) in
          queue_tests_loop rest (tids + 1) (put e q) (emit (Put e) (set_db f s))
      | (Raise e, f) => (Raise e, q, set_db f s)
      | (Blocked, f) => (Blocked, q, set_db f s)
      end
  end.

(** [Paratest.queue_tests] *)
Definition queue_tests (pt : Paratest W) (pluginobj : Plugin W) (q : queue) (s : state W)
  : res Z * queue * state W :=
  let '(found, w1) := find pluginobj (pt_source_path pt) (test_pattern pt) (world s) in
  queue_tests_loop found 0 q (set_world w1 s).

(** [Paratest.num_of_workers] *)
Definition num_of_workers (pt : Paratest W) (test_number : Z) : Z :=
  Z.min (workspace_num pt) test_number.

(** [Paratest.create_workers] *)
Definition create_workers (pt : Paratest W) (pluginobj : Plugin W) (workers : Z)
  : Paratest W :=
  set_workers
    (_workers pt ++
     map (fun i => Worker_init pluginobj (pt_scripts pt) (pt_workspace_path pt)
                     (pt_source_path pt) (pt_output_path pt) (str i))
         (range workers))
    pt.

(** The [for t in self._workers] loop of [start_workers]: [t.start()], then
    the sentinel, worker by worker. *)
Fixpoint start_workers_loop (ws : list (Worker W)) (q : queue) (s : state W)
  : queue * state W :=
  match ws with
  | [] => (q, s)
  | t :: rest =>
      let s1 := emit (Start (name t)) s in
      let e := (INFINITE, FINISH) in
      start_workers_loop rest (put e q) (emit (Put e) s1)
  end.

(** [Paratest.start_workers] *)
Definition start_workers (pt : Paratest W) (q : queue) (s : state W)
  : queue * state W :=
  start_workers_loop (_workers pt) q (emit (Log DEBUG "start workers") s).

(** The [for t in self._workers: t.join()] loop.  The threads are run here,
    one after the other in the order in which they were started, each to its
    end before the next: one of the schedules the threads can follow, and the
    only one with at most one worker.  An exception that ends a thread does
    not reach the coordinator; a thread that waits for ever makes [join] wait
    for ever. *)
Fixpoint wait_workers_loop (ws : list (Worker W)) (q : queue) (s : state W)
  : res unit * queue * state W :=
  match ws with
  | [] => (Return tt, q, s)
  | t :: rest =>
      match Worker_run t q s with
      | (Blocked, q', s') => (Blocked, q', s')
      | (_, q', s') => wait_workers_loop rest q' (emit (Join (name t)) s')
      end
  end.

(** [Paratest.wait_workers] *)
Definition wait_workers (pt : Paratest W) (q : queue) (s : state W)
  : res unit * queue * state W :=
  wait_workers_loop (_workers pt) q (emit (Log DEBUG "wait for all workers to finish") s).

(** [Paratest.assert_all_messages_were_processed] *)
Definition assert_all_messages_were_processed (q : queue) : res unit :=
  if negb (empty q)
  then Raise (Abort "There were unprocessed tests, but all workers are dead. Aborting.")
  else Return tt.

(** [Paratest.run]: the outcome, the coordinator object, the shared queue
    and the state as the call leaves them. *)
Definition Paratest_run (pt : Paratest W) (plugin_nm : string) (q : queue) (s : state W)
  : res unit * Paratest W * queue * state W :=
  match getPluginByName pt plugin_nm with
  | None =>
      (Raise (AttributeError "'NoneType' object has no attribute 'plugin_object'"),
       pt, q, s)
  | Some pluginobj =>
      match Paratest_run_script_setup pt s with
      | (Return _, s1) =>
          match queue_tests pt pluginobj q s1 with
          | (Return test_number, q2, s2) =>
              let pt3 := create_workers pt pluginobj (num_of_workers pt test_number) in
              let '(q4, s4) := start_workers pt3 q2 s2 in
              match wait_workers pt3 q4 s4 with
              | (Return _, q5, s5) =>
                  match Paratest_run_script_teardown pt3 s5 with
                  | (Return _, s6) =>
                      (assert_all_messages_were_processed q5, pt3, q5, s6)
                  | (Raise e, s6) => (Raise e, pt3, q5, s6)
                  | (Blocked, s6) => (Blocked, pt3, q5, s6)
                  end
              | (Raise e, q5, s5) => (Raise e, pt3, q5, s5)
              | (Blocked, q5, s5) => (Blocked, pt3, q5, s5)
              end
          | (Raise e, q2, s2) => (Raise e, pt, q2, s2)
          | (Blocked, q2, s2) => (Blocked, pt, q2, s2)
          end
      | (Raise e, s1) => (Raise e, pt, q, s1)
      | (Blocked, s1) => (Blocked, pt, q, s1)
      end
  end.

(** The queue as [run] has filled it when it starts to join the workers:
    the tests that [queue_tests] found and one sentinel per worker. *)
Definition seeded_queue (pt : Paratest W) (pluginobj : Plugin W) (s : state W) : queue :=
  match queue_tests pt pluginobj [] (snd (Paratest_run_script_setup pt s)) with
  | (r, q2, s2) =>
      let test_number := match r with Return n => n | _ => 0 end in
      fst (start_workers (create_workers pt pluginobj (num_of_workers pt test_number))
                         q2 s2)
  end.

End Coordinator.

(* ================================================================= *)
(** ** main *)

Inductive Action : Type := plugins | run | show.

(** The parsed command line. *)
Record Args (W : Type) : Type := {
  action : Action;
  arg_source : string;
  arg_workspace_path : string;
  arg_output_path : string;
  path_db : string;
  arg_test_pattern : string;
  arg_plugin : option string;
  workers : Z;
  arg_scripts : Scripts;
  collected : list (Plugin W)   (* what the plugin manager finds on disk *)
}.

Section Main.
Context {W : Type} `{World W}.

(** [persistence.initialize()] on the shared object. *)
Definition initialize (s : state W) : res unit * state W :=
  match Persistence_initialize (pers s) (sqlite_now (world s)) (db s) with
  | (r, p, f) => (r, set_pers p (set_db f s))
  end.

(** [persistence.show()], the printed lines going to the trace. *)
Definition show_report (s : state W) : res unit * state W :=
  match Persistence_show (pers s) (db s) with
  | (r, printed, f) =>
      (r, {| world := world s; db := f; pers := pers s;
             trace := trace s ++ map Print printed |})
  end.

(** [Paratest.list_plugins] *)
Definition list_plugins (pt : Paratest W) (s : state W) : state W :=
  emit (Print (PrintStr
          (fold_left (fun msg pl => msg ++ "  " ++ plugin_name pl) (pluginmgr pt)
                     ("Available plugins are:" ++ String (ascii_of_nat 10) ""))))
       s.

(** [Paratest.__init__]; the directories it creates are not modelled. *)
Definition Paratest_init (args : Args W) : Paratest W :=
  {| workspace_num := workers args;
     pt_workspace_path := arg_workspace_path args;
     pt_scripts := arg_scripts args;
     pt_source_path := arg_source args;
     pt_output_path := arg_output_path args;
     test_pattern := arg_test_pattern args;
     _workers := [];
     pluginmgr := collected args |}.

(** [main], one process: it starts from the world and the file it finds,
    with an empty [shared_queue], and leaves a world, a file and a trace. *)
Definition main (args : Args W) (w : W) (f : dbfile) : res unit * state W :=
  let s0 := {| world := w; db := f;
               pers := Persistence_init (path_db args) (arg_source args) f;
               trace := [] |} in
  let paratest := Paratest_init args in
  match action args with
  | plugins => (Return tt, list_plugins paratest s0)
  | run =>
      match initialize s0 with
      | (Return _, s1) =>
          match arg_plugin args with
          | None =>
              (Raise (AttributeError "'NoneType' object has no attribute 'plugin_object'"), s1)
          | Some nm =>
              match Paratest_run paratest nm [] s1 with
              | (r, _, _, s2) => (r, s2)
              end
          end
      | other => other
      end
  | show => show_report s0
  end.

End Main.

(* ================================================================= *)
(** ** Queue states *)

(** [a] is dequeued no later than [b] as far as the priorities go. *)
Definition priority_le (a b : entry) : Prop := (fst a <= fst b)%Q.

(** The states that [put] and [get] lead to from the empty queue. *)
Inductive reachable : queue -> Prop :=
| reachable_empty : reachable []
| reachable_put (e : entry) (q : queue) :
    reachable q -> reachable (put e q)
| reachable_get (e : entry) (q q' : queue) :
    reachable q -> get q = Some (e, q') -> reachable q'.

(* ================================================================= *)
(** ** Reading a trace *)

(** The entries that [get] handed out, in order. *)
Definition gets (tr : list event) : list entry :=
  flat_map (fun ev => match ev with Get _ e => [e] | _ => [] end) tr.

(** The entries that were [put], in order. *)
Definition puts (tr : list event) : list entry :=
  flat_map (fun ev => match ev with Put e => [e] | _ => [] end) tr.

(** The workers that were started, in order. *)
Definition starts (tr : list event) : list string :=
  flat_map (fun ev => match ev with Start who => [who] | _ => [] end) tr.

(** The tests handed to [plugin.run], in order. *)
Definition execs (tr : list event) : list string :=
  flat_map (fun ev => match ev with Exec _ tid => [tid] | _ => [] end) tr.

(** What worker [who] does around the queue: its test-level hooks and its
    dequeues, in order. *)
Definition test_step (who : string) (ev : event) : bool :=
  match ev with
  | Hook HSetupTest w => String.eqb w who
  | Hook HTeardownTest w => String.eqb w who
  | Get w _ => String.eqb w who
  | _ => false
  end.

Definition test_steps (who : string) (tr : list event) : list event :=
  filter (test_step who) tr.

(** How often worker [who] called the hook [h]. *)
Definition hook_eqb (a b : hook) : bool :=
  match a, b with
  | HSetup, HSetup | HSetupWorkspace, HSetupWorkspace | HSetupTest, HSetupTest
  | HTeardownTest, HTeardownTest | HTeardownWorkspace, HTeardownWorkspace
  | HTeardown, HTeardown => true
  | _, _ => false
  end.

Definition hook_calls (h : hook) (who : string) (tr : list event) : nat :=
  List.length
    (filter (fun ev => match ev with
                       | Hook h' w => hook_eqb h' h && String.eqb w who
                       | _ => false
                       end) tr).

(** The events that a call added to the trace. *)
Definition appended {W : Type} (before after : state W) : list event :=
  skipn (List.length (trace before)) (trace after).

(** One turn of the worker loop around the entry [e]. *)
Definition turn (who : string) (e : entry) : list event :=
  [Hook HSetupTest who; Get who e; Hook HTeardownTest who].

(** One start and one sentinel per worker, in turn. *)
Definition start_and_put {W : Type} (t : Worker W) : list event :=
  [Start (name t); Put (INFINITE, FINISH)].

(** The events [new] dequeue a prefix of [q], in the order of [q], run
    exactly the dequeued tests, and leave [q'] in the queue. *)
Definition in_order (q q' : queue) (new : list event) : Prop :=
  exists k : nat,
    gets new = firstn k q /\
    q' = skipn k q /\
    execs new = filter truthy (map snd (firstn k q)) /\
    puts new = [] /\ starts new = [].

(** No worker is started after a sentinel has been put. *)
Fixpoint starts_precede_puts (tr : list event) : bool :=
  match tr with
  | [] => true
  | Put _ :: rest =>
      match starts rest with [] => true | _ :: _ => false end
      && starts_precede_puts rest
  | _ :: rest => starts_precede_puts rest
  end.

(** What [run_script] leaves in the trace. *)
Definition script_event (ev : event) : bool :=
  match ev with
  | Log _ _ | Popen _ => true
  | _ => false
  end.

(* ================================================================= *)
(** ** Successive invocations, as the store sees them *)

(** The tables of a file; none when there is no schema. *)
Definition tables (f : dbfile) : database :=
  match f with
  | Db d => d
  | _ => empty_database
  end.

(** The [add] calls of one process, in the order in which they happen. *)
Fixpoint add_all (p : Persistence) (timings : list (string * Q)) (f : dbfile) : dbfile :=
  match timings with
  | [] => f
  | (test, duration) :: rest => add_all p rest (snd (Persistence_add p test duration f))
  end.

(** One [run] action on the store: [main] builds a [Persistence] from the
    file it finds and calls [initialize]; the workers then add the timings
    of the tests that succeeded. *)
Definition invocation (path src : string) (f : dbfile)
           (r : string * list (string * Q)) : dbfile :=
  match Persistence_initialize (Persistence_init path src f) (fst r) f with
  | (Return _, p, f') => add_all p (snd r) f'
  | (_, _, f') => f'
  end.

(** [runs] gives, per invocation, SQLite's time stamp and the timings. *)
Definition invocations (path src : string) (runs : list (string * list (string * Q)))
           (f : dbfile) : dbfile :=
  fold_left (invocation path src) runs f.

(** Any sequence of [initialize] and [add] calls, by whatever objects. *)
Inductive call : Type :=
| CallInitialize (p : Persistence) (now : string)
| CallAdd (p : Persistence) (test : string) (duration : Q).

Definition apply_call (f : dbfile) (c : call) : dbfile :=
  match c with
  | CallInitialize p now => snd (Persistence_initialize p now f)
  | CallAdd p test duration => snd (Persistence_add p test duration f)
  end.

Definition apply_calls (calls : list call) (f : dbfile) : dbfile :=
  fold_left apply_call calls f.

(** The rowids [lo], [lo+1], ..., [lo+n-1]. *)
Definition ids_from (lo n : nat) : list Z := map Z.of_nat (seq lo n).

(** What a store that has only seen [src] holds: the execution records
    [lo .. lo+n-1], all of [src], and timing rows that each point at one of
    them. *)
Record retained (src : string) (lo n : nat) (d : database) : Prop := {
  retained_ids : map ex_id (executions d) = ids_from lo n;
  retained_source : Forall (fun r => ex_source r = src) (executions d);
  retained_timing :
    Forall (fun r => exists e, tt_execution r = Some e /\
                               Z.of_nat lo <= e < Z.of_nat (lo + n))
           (testtime d)
}.

(* ================================================================= *)
(** ** Worlds to run the program in *)

(** The world is a tick counter.  The script [false] fails, every other
    script succeeds; the clock shows the counter. *)
Definition tick_world : World nat :=
  {| shell := fun cmd w => ((if String.eqb cmd "false" then 1 else 0, "", ""), S w);
     clock := fun w => (inject_Z (Z.of_nat w), S w);
     sqlite_now := fun _ => "2020-02-02 20:20:20" |}.

(** A plugin that finds the given tests; the test [bad] raises. *)
Definition list_plugin (tests : list string) : Plugin nat :=
  {| plugin_name := "list";
     find := fun _ _ w => (tests, w);
     plugin_run := fun _ tid _ _ w =>
       (if String.eqb tid "bad" then Some "bad test" else None, S w) |}.

Definition no_scripts : Scripts :=
  {| setup := None; setup_workspace := None; setup_test := None;
     teardown_test := None; teardown_workspace := None; teardown := None |}.

Definition echo_scripts : Scripts :=
  {| setup := Some "echo {path}"; setup_workspace := None;
     setup_test := Some "echo {id} {workspace}"; teardown_test := Some "echo {id}";
     teardown_workspace := None; teardown := Some "echo {path}" |}.

(** Sample stores, workers and coordinators. *)

(* the store after one run for B followed by six runs for A *)
Definition store_B_then_A : dbfile :=
  invocations "paratest.db" "A" (repeat ("2020-02-02 20:20:20", [("a", 1%Q)]) 6)
    (invocation "paratest.db" "B" Missing ("2020-02-02 20:20:20", [("b", 3%Q)])).

Definition two_source_store : database :=
  {| executions :=
       [{| ex_id := 1; ex_source := "A"; ex_timestamp := "2020-02-02 20:20:20" |};
        {| ex_id := 2; ex_source := "B"; ex_timestamp := "2020-02-02 20:20:21" |}];
     testtime :=
       [{| tt_id := 1; tt_source := "A"; tt_test := "a"; tt_duration := 2%Q;
           tt_execution := Some 1 |};
        {| tt_id := 2; tt_source := "B"; tt_test := "b"; tt_duration := 3%Q;
           tt_execution := Some 2 |};
        {| tt_id := 3; tt_source := "A"; tt_test := "a"; tt_duration := 4%Q;
           tt_execution := Some 1 |}] |}.

Definition sample_worker : Worker nat :=
  Worker_init (list_plugin ["t2"; "bad"; "t1"]) echo_scripts "/tmp/ws" "src" "/tmp/out" "0".

Definition sample_state : state nat :=
  {| world := O; db := Db empty_database;
     pers := {| create := false; source := "src"; db_path := "paratest.db";
                execution := Some 1 |};
     trace := [] |}.

Definition two_worker_paratest : Paratest nat :=
  @create_workers nat
    {| workspace_num := 2; pt_workspace_path := "/tmp/ws"; pt_scripts := no_scripts;
       pt_source_path := "src"; pt_output_path := "/tmp/out"; test_pattern := "";
       _workers := []; pluginmgr := [list_plugin ["t1"; "t2"]] |}
    (list_plugin ["t1"; "t2"]) 2.

Definition no_test_paratest : Paratest nat :=
  {| workspace_num := 5; pt_workspace_path := "/tmp/ws"; pt_scripts := echo_scripts;
     pt_source_path := "src"; pt_output_path := "/tmp/out"; test_pattern := "";
     _workers := []; pluginmgr := [list_plugin []] |}.

(** A store in which [t1] has taken 4 and 6 seconds and [t2] is unknown. *)
Definition history_state : state nat :=
  {| world := O;
     db := Db {| executions :=
                   [{| ex_id := 1; ex_source := "src";
                       ex_timestamp := "2020-02-02 20:20:20" |}];
                 testtime :=
                   [{| tt_id := 1; tt_source := "src"; tt_test := "t1";
                       tt_duration := 4%Q; tt_execution := Some 1 |};
                    {| tt_id := 2; tt_source := "src"; tt_test := "t1";
                       tt_duration := 6%Q; tt_execution := Some 1 |}] |};
     pers := {| create := false; source := "src"; db_path := "paratest.db";
                execution := Some 1 |};
     trace := [] |}.

Definition single_worker_paratest : Paratest nat :=
  {| workspace_num := 1; pt_workspace_path := "/tmp/ws"; pt_scripts := echo_scripts;
     pt_source_path := "src"; pt_output_path := "/tmp/out"; test_pattern := "";
     _workers := []; pluginmgr := [list_plugin ["t1"; "t2"]] |}.

(* ================================================================= *)
(** ** Further predicates and samples *)

(** A hook without a command: [None] or the empty string. *)
Definition no_hook (script : option string) : bool :=
  match script with
  | None => true
  | Some sc => negb (truthy sc)
  end.

(** None of the four hooks of a worker is configured. *)
Definition unscripted (sc : Scripts) : bool :=
  no_hook (setup_workspace sc) && no_hook (setup_test sc) &&
  no_hook (teardown_test sc) && no_hook (teardown_workspace sc).

(** Whether the character [c] occurs in [s]. *)
Fixpoint occurs (c : ascii) (s : string) : bool :=
  match s with
  | EmptyString => false
  | String x s' => Ascii.eqb x c || occurs c s'
  end.

(** The full order of the Python tuples: [a] is not greater than [b]. *)
Definition entry_le (a b : entry) : Prop := entry_ltb b a = false.

(** [d'] is [d] with timing rows of the object [p] appended. *)
Definition timings_added (p : Persistence) (d d' : database) : Prop :=
  executions d' = executions d /\
  exists added,
    testtime d' = (testtime d ++ added)%list /\
    Forall (fun r => tt_source r = source p /\ tt_execution r = execution p) added.

(** The source names that [show] prints, in order. *)
Definition printed_sources (printed : list line) : list string :=
  flat_map (fun l => match l with PrintStr s => [s] | PrintRow _ _ => [] end) printed.

(** One process after the other: each [main] starts in the world and on the
    file that the one before has left. *)
Fixpoint mains {W : Type} `{World W} (argss : list (Args W)) (w : W) (f : dbfile)
  : W * dbfile :=
  match argss with
  | [] => (w, f)
  | args :: rest =>
      let s := snd (main args w f) in
      mains rest (world s) (db s)
  end.

(** A worker without hooks. *)
Definition plain_worker : Worker nat :=
  Worker_init (list_plugin ["t1"; "t2"]) no_scripts "/tmp/ws" "src" "/tmp/out" "0".

(** Scripts whose run-wide setup and whose workspace setup fail. *)
Definition failing_scripts : Scripts :=
  {| setup := Some "false"; setup_workspace := Some "false"; setup_test := None;
     teardown_test := None; teardown_workspace := None; teardown := None |}.

(** A coordinator with those scripts. *)
Definition failing_paratest : Paratest nat :=
  {| workspace_num := 1; pt_workspace_path := "/tmp/ws"; pt_scripts := failing_scripts;
     pt_source_path := "src"; pt_output_path := "/tmp/out"; test_pattern := "";
     _workers := []; pluginmgr := [list_plugin ["t1"; "t2"]] |}.

(** A worker with those scripts. *)
Definition failing_worker : Worker nat :=
  Worker_init (list_plugin ["t1"; "t2"]) failing_scripts "/tmp/ws" "src" "/tmp/out" "0".

(** The command line [run --source src --plugin list -w 2] with hooks. *)
Definition run_args : Args nat :=
  {| action := run; arg_source := "src"; arg_workspace_path := "/tmp/ws";
     arg_output_path := "/tmp/out"; path_db := "paratest.db"; arg_test_pattern := "";
     arg_plugin := Some "list"; workers := 2; arg_scripts := echo_scripts;
     collected := [list_plugin ["t1"; "bad"; "t2"]] |}.

(** The priority of an entry is below [sys.maxsize]. *)
Definition cheap (e : entry) : bool := negb (Qle_bool INFINITE (fst e)).


(** The largest rowid of SQLite, 2^63 - 1. *)
Definition MAX_ROWID : Z := 9223372036854775807.

(** The tests on the lines that [show] prints under the source line [src]:
    the rows between that line and the next source line.  [under] tells
    whether the last source line read was [src]. *)
Fixpoint printed_tests_from (src : string) (under : bool) (printed : list line)
  : list string :=
  match printed with
  | [] => []
  | PrintStr s :: rest => printed_tests_from src (String.eqb s src) rest
  | PrintRow t _ :: rest =>
      if under then t :: printed_tests_from src under rest
      else printed_tests_from src under rest
  end.

Definition printed_tests (src : string) (printed : list line) : list string :=
  printed_tests_from src false printed.

(** None of the six hooks is configured. *)
Definition no_scripts_at_all (sc : Scripts) : bool :=
  unscripted sc && no_hook (setup sc) && no_hook (teardown sc).

(** What a call leaves of the store: the tables with timings of the shared
    object added, and the object itself untouched. *)
Definition store_kept {W : Type} (s s' : state W) (d : database) : Prop :=
  exists d', db s' = Db d' /\ timings_added (pers s) d d' /\ pers s' = pers s.

(* ================================================================= *)
(** * Properties *)

Lemma filter_all (A : Type) (f : A -> bool) (l : list A) :
  Forall (fun x => f x = true) l -> filter f l = l.
Proof.
  induction 1 as [|x l Hx _ IH]; simpl; [reflexivity|].
  now rewrite Hx, IH.
Qed.

Lemma filter_none (A : Type) (f : A -> bool) (l : list A) :
  Forall (fun x => f x = false) l -> filter f l = [].
Proof.
  induction 1 as [|x l Hx _ IH]; simpl; [reflexivity|].
  now rewrite Hx.
Qed.

Lemma map_filter_comm (A B : Type) (g : A -> B) (f : B -> bool) (l : list A) :
  map g (filter (fun x => f (g x)) l) = filter f (map g l).
Proof.
  induction l as [|x l IH]; simpl; [reflexivity|].
  destruct (f (g x)); simpl; now rewrite IH.
Qed.

Lemma insert_desc_below (x : Z) (l : list Z) :
  Forall (fun y => x < y) l -> insert_desc x l = (l ++ [x])%list.
Proof.
  induction 1 as [|y l Hy _ IH]; simpl; [reflexivity|].
  destruct (Z.leb_spec y x); [lia|]. now rewrite IH.
Qed.

Lemma sort_desc_ascending (l : list Z) :
  StronglySorted Z.lt l -> sort_desc l = rev l.
Proof.
  induction 1 as [|x l _ IH Hx]; simpl; [reflexivity|].
  rewrite IH. apply insert_desc_below.
  apply Forall_rev. exact Hx.
Qed.

Lemma ids_from_ascending (n lo : nat) : StronglySorted Z.lt (ids_from lo n).
Proof.
  revert lo. induction n as [|n IH]; intro lo; simpl; constructor.
  - apply IH.
  - apply Forall_forall. intros y Hy. apply in_map_iff in Hy.
    destruct Hy as [k [<- Hk]]. apply in_seq in Hk. lia.
Qed.

Lemma fold_max_ge (l : list Z) (a : Z) : a <= fold_left Z.max l a.
Proof.
  revert a. induction l as [|x l IH]; intro a; simpl; [lia|].
  specialize (IH (Z.max a x)). lia.
Qed.

Lemma fold_max_bound (l : list Z) (a b : Z) :
  a <= b -> Forall (fun x => x <= b) l -> fold_left Z.max l a <= b.
Proof.
  revert a. induction l as [|x l IH]; intros a Ha Hl; simpl; [exact Ha|].
  inversion Hl; subst. apply IH; [lia|assumption].
Qed.

Lemma fold_max_app (l : list Z) (a x : Z) :
  fold_left Z.max (l ++ [x])%list a = Z.max (fold_left Z.max l a) x.
Proof. now rewrite fold_left_app. Qed.

Lemma next_rowid_ids_from (lo n : nat) :
  next_rowid (ids_from lo (S n)) = Z.of_nat (lo + S n).
Proof.
  unfold next_rowid, max_id, ids_from. cbn [seq map].
  assert (E : fold_left Z.max (map Z.of_nat (seq (S lo) n)) (Z.of_nat lo)
              = Z.of_nat (lo + n)).
  { revert lo. induction n as [|n IH]; intros lo; cbn [seq map fold_left].
    - f_equal; lia.
    - replace (Z.max (Z.of_nat lo) (Z.of_nat (S lo))) with (Z.of_nat (S lo)) by lia.
      rewrite IH. f_equal; lia. }
  rewrite E. lia.
Qed.

Lemma max_id_ids_from (lo n : nat) :
  max_id (ids_from lo (S n)) = Some (Z.of_nat (lo + n)).
Proof.
  pose proof (next_rowid_ids_from lo n) as E. unfold next_rowid in E.
  destruct (max_id (ids_from lo (S n))) as [m|] eqn:Em.
  - f_equal. lia.
  - discriminate Em.
Qed.

Lemma ids_from_snoc (lo n : nat) :
  (ids_from lo n ++ [Z.of_nat (lo + n)])%list = ids_from lo (S n).
Proof.
  unfold ids_from. rewrite seq_S, map_app. reflexivity.
Qed.

Lemma nth_error_rev_ids (lo n : nat) :
  nth_error (rev (ids_from lo n)) 5 =
  if (6 <=? n)%nat then Some (Z.of_nat (lo + n - 6)) else None.
Proof.
  destruct (Nat.leb_spec 6 n) as [Hn|Hn].
  - replace n with ((n - 6) + 6)%nat at 1 by lia.
    unfold ids_from. rewrite seq_app, map_app, rev_app_distr.
    simpl. f_equal. f_equal. lia.
  - apply nth_error_None. rewrite length_rev. unfold ids_from.
    rewrite length_map, length_seq. lia.
Qed.

Lemma filter_above_ids (lo n : nat) :
  filter (fun i => negb (i <=? Z.of_nat lo)) (ids_from lo (S n)) = ids_from (S lo) n.
Proof.
  unfold ids_from. cbn [seq map filter].
  rewrite Z.leb_refl. cbn [negb]. apply filter_all.
  apply Forall_forall. intros y Hy. apply in_map_iff in Hy.
  destruct Hy as [k [<- Hk]]. apply in_seq in Hk.
  destruct (Z.leb_spec (Z.of_nat k) (Z.of_nat lo)); [lia|reflexivity].
Qed.

Lemma ids_of_source_all (src : string) (d : database) :
  Forall (fun r => ex_source r = src) (executions d) ->
  ids_of_source src d = map ex_id (executions d).
Proof.
  intro Hs. unfold ids_of_source. f_equal. apply filter_all.
  eapply Forall_impl; [|exact Hs]. intros r Hr. cbn beta.
  rewrite Hr. apply String.eqb_refl.
Qed.

Lemma retained_insert (src now : string) (lo n : nat) (d : database) :
  retained src lo (S n) d ->
  retained src lo (S (S n)) (insert_execution src now d).
Proof.
  intros [Hi Hs Ht]. split; cbn [insert_execution executions testtime].
  - rewrite map_app, Hi. cbn [map ex_id]. rewrite next_rowid_ids_from.
    replace (lo + S n)%nat with (lo + S n)%nat by reflexivity.
    apply ids_from_snoc.
  - apply Forall_app. split; [exact Hs|]. constructor; [reflexivity|constructor].
  - eapply Forall_impl; [|exact Ht]. intros r [e [He Hr]]. exists e. split; [exact He|lia].
Qed.

Lemma retained_delete (src : string) (lo n : nat) (d : database) :
  retained src lo (S n) d ->
  retained src (S lo) n (delete_upto (Z.of_nat lo) d).
Proof.
  intros [Hi Hs Ht]. split; cbn [delete_upto executions testtime].
  - rewrite (map_filter_comm ex_id (fun i => negb (i <=? Z.of_nat lo))).
    rewrite Hi. apply filter_above_ids.
  - apply Forall_forall. intros r Hr. apply filter_In in Hr.
    rewrite Forall_forall in Hs. apply Hs, Hr.
  - apply Forall_forall. intros r Hr. apply filter_In in Hr. destruct Hr as [Hr Hk].
    rewrite Forall_forall in Ht. destruct (Ht r Hr) as [e [He Hb]].
    exists e. split; [exact He|]. rewrite He in Hk. cbn in Hk.
    destruct (Z.leb_spec e (Z.of_nat lo)); [discriminate|lia].
Qed.

Lemma retained_add (src test : string) (duration : Q) (lo n : nat) (d : database) (e : Z) :
  Z.of_nat lo <= e < Z.of_nat (lo + n) ->
  retained src lo n d ->
  retained src lo n (insert_testtime src test duration (Some e) d).
Proof.
  intros He [Hi Hs Ht]. split; cbn [insert_testtime executions testtime]; auto.
  apply Forall_app. split; [exact Ht|]. constructor; [|constructor].
  exists e. split; [reflexivity|exact He].
Qed.

(** The rotation step on a store that holds [n >= 1] records of [src] and
    nothing else. *)
Lemma initialize_retained (p : Persistence) (now : string) (lo n : nat) (d : database) :
  create p = false ->
  retained (source p) lo (S n) d ->
  (S n <= 6)%nat ->
  exists d',
    Persistence_initialize p now (Db d) =
      (Return tt,
       {| create := false; source := source p; db_path := db_path p;
          execution := Some (Z.of_nat (lo + S n)) |},
       Db d') /\
    retained (source p) (if (S n =? 6)%nat then S lo else lo)
             (if (S n =? 6)%nat then 6 else S (S n)) d'.
Proof.
  intros Hc Hr Hn. unfold Persistence_initialize. rewrite Hc. cbn [connect].
  unfold select_deprecated. rewrite (@ids_of_source_all _ d (retained_source Hr)).
  rewrite (retained_ids Hr), (sort_desc_ascending (ids_from_ascending _ _)).
  rewrite nth_error_rev_ids.
  destruct (Nat.eqb_spec (S n) 6) as [E|E].
  - rewrite E. cbn [Nat.leb]. replace (lo + 6 - 6)%nat with lo by lia.
    injection E as ->.
    pose proof (retained_insert now (retained_delete Hr)) as Hr'.
    eexists. split; [|exact Hr'].
    rewrite (@ids_of_source_all _ _ (retained_source Hr')).
    rewrite (retained_ids Hr'), max_id_ids_from.
    replace (S lo + 5)%nat with (lo + 6)%nat by lia. rewrite Hc. reflexivity.
  - destruct (Nat.leb_spec 6 (S n)); [lia|].
    pose proof (retained_insert now Hr) as Hr'.
    eexists. split; [|exact Hr'].
    rewrite (@ids_of_source_all _ _ (retained_source Hr')).
    rewrite (retained_ids Hr'), max_id_ids_from.
    rewrite Hc. reflexivity.
Qed.

Lemma add_all_retained (p : Persistence) (lo n : nat) (e : Z)
      (timings : list (string * Q)) (d : database) :
  execution p = Some e ->
  Z.of_nat lo <= e < Z.of_nat (lo + n) ->
  retained (source p) lo n d ->
  exists d', add_all p timings (Db d) = Db d' /\ retained (source p) lo n d'.
Proof.
  intros He Hb. revert d. induction timings as [|[test duration] rest IH]; intros d Hr.
  - exists d. split; [reflexivity|exact Hr].
  - cbn [add_all]. unfold Persistence_add. cbn [connect snd]. rewrite He.
    apply IH. apply retained_add; assumption.
Qed.

Lemma invocation_first (path src : string) (r : string * list (string * Q)) :
  exists d, invocation path src Missing r = Db d /\ retained src 1 1 d.
Proof.
  unfold invocation, Persistence_init, Persistence_initialize. cbn.
  rewrite String.eqb_refl. cbn.
  apply (@add_all_retained
           {| create := false; source := src; db_path := path; execution := Some 1 |}
           1 1 1 (snd r)); [reflexivity|lia|].
  split; cbn.
  - reflexivity.
  - constructor; [reflexivity|constructor].
  - constructor.
Qed.

Lemma invocation_next (path src : string) (r : string * list (string * Q))
      (lo n : nat) (d : database) :
  retained src lo (S n) d ->
  (S n <= 6)%nat ->
  exists d', invocation path src (Db d) r = Db d' /\
             retained src (if (S n =? 6)%nat then S lo else lo)
                      (if (S n =? 6)%nat then 6 else S (S n)) d'.
Proof.
  intros Hr Hn. unfold invocation.
  destruct (@initialize_retained (Persistence_init path src (Db d)) (fst r) lo n d
              eq_refl Hr Hn) as [d1 [E Hr1]].
  rewrite E. cbn [Persistence_init source] in *.
  apply (@add_all_retained
           {| create := false; source := src; db_path := path;
              execution := Some (Z.of_nat (lo + S n)) |}
           _ _ (Z.of_nat (lo + S n))); [reflexivity| |exact Hr1].
  destruct (Nat.eqb_spec (S n) 6); lia.
Qed.

Lemma invocations_retained (path src : string) (runs : list (string * list (string * Q))) :
  runs <> [] ->
  exists d, invocations path src runs Missing = Db d /\
            retained src (Nat.max 1 (List.length runs - 5)) (Nat.min (List.length runs) 6) d.
Proof.
  induction runs as [|r runs IH] using rev_ind; [congruence|]. intros _.
  unfold invocations. rewrite fold_left_app. cbn [fold_left].
  rewrite length_app. cbn [List.length].
  destruct runs as [|r0 runs'].
  - cbn. apply invocation_first.
  - destruct IH as [d [E Hr]]; [discriminate|].
    unfold invocations in E. rewrite E.
    set (M := List.length (r0 :: runs')) in *.
    assert (HM : (1 <= M)%nat) by (subst M; cbn; lia).
    destruct (Nat.min M 6) as [|n] eqn:En; [lia|].
    destruct (@invocation_next path src r _ _ d Hr) as [d' [E' Hr']]; [lia|].
    exists d'. split; [exact E'|].
    destruct (Nat.eqb_spec (S n) 6) as [E6|E6].
    + replace (Nat.max 1 (M + 1 - 5)) with (S (Nat.max 1 (M - 5))) by lia.
      replace (Nat.min (M + 1) 6) with 6%nat by lia. exact Hr'.
    + replace (Nat.max 1 (M + 1 - 5)) with (Nat.max 1 (M - 5)) by lia.
      replace (Nat.min (M + 1) 6) with (S (S n)) by lia. exact Hr'.
Qed.

(** C1 (amended).  After [M] invocations of the run action for one source on
    a store that starts out missing, the execution records are those with the
    ids [max 1 (M-5) .. M]: exactly [min M 6] of them, all of that source, and
    every timing row points at one of them.  [initialize] prunes before it
    inserts, so the five preceding executions stay next to the new one. *)
Theorem rotation_keeps_six_executions (path src : string)
        (runs : list (string * list (string * Q))) :
  let M := List.length runs in
  let d := tables (invocations path src runs Missing) in
  map ex_id (executions d) = ids_from (Nat.max 1 (M - 5)) (Nat.min M 6) /\
  Forall (fun r => ex_source r = src) (executions d) /\
  List.length (executions d) = Nat.min M 6 /\
  Forall (fun r => exists e, tt_execution r = Some e /\ In e (map ex_id (executions d)))
         (testtime d).
Proof.
  intros M d. destruct runs as [|r runs].
  - cbn. repeat split; constructor.
  - destruct (@invocations_retained path src (r :: runs)) as [d' [E [Hi Hs Ht]]];
      [discriminate|].
    subst d. rewrite E. cbn [tables]. fold M in Hi, Ht.
    repeat split.
    + exact Hi.
    + exact Hs.
    + rewrite <- (length_map ex_id), Hi. unfold ids_from.
      now rewrite length_map, length_seq.
    + eapply Forall_impl; [|exact Ht]. intros row [e [He Hb]].
      exists e. split; [exact He|]. rewrite Hi. unfold ids_from.
      apply in_map_iff. exists (Z.to_nat e). split; [lia|]. apply in_seq. lia.
Qed.

(** C1 as stated fails: after six invocations six execution records are in
    the store, not [min 6 5], and the oldest (id 1) is still there. *)
Lemma six_invocations_keep_six_executions :
  let d := tables (invocations "paratest.db" "src"
                               (repeat ("2020-02-02 20:20:20", []) 6) Missing) in
  List.length (executions d) = 6%nat /\
  List.length (executions d) <> Nat.min 6 5 /\
  In 1 (map ex_id (executions d)).
Proof.
  cbv zeta. vm_compute. repeat split; [discriminate|auto].
Qed.

(** C8.  When [initialize] finds a cutoff for its source, it keeps exactly
    the execution records with a larger id and the timing rows whose
    execution is NULL or larger, whatever their source: a record of another
    source at or below the cutoff is gone afterwards. *)
Theorem initialize_deletes_across_sources (p : Persistence) (now : string)
        (d : database) (c : Z) :
  create p = false ->
  select_deprecated (source p) d = Some c ->
  exists p' d' new,
    Persistence_initialize p now (Db d) = (Return tt, p', Db d') /\
    ex_source new = source p /\
    executions d' =
      (filter (fun r => negb (ex_id r <=? c)) (executions d) ++ [new])%list /\
    testtime d' = filter (fun r => negb (null_leb (tt_execution r) c)) (testtime d) /\
    (forall r, In r (executions d) -> ex_id r <= c -> ex_source r <> source p ->
               ~ In r (executions d')) /\
    (forall r e, In r (testtime d) -> tt_execution r = Some e -> e <= c ->
                 ~ In r (testtime d')).
Proof.
  intros Hc Hsel. unfold Persistence_initialize. rewrite Hc. cbn [connect].
  rewrite Hsel.
  eexists _, _, {| ex_id := _; ex_source := source p; ex_timestamp := now |}.
  split; [reflexivity|].
  cbn [insert_execution delete_upto executions testtime ex_source].
  split; [reflexivity|]. split; [reflexivity|]. split; [reflexivity|]. split.
  - intros r _ Hle Hsrc Hin. apply in_app_or in Hin. destruct Hin as [Hin|[<-|[]]].
    + apply filter_In in Hin. destruct Hin as [_ Hk].
      destruct (Z.leb_spec (ex_id r) c); [discriminate|lia].
    + apply Hsrc. reflexivity.
  - intros r e _ He Hle Hin. apply filter_In in Hin. destruct Hin as [_ Hk].
    rewrite He in Hk. cbn in Hk.
    destruct (Z.leb_spec e c); [discriminate|lia].
Qed.

(** C8, after one run for [B] and six for [A]: the seventh run for [A]
    has cutoff 2 and takes the records of [B] with it. *)
Lemma initialize_deletes_across_sources_witness :
  let p := Persistence_init "paratest.db" "A" store_B_then_A in
  let d := tables store_B_then_A in
  let rB := {| ex_id := 1; ex_source := "B"; ex_timestamp := "2020-02-02 20:20:20" |} in
  let tB := {| tt_id := 1; tt_source := "B"; tt_test := "b"; tt_duration := 3%Q;
               tt_execution := Some 1 |} in
  In rB (executions d) /\ In tB (testtime d) /\
  exists p' d' new,
    Persistence_initialize p "2020-02-02 20:20:21" (Db d) = (Return tt, p', Db d') /\
    ex_source new = source p /\
    executions d' =
      (filter (fun r => negb (ex_id r <=? 2)) (executions d) ++ [new])%list /\
    testtime d' = filter (fun r => negb (null_leb (tt_execution r) 2)) (testtime d) /\
    (forall r, In r (executions d) -> ex_id r <= 2 -> ex_source r <> source p ->
               ~ In r (executions d')) /\
    (forall r e, In r (testtime d) -> tt_execution r = Some e -> e <= 2 ->
                 ~ In r (testtime d')).
Proof.
  cbv zeta. split; [vm_compute; auto|]. split; [vm_compute; auto|].
  apply (@initialize_deletes_across_sources
           (Persistence_init "paratest.db" "A" store_B_then_A)
           "2020-02-02 20:20:21" (tables store_B_then_A) 2).
  - reflexivity.
  - vm_compute. reflexivity.
Defined.

Lemma initialize_keeps_null_rows (p : Persistence) (now : string) (f : dbfile)
      (r : testtime_row) :
  tt_execution r = None ->
  In r (testtime (tables f)) ->
  In r (testtime (tables (snd (Persistence_initialize p now f)))).
Proof.
  intros Hn Hin. destruct f as [| |d]; cbn in Hin; try contradiction.
  unfold Persistence_initialize. cbn [connect].
  destruct (create p); cbn [snd tables]; [exact Hin|].
  destruct (select_deprecated (source p) d) as [c|];
    cbn [insert_execution delete_upto testtime]; [|exact Hin].
  apply filter_In. split; [exact Hin|]. rewrite Hn. reflexivity.
Qed.

Lemma add_keeps_rows (p : Persistence) (test : string) (duration : Q) (f : dbfile)
      (r : testtime_row) :
  In r (testtime (tables f)) ->
  In r (testtime (tables (snd (Persistence_add p test duration f)))).
Proof.
  intro Hin. destruct f as [| |d]; cbn in Hin; try contradiction.
  cbn. apply in_or_app. left. exact Hin.
Qed.

Lemma calls_keep_null_rows (calls : list call) (f : dbfile) (r : testtime_row) :
  tt_execution r = None ->
  In r (testtime (tables f)) ->
  In r (testtime (tables (apply_calls calls f))).
Proof.
  intro Hn. revert f. induction calls as [|c calls IH]; intros f Hin; [exact Hin|].
  cbn [apply_calls fold_left]. apply IH. destruct c as [p now|p test duration]; cbn [apply_call].
  - apply initialize_keeps_null_rows; assumption.
  - apply add_keeps_rows; assumption.
Qed.

Lemma durations_insert (src test : string) (duration : Q) (e : option Z)
      (src' test' : string) (d : database) :
  durations src' test' (insert_testtime src test duration e d) =
  (durations src' test' d ++
   if String.eqb src src' && String.eqb test test' then [duration] else [])%list.
Proof.
  unfold durations. cbn [insert_testtime testtime].
  rewrite filter_app, map_app. cbn [filter tt_source tt_test].
  destruct (String.eqb src src' && String.eqb test test'); reflexivity.
Qed.

(** C10.  On a file with the tables, [add] through an object on which
    [initialize] was never called returns and appends a timing row whose
    execution is NULL; the row counts in [get_priority], and no later
    sequence of [initialize] and [add] calls removes it. *)
Theorem add_without_initialize (path src test : string) (duration : Q) (d : database) :
  let p := Persistence_init path src (Db d) in
  let row := {| tt_id := next_rowid (map tt_id (testtime d));
                tt_source := src; tt_test := test;
                tt_duration := duration; tt_execution := None |} in
  let d' := {| executions := executions d; testtime := (testtime d ++ [row])%list |} in
  Persistence_add p test duration (Db d) = (Return tt, Db d') /\
  Persistence_get_priority p test (Db d') =
    (Return (or_zero (Some (mean (durations src test d ++ [duration])%list))), Db d') /\
  forall calls : list call, In row (testtime (tables (apply_calls calls (Db d')))).
Proof.
  intros p row d'. split; [reflexivity|]. split.
  - unfold Persistence_get_priority. cbn [connect Persistence_init source p].
    change d' with (insert_testtime src test duration None d).
    rewrite durations_insert, !String.eqb_refl. cbn [andb].
    destruct (durations src test d); reflexivity.
  - intro calls. apply calls_keep_null_rows; [reflexivity|].
    cbn. apply in_or_app. right. left. reflexivity.
Qed.

Lemma or_zero_mean (l : list Q) :
  or_zero (avg l) == match l with [] => 0 | _ => mean l end.
Proof.
  destruct l as [|x l]; cbn [avg or_zero]; [reflexivity|].
  destruct (Qeq_bool (mean (x :: l)) 0) eqn:E; [|reflexivity].
  apply Qeq_bool_iff in E. symmetry. exact E.
Qed.







Lemma distinct_in (x : string) (l : list string) : In x (distinct l) <-> In x l.
Proof.
  induction l as [|y l IH]; cbn [distinct]; [tauto|]. split.
  - intros [->|Hin]; [left; reflexivity|]. apply filter_In in Hin. right. apply IH, Hin.
  - intros [->|Hin]; [left; reflexivity|].
    destruct (String.eqb_spec x y) as [->|Hne]; [left; reflexivity|].
    right. apply filter_In. split; [apply IH, Hin|].
    apply negb_true_iff, String.eqb_neq, Hne.
Qed.

Lemma flat_map_block (A B : Type) (f : A -> list B) (x : A) (l : list A) :
  In x l -> exists before after, flat_map f l = (before ++ f x ++ after)%list.
Proof.
  intro Hin. apply in_split in Hin. destruct Hin as [l1 [l2 ->]].
  exists (flat_map f l1), (flat_map f l2).
  rewrite flat_map_app. reflexivity.
Qed.

(** C3 as stated fails: on a file whose tables are empty [show] prints
    nothing at all, so it reports no "no data" state. *)
Lemma show_on_empty_tables_prints_nothing :
  let p := Persistence_init "paratest.db" "src" (Db empty_database) in
  Persistence_show p (Db empty_database) = (Return tt, [], Db empty_database) /\
  ~ In (PrintStr "No database found") (snd (fst (Persistence_show p (Db empty_database)))).
Proof.
  cbv zeta. split; [reflexivity|]. intros [].
Qed.

(** C3 (amended).  Without a database file [show] prints
    [No database found]; on a file with the tables it returns without
    raising, prints nothing when there is no timing row, and otherwise prints,
    for every timing row, the block of its source with its test and the mean
    of the durations of that source and test, which is also what
    [get_priority] returns for them. *)
Theorem show_lists_every_test (p : Persistence) (d : database) :
  Persistence_show p Missing = (Return tt, [PrintStr "No database found"], Missing) /\
  exists printed,
    Persistence_show p (Db d) = (Return tt, printed, Db d) /\
    (testtime d = [] -> printed = []) /\
    forall r, In r (testtime d) ->
      let src := tt_source r in
      let test := tt_test r in
      exists before rows after,
        printed = (before ++ PrintStr src :: map (fun ta => PrintRow (fst ta) (snd ta)) rows
                          ++ after)%list /\
        In (test, mean (durations src test d)) rows /\
        exists q, Persistence_get_priority
                    {| create := create p; source := src; db_path := db_path p;
                       execution := execution p |} test (Db d) = (Return q, Db d) /\
                  q == mean (durations src test d).
Proof.
  split; [reflexivity|]. eexists. split; [reflexivity|]. split.
  - intros ->. reflexivity.
  - intros r Hin src test.
    assert (Hs : In src (distinct (map tt_source (testtime d)))).
    { apply distinct_in, in_map, Hin. }
    destruct (flat_map_block (show_source d) _ _ Hs) as [before [after E]].
    exists before, (group_by_test src d), after. split; [exact E|]. split.
    + unfold group_by_test.
      apply (in_map (fun t => (t, mean (durations src t d)))).
      unfold tests_of_source. apply distinct_in.
      apply (in_map tt_test). apply filter_In. split; [exact Hin|].
      apply String.eqb_refl.
    + eexists. split; [reflexivity|]. cbn [source].
      assert (Hd : In (tt_duration r) (durations src test d)).
      { unfold durations. apply in_map, filter_In. split; [exact Hin|].
        subst src test. now rewrite !String.eqb_refl. }
      destruct (durations src test d) as [|x l]; [contradiction|].
      apply (or_zero_mean (x :: l)).
Qed.

(** C3, on a store with two sources. *)
Lemma show_lists_every_test_witness :
  let p := Persistence_init "paratest.db" "A" (Db two_source_store) in
  exists printed before rows after,
    Persistence_show p (Db two_source_store) = (Return tt, printed, Db two_source_store) /\
    printed = (before ++ PrintStr "B" :: map (fun ta => PrintRow (fst ta) (snd ta)) rows
                      ++ after)%list /\
    In ("b", mean (durations "B" "b" two_source_store)) rows.
Proof.
  cbv zeta.
  destruct (show_lists_every_test
              (Persistence_init "paratest.db" "A" (Db two_source_store)) two_source_store)
    as (_ & printed & E & _ & Hrows).
  destruct (Hrows {| tt_id := 2; tt_source := "B"; tt_test := "b"; tt_duration := 3%Q;
                     tt_execution := Some 2 |})
    as (before & rows & after & Hp & Hin & _).
  - right. left. reflexivity.
  - exists printed, before, rows, after. split; [exact E|]. split; [exact Hp|exact Hin].
Defined.

Section WorkerFacts.
Context {W : Type} `{World W}.

(** [run_script] always returns; it adds log lines and the process call to
    the trace and leaves the store alone. *)
Lemma run_script_spec (script : option string) (kwargs : list (string * string))
      (s : state W) :
  exists rc s' new,
    run_script script kwargs s = (Return rc, s') /\
    trace s' = (trace s ++ new)%list /\
    forallb script_event new = true /\
    db s' = db s /\ pers s' = pers s.
Proof.
  unfold run_script. destruct script as [sc|].
  - destruct (truthy sc).
    + destruct (shell (substitute sc kwargs) _) as [[[rc out] err] w1].
      exists (Some rc).
      destruct (String.eqb out ""), (String.eqb err "");
        eexists; eexists; (split; [reflexivity|]); cbn [emit set_world trace db pers];
        rewrite <- ?app_assoc; (split; [reflexivity|]); auto.
    + exists None, s, []. rewrite app_nil_r. auto.
  - exists None, s, []. rewrite app_nil_r. auto.
Qed.

Lemma Worker_run_script_spec (w : Worker W) (h : hook) (script : option string)
      (message : string) (s : state W) :
  exists r s' new,
    Worker_run_script w h script message s = (r, s') /\
    r <> Blocked /\
    trace s' = (trace s ++ Hook h (name w) :: new)%list /\
    forallb script_event new = true /\
    db s' = db s /\ pers s' = pers s.
Proof.
  unfold Worker_run_script.
  destruct (run_script_spec script
              [("id", name w); ("workspace", workspace_path w);
               ("source", source_path w); ("output", output_path w)]
              (emit (Hook h (name w)) s)) as (rc & s' & new & E & Ht & Hn & Hd & Hp).
  rewrite E. cbn [emit trace db pers] in Ht, Hd, Hp. rewrite <- app_assoc in Ht.
  destruct (failed rc); eexists _, s', new; (split; [reflexivity|]);
    (split; [discriminate|]); auto.
Qed.

Lemma process_spec (w : Worker W) (tid : string) (s : state W) :
  exists logs,
    trace (process w tid s) =
      (trace s ++ if String.eqb tid FINISH then [] else Exec (name w) tid :: logs)%list /\
    forallb script_event logs = true /\
    pers (process w tid s) = pers s.
Proof.
  unfold process. destruct (String.eqb tid FINISH).
  - exists []. rewrite app_nil_r. auto.
  - destruct (clock (world s)) as [start w1].
    destruct (plugin_run _ _ _ _ _ _) as [[e|] w2].
    + exists [Log ERROR e]. cbn. rewrite <- app_assoc. auto.
    + destruct (clock w2) as [stop w3].
      destruct (Persistence_add _ _ _ _) as [[[]|e|] f]; cbn.
      * exists []. auto.
      * exists [Log ERROR (exn_message e)]. rewrite <- app_assoc. auto.
      * exists []. auto.
Qed.

End WorkerFacts.

(** Projections of what [run_script] writes are empty. *)
Lemma gets_script_events (l : list event) : forallb script_event l = true -> gets l = [].
Proof.
  induction l as [|ev l IH]; [reflexivity|]. cbn [forallb]. intro Hl.
  apply andb_prop in Hl. destruct Hl as [He Hl]. unfold gets in *. cbn [flat_map].
  rewrite (IH Hl). destruct ev; try discriminate; reflexivity.
Qed.

Lemma puts_script_events (l : list event) : forallb script_event l = true -> puts l = [].
Proof.
  induction l as [|ev l IH]; [reflexivity|]. cbn [forallb]. intro Hl.
  apply andb_prop in Hl. destruct Hl as [He Hl]. unfold puts in *. cbn [flat_map].
  rewrite (IH Hl). destruct ev; try discriminate; reflexivity.
Qed.

Lemma starts_script_events (l : list event) : forallb script_event l = true -> starts l = [].
Proof.
  induction l as [|ev l IH]; [reflexivity|]. cbn [forallb]. intro Hl.
  apply andb_prop in Hl. destruct Hl as [He Hl]. unfold starts in *. cbn [flat_map].
  rewrite (IH Hl). destruct ev; try discriminate; reflexivity.
Qed.

Lemma execs_script_events (l : list event) : forallb script_event l = true -> execs l = [].
Proof.
  induction l as [|ev l IH]; [reflexivity|]. cbn [forallb]. intro Hl.
  apply andb_prop in Hl. destruct Hl as [He Hl]. unfold execs in *. cbn [flat_map].
  rewrite (IH Hl). destruct ev; try discriminate; reflexivity.
Qed.

Lemma test_steps_script_events (who : string) (l : list event) :
  forallb script_event l = true -> test_steps who l = [].
Proof.
  induction l as [|ev l IH]; [reflexivity|]. cbn [forallb]. intro Hl.
  apply andb_prop in Hl. destruct Hl as [He Hl]. unfold test_steps in *. cbn [filter].
  rewrite (IH Hl). destruct ev; try discriminate; reflexivity.
Qed.

Lemma gets_app (a b : list event) : gets (a ++ b) = (gets a ++ gets b)%list.
Proof. apply flat_map_app. Qed.

Lemma puts_app (a b : list event) : puts (a ++ b) = (puts a ++ puts b)%list.
Proof. apply flat_map_app. Qed.

Lemma starts_app (a b : list event) : starts (a ++ b) = (starts a ++ starts b)%list.
Proof. apply flat_map_app. Qed.

Lemma execs_app (a b : list event) : execs (a ++ b) = (execs a ++ execs b)%list.
Proof. apply flat_map_app. Qed.

Lemma test_steps_app (who : string) (a b : list event) :
  test_steps who (a ++ b) = (test_steps who a ++ test_steps who b)%list.
Proof. apply filter_app. Qed.

Section LoopFacts.
Context {W : Type} `{World W}.

Lemma process_gets (w : Worker W) (tid : string) (s : state W) :
  exists new,
    trace (process w tid s) = (trace s ++ new)%list /\
    gets new = [] /\ test_steps (name w) new = [] /\
    execs new = (if String.eqb tid FINISH then [] else [tid]) /\
    puts new = [] /\ starts new = [].
Proof.
  destruct (process_spec w tid s) as (logs & Ht & Hl & _).
  eexists. split; [exact Ht|].
  destruct (String.eqb tid FINISH); [repeat split|].
  unfold gets, test_steps, execs, puts, starts. cbn [flat_map filter test_step app].
  fold (gets logs) (test_steps (name w) logs) (execs logs) (puts logs) (starts logs).
  rewrite gets_script_events, test_steps_script_events, execs_script_events,
    puts_script_events, starts_script_events by exact Hl.
  repeat split.
Qed.

(** The events of a loop that dequeued [ents] and then a sentinel are the
    turns around these entries, one after the other. *)
Lemma Worker_loop_turns (w : Worker W) (q : queue) (s : state W) :
  exists new,
    trace (snd (Worker_loop w q s)) = (trace s ++ new)%list /\
    forall (ents : list entry) (priority : Q),
      gets new = (ents ++ [(priority, FINISH)])%list ->
      test_steps (name w) new =
        flat_map (turn (name w)) (ents ++ [(priority, FINISH)]) /\
      Forall (fun e => truthy (snd e) = true) ents.
Proof.
  revert s. induction q as [|[priority0 item] q' IH]; intro s; cbn [Worker_loop];
    unfold run_script_setup_test, run_script_teardown_test;
    destruct (Worker_run_script_spec w HSetupTest (setup_test (scripts w))
                ("setup_test failed on worker " ++ name w ++ ". Worker is dead") s)
      as (r1 & s1 & n1 & E1 & _ & T1 & L1 & _); rewrite E1.
  1: assert (Hstop : exists new,
               trace s1 = (trace s ++ new)%list /\
               forall (ents : list entry) (priority : Q),
                 gets new = (ents ++ [(priority, FINISH)])%list ->
                 test_steps (name w) new =
                   flat_map (turn (name w)) (ents ++ [(priority, FINISH)]) /\
                 Forall (fun e => truthy (snd e) = true) ents).
  3: assert (Hstop : exists new,
               trace s1 = (trace s ++ new)%list /\
               forall (ents : list entry) (priority : Q),
                 gets new = (ents ++ [(priority, FINISH)])%list ->
                 test_steps (name w) new =
                   flat_map (turn (name w)) (ents ++ [(priority, FINISH)]) /\
                 Forall (fun e => truthy (snd e) = true) ents).
  1, 3: eexists; split; [exact T1|]; intros ents priority Hg; exfalso;
        unfold gets in Hg; cbn [flat_map app] in Hg; fold (gets n1) in Hg;
        rewrite (gets_script_events _ L1) in Hg;
        symmetry in Hg; apply app_eq_nil in Hg; destruct Hg as [_ Hg]; discriminate Hg.
  - destruct r1 as [[]|e|]; exact Hstop.
  - destruct r1 as [[]|e|]; [|exact Hstop|exact Hstop]. clear Hstop.
    set (s2 := emit (Get (name w) (priority0, item)) s1).
    destruct (process_gets w item s2) as (pn & TP & GP & SP & _).
    set (s3 := process w item s2) in *.
    set (s4 := emit (TaskDone (name w)) s3).
    destruct (Worker_run_script_spec w HTeardownTest (teardown_test (scripts w))
                ("teardown_test failed on worker " ++ name w ++ ". Worker is dead") s4)
      as (r5 & s5 & n5 & E5 & _ & T5 & L5 & _). rewrite E5.
    set (A := ([Hook HSetupTest (name w)] ++ n1 ++ [Get (name w) (priority0, item)] ++ pn
               ++ [TaskDone (name w)] ++ [Hook HTeardownTest (name w)] ++ n5)%list).
    assert (TA : trace s5 = (trace s ++ A)%list).
    { rewrite T5. subst s4. cbn [emit trace]. rewrite TP. subst s2. cbn [emit trace].
      rewrite T1. unfold A. rewrite <- !app_assoc. reflexivity. }
    assert (GA : gets A = [(priority0, item)]).
    { unfold A. rewrite !gets_app, GP, (gets_script_events _ L1), (gets_script_events _ L5).
      reflexivity. }
    assert (SA : test_steps (name w) A = turn (name w) (priority0, item)).
    { unfold A. rewrite !test_steps_app, SP, (test_steps_script_events _ _ L1),
        (test_steps_script_events _ _ L5).
      unfold test_steps. cbn [filter test_step app]. rewrite String.eqb_refl. reflexivity. }
    clearbody A.
    assert (Hlast : exists new,
               trace s5 = (trace s ++ new)%list /\
               forall (ents : list entry) (priority : Q),
                 gets new = (ents ++ [(priority, FINISH)])%list ->
                 test_steps (name w) new =
                   flat_map (turn (name w)) (ents ++ [(priority, FINISH)]) /\
                 Forall (fun e => truthy (snd e) = true) ents).
    { exists A. split; [exact TA|]. intros ents priority Hg. rewrite GA in Hg.
      destruct ents as [|e0 [|e1 ents]]; cbn [app] in Hg.
      - injection Hg as <- <-. cbn [flat_map app]. rewrite app_nil_r. split; [exact SA|constructor].
      - discriminate Hg.
      - discriminate Hg. }
    destruct r5 as [[]|e|]; [|exact Hlast|exact Hlast].
    destruct (truthy item) eqn:Hitem; [|exact Hlast]. clear Hlast.
    destruct (IH s5) as (new & TN & HN).
    exists (A ++ new)%list. split.
    { rewrite TN, TA. now rewrite app_assoc. }
    intros ents priority Hg. rewrite gets_app, GA in Hg. cbn [app] in Hg.
    destruct ents as [|e0 ents]; cbn [app] in Hg.
    + injection Hg as <- Hitem' _. subst item. discriminate Hitem.
    + injection Hg as <- Hg. destruct (HN _ _ Hg) as [HS HF].
      rewrite test_steps_app, SA, HS. split; [reflexivity|].
      constructor; [exact Hitem|exact HF].
Qed.

End LoopFacts.

Lemma appended_app (W : Type) (s s' : state W) (new : list event) :
  trace s' = (trace s ++ new)%list -> appended s s' = new.
Proof.
  intro E. unfold appended. rewrite E, skipn_app, skipn_all, Nat.sub_diag. reflexivity.
Qed.

Lemma hook_calls_test_steps (h : hook) (who : string) (tr : list event) :
  h = HSetupTest \/ h = HTeardownTest ->
  hook_calls h who (test_steps who tr) = hook_calls h who tr.
Proof.
  intro Hh. unfold hook_calls, test_steps. f_equal.
  induction tr as [|ev tr IH]; [reflexivity|]. cbn [filter].
  destruct ev as [h' w'| | | | | | | | |]; cbn [test_step]; try exact IH.
  - destruct h'; cbn [hook_eqb andb];
      try (destruct Hh as [-> | ->]; cbn [hook_eqb andb]; exact IH);
      destruct (String.eqb w' who) eqn:E; cbn [filter]; rewrite ?E, ?andb_false_r, IH;
      reflexivity.
  - destruct (String.eqb who0 who); cbn [filter]; exact IH.
Qed.

Lemma hook_calls_turns (h : hook) (who : string) (l : list entry) :
  h = HSetupTest \/ h = HTeardownTest ->
  hook_calls h who (flat_map (turn who) l) = List.length l.
Proof.
  intro Hh. unfold hook_calls.
  induction l as [|e l IH]; [reflexivity|]. cbn [flat_map turn app filter List.length].
  rewrite String.eqb_refl.
  destruct Hh as [-> | ->]; cbn [hook_eqb andb filter List.length]; now rewrite IH.
Qed.

Section RunFacts.
Context {W : Type} `{World W}.

Lemma Worker_run_turns (w : Worker W) (q : queue) (s : state W) :
  exists new,
    trace (snd (Worker_run w q s)) = (trace s ++ new)%list /\
    forall (ents : list entry) (priority : Q),
      gets new = (ents ++ [(priority, FINISH)])%list ->
      test_steps (name w) new =
        flat_map (turn (name w)) (ents ++ [(priority, FINISH)]) /\
      Forall (fun e => truthy (snd e) = true) ents.
Proof.
  unfold Worker_run, run_script_setup_workspace, run_script_teardown_workspace.
  set (s0 := emit (Log DEBUG (name w ++ " START")) s).
  destruct (Worker_run_script_spec w HSetupWorkspace (setup_workspace (scripts w))
              ("Setup workspace failed on worker " ++ name w ++
               " and could not initialize the environment. Worker is dead") s0)
    as (r1 & s1 & n1 & E1 & _ & T1 & L1 & _). rewrite E1.
  set (pre := ([Log DEBUG (name w ++ " START")] ++ [Hook HSetupWorkspace (name w)] ++ n1)%list).
  assert (Tpre : trace s1 = (trace s ++ pre)%list).
  { rewrite T1. unfold s0, pre. cbn [emit trace]. rewrite <- !app_assoc. reflexivity. }
  assert (Gpre : gets pre = []).
  { unfold pre. rewrite !gets_app, (gets_script_events _ L1). reflexivity. }
  assert (Spre : test_steps (name w) pre = []).
  { unfold pre. rewrite !test_steps_app, (test_steps_script_events _ _ L1). reflexivity. }
  clearbody pre.
  assert (Hdead : exists new,
             trace s1 = (trace s ++ new)%list /\
             forall (ents : list entry) (priority : Q),
               gets new = (ents ++ [(priority, FINISH)])%list ->
               test_steps (name w) new =
                 flat_map (turn (name w)) (ents ++ [(priority, FINISH)]) /\
               Forall (fun e => truthy (snd e) = true) ents).
  { exists pre. split; [exact Tpre|]. intros ents priority Hg. rewrite Gpre in Hg.
    symmetry in Hg. apply app_eq_nil in Hg. destruct Hg as [_ Hg]. discriminate Hg. }
  destruct r1 as [[]|e|]; [|exact Hdead|exact Hdead]. clear Hdead.
  destruct (Worker_loop_turns w q s1) as (new & TN & HN).
  destruct (Worker_loop w q s1) as [[r2 q2] s2]. cbn [snd] in TN.
  assert (Hloop : exists new0,
             trace s2 = (trace s ++ new0)%list /\
             forall (ents : list entry) (priority : Q),
               gets new0 = (ents ++ [(priority, FINISH)])%list ->
               test_steps (name w) new0 =
                 flat_map (turn (name w)) (ents ++ [(priority, FINISH)]) /\
               Forall (fun e => truthy (snd e) = true) ents).
  { exists (pre ++ new)%list. split; [rewrite TN, Tpre; now rewrite app_assoc|].
    intros ents priority Hg. rewrite gets_app, Gpre in Hg. cbn [app] in Hg.
    rewrite test_steps_app, Spre. cbn [app]. apply HN, Hg. }
  destruct r2 as [[]|e|]; [|exact Hloop|exact Hloop]. clear Hloop.
  destruct (Worker_run_script_spec w HTeardownWorkspace (teardown_workspace (scripts w))
              ("Teardown workspace failed on worker " ++ name w ++ ". Worker is dead") s2)
    as (r3 & s3 & n3 & E3 & _ & T3 & L3 & _). rewrite E3. cbn [snd].
  exists (pre ++ new ++ [Hook HTeardownWorkspace (name w)] ++ n3)%list. split.
  { rewrite T3, TN, Tpre. rewrite <- !app_assoc. reflexivity. }
  intros ents priority Hg.
  rewrite !gets_app, Gpre, (gets_script_events _ L3) in Hg.
  cbn [app] in Hg. change (gets [Hook HTeardownWorkspace (name w)]) with (@nil entry) in Hg.
  rewrite app_nil_r in Hg.
  rewrite !test_steps_app, Spre, (test_steps_script_events _ _ L3).
  change (test_steps (name w) [Hook HTeardownWorkspace (name w)]) with (@nil event).
  cbn [app]. rewrite app_nil_r. apply HN, Hg.
Qed.

(** C5.  When a worker dequeues the entries [ents] and then a sentinel, its
    test-level hooks and dequeues are the turns setup-test, get,
    teardown-test around each of these entries, the sentinel included; each
    hook is called [length ents + 1] times, and the entries before the
    sentinel are real tests. *)
Theorem hooks_pair_with_every_dequeue (w : Worker W) (q : queue) (s : state W)
        (ents : list entry) (priority : Q) :
  let s' := snd (Worker_run w q s) in
  let new := appended s s' in
  gets new = (ents ++ [(priority, FINISH)])%list ->
  trace s' = (trace s ++ new)%list /\
  test_steps (name w) new = flat_map (turn (name w)) (ents ++ [(priority, FINISH)]) /\
  hook_calls HSetupTest (name w) new = S (List.length ents) /\
  hook_calls HTeardownTest (name w) new = S (List.length ents) /\
  Forall (fun e => truthy (snd e) = true) ents.
Proof.
  intros s' new Hg. destruct (Worker_run_turns w q s) as (new0 & TN & HN).
  assert (En : new = new0) by (apply appended_app, TN). rewrite En in *.
  destruct (HN _ _ Hg) as [HS HF].
  split; [exact TN|]. split; [exact HS|].
  rewrite <- (@hook_calls_test_steps HSetupTest) by auto.
  rewrite <- (@hook_calls_test_steps HTeardownTest) by auto.
  rewrite HS, !hook_calls_turns by auto.
  rewrite length_app, Nat.add_comm. cbn [List.length Nat.add]. auto.
Qed.

End RunFacts.

(** C5, for a worker that runs two tests and then meets a sentinel. *)
Lemma hooks_pair_with_every_dequeue_witness :
  let q := [(0%Q, "t2"); (5%Q, "t1"); (INFINITE, FINISH); (INFINITE, FINISH)] in
  let s' := snd (@Worker_run nat tick_world sample_worker q sample_state) in
  let new := appended sample_state s' in
  gets new = ([(0%Q, "t2"); (5%Q, "t1")] ++ [(INFINITE, FINISH)])%list /\
  hook_calls HSetupTest "0" new = 3%nat /\
  hook_calls HTeardownTest "0" new = 3%nat.
Proof.
  cbv zeta.
  assert (Hg : gets (appended sample_state
                 (snd (@Worker_run nat tick_world sample_worker
                         [(0%Q, "t2"); (5%Q, "t1"); (INFINITE, FINISH); (INFINITE, FINISH)]
                         sample_state)))
               = ([(0%Q, "t2"); (5%Q, "t1")] ++ [(INFINITE, FINISH)])%list)
    by (vm_compute; reflexivity).
  split; [exact Hg|].
  destruct (@hooks_pair_with_every_dequeue nat tick_world sample_worker _ sample_state
              _ _ Hg) as (_ & _ & Hs & Ht & _).
  split; [exact Hs|exact Ht].
Defined.

Section ProcessFacts.
Context {W : Type} `{World W}.

(** C7.  When [plugin.run] raises for a test, [process] logs the error and
    leaves the store as it is, the loop goes on with the rest of the queue,
    and no timing has been recorded over the whole turn; [process] changes
    the store only for a real test whose execution returned. *)
Theorem failing_test_is_contained (w : Worker W) (priority : Q) (tid : string)
        (q : queue) (s s1 s5 : state W) (e : string) :
  tid <> FINISH ->
  run_script_setup_test w s = (Return tt, s1) ->
  let s2 := emit (Get (name w) (priority, tid)) s1 in
  fst (plugin_run (plugin w) (name w) tid (workspace_path w) (output_path w)
                  (snd (clock (world s2)))) = Some e ->
  run_script_teardown_test w (emit (TaskDone (name w)) (process w tid s2))
    = (Return tt, s5) ->
  db (process w tid s2) = db s2 /\
  trace (process w tid s2) = (trace s2 ++ [Exec (name w) tid; Log ERROR e])%list /\
  Worker_loop w ((priority, tid) :: q) s = Worker_loop w q s5 /\
  db s5 = db s /\
  forall (tid' : string) (s' : state W),
    db (process w tid' s') <> db s' ->
    tid' <> FINISH /\
    fst (plugin_run (plugin w) (name w) tid' (workspace_path w) (output_path w)
                    (snd (clock (world s')))) = None.
Proof.
  intros Hne Hsetup s2 Hrun Hteardown.
  assert (Htid : String.eqb tid FINISH = false) by (apply String.eqb_neq, Hne).
  assert (Hp : db (process w tid s2) = db s2 /\
               trace (process w tid s2) = (trace s2 ++ [Exec (name w) tid; Log ERROR e])%list).
  { unfold process. rewrite Htid.
    destruct (clock (world s2)) as [start w1]. cbn [snd] in Hrun.
    destruct (plugin_run (plugin w) (name w) tid (workspace_path w) (output_path w) w1)
      as [r w2]. cbn [fst] in Hrun. subst r.
    cbn [emit set_world db trace]. rewrite <- app_assoc. split; reflexivity. }
  destruct Hp as [Hdb Htr]. split; [exact Hdb|]. split; [exact Htr|]. split; [|split].
  - cbn [Worker_loop]. rewrite Hsetup. fold s2. rewrite Hteardown.
    unfold truthy. unfold FINISH in Htid. rewrite Htid. reflexivity.
  - unfold run_script_setup_test in Hsetup. unfold run_script_teardown_test in Hteardown.
    destruct (Worker_run_script_spec w HSetupTest (setup_test (scripts w))
                ("setup_test failed on worker " ++ name w ++ ". Worker is dead") s)
      as (r1 & s1' & n1 & E1 & _ & _ & _ & D1 & _).
    rewrite Hsetup in E1. injection E1 as _ <-.
    destruct (Worker_run_script_spec w HTeardownTest (teardown_test (scripts w))
                ("teardown_test failed on worker " ++ name w ++ ". Worker is dead")
                (emit (TaskDone (name w)) (process w tid s2)))
      as (r5 & s5' & n5 & E5 & _ & _ & _ & D5 & _).
    rewrite Hteardown in E5. injection E5 as _ <-.
    rewrite D5. cbn [emit db]. rewrite Hdb. subst s2. cbn [emit db]. exact D1.
  - intros tid' s' Hchg. unfold process in Hchg |- *.
    destruct (String.eqb_spec tid' FINISH) as [->|Hne']; [contradiction Hchg; reflexivity|].
    split; [exact Hne'|].
    destruct (clock (world s')) as [start w1]. cbn [snd].
    destruct (plugin_run (plugin w) (name w) tid' (workspace_path w) (output_path w) w1)
      as [[e'|] w2]; [|reflexivity].
    contradiction Hchg. reflexivity.
Qed.

End ProcessFacts.

(** C7, for the failing test [bad]. *)
Lemma failing_test_is_contained_witness :
  let w := sample_worker in
  let s := sample_state in
  let s1 := snd (@run_script_setup_test nat tick_world w s) in
  let s2 := emit (Get (name w) (3%Q, "bad")) s1 in
  let s5 := snd (@run_script_teardown_test nat tick_world w
                   (emit (TaskDone (name w)) (@process nat tick_world w "bad" s2))) in
  db (@process nat tick_world w "bad" s2) = db s2 /\
  @Worker_loop nat tick_world w [(3%Q, "bad"); (INFINITE, FINISH)] s
    = @Worker_loop nat tick_world w [(INFINITE, FINISH)] s5 /\
  db s5 = db s.
Proof.
  cbv zeta.
  destruct (@failing_test_is_contained nat tick_world sample_worker 3%Q "bad"
              [(INFINITE, FINISH)] sample_state
              (snd (@run_script_setup_test nat tick_world sample_worker sample_state))
              (snd (@run_script_teardown_test nat tick_world sample_worker
                      (emit (TaskDone (name sample_worker))
                         (@process nat tick_world sample_worker "bad"
                            (emit (Get (name sample_worker) (3%Q, "bad"))
                               (snd (@run_script_setup_test nat tick_world sample_worker
                                       sample_state)))))))
              "bad test")
    as (H1 & _ & H3 & H4 & _).
  - discriminate.
  - vm_compute. reflexivity.
  - vm_compute. reflexivity.
  - vm_compute. reflexivity.
  - split; [exact H1|]. split; [exact H3|exact H4].
Defined.

Lemma put_permutation (e : entry) (q : queue) : Permutation (put e q) (e :: q).
Proof.
  induction q as [|x q IH]; cbn [put]; [apply Permutation_refl|].
  destruct (entry_ltb e x); [apply Permutation_refl|].
  eapply Permutation_trans; [apply perm_skip, IH|apply perm_swap].
Qed.

Lemma interleaved_counts (W : Type) (ws : list (Worker W)) (before after : list event)
      (e : entry) :
  flat_map (@start_and_put W) ws = (before ++ Put e :: after)%list ->
  List.length (starts before) = S (List.length (puts before)).
Proof.
  revert before. induction ws as [|t ws IH]; intros before E; cbn [flat_map] in E.
  - destruct before; discriminate E.
  - unfold start_and_put at 1 in E. cbn [app] in E.
    destruct before as [|b0 [|b1 before]]; cbn [app] in E.
    + discriminate E.
    + injection E as <- _ _. reflexivity.
    + injection E as <- <- E. apply IH in E.
      unfold starts, puts in *. cbn [flat_map app List.length]. now rewrite E.
Qed.

Section CoordinatorFacts.
Context {W : Type} `{World W}.

Lemma start_workers_loop_spec (ws : list (Worker W)) (q : queue) (s : state W) :
  trace (snd (start_workers_loop ws q s)) =
    (trace s ++ flat_map (@start_and_put W) ws)%list /\
  Permutation (fst (start_workers_loop ws q s))
              (repeat (INFINITE, FINISH) (List.length ws) ++ q) /\
  world (snd (start_workers_loop ws q s)) = world s /\
  db (snd (start_workers_loop ws q s)) = db s /\
  pers (snd (start_workers_loop ws q s)) = pers s.
Proof.
  revert q s. induction ws as [|t ws IH]; intros q s; cbn [start_workers_loop].
  - cbn. rewrite app_nil_r. auto.
  - destruct (IH (put (INFINITE, FINISH) q)
                 (emit (Put (INFINITE, FINISH)) (emit (Start (name t)) s)))
      as (Ht & Hq & Hw & Hd & Hp).
    rewrite Ht, Hw, Hd, Hp. cbn [emit trace world db pers flat_map start_and_put].
    rewrite <- !app_assoc. cbn [app]. repeat split; auto.
    eapply Permutation_trans; [exact Hq|]. cbn [List.length repeat app].
    eapply Permutation_trans;
      [apply Permutation_app_head, put_permutation|].
    apply Permutation_sym, Permutation_middle.
Qed.

Lemma starts_flat_map (ws : list (Worker W)) :
  starts (flat_map (@start_and_put W) ws) = map (@name W) ws.
Proof.
  induction ws as [|t ws IH]; [reflexivity|].
  cbn [flat_map start_and_put app map]. unfold starts in *. cbn [flat_map app].
  now rewrite IH.
Qed.

Lemma puts_flat_map (ws : list (Worker W)) :
  puts (flat_map (@start_and_put W) ws) = repeat (INFINITE, FINISH) (List.length ws).
Proof.
  induction ws as [|t ws IH]; [reflexivity|].
  cbn [flat_map start_and_put app List.length repeat]. unfold puts in *. cbn [flat_map app].
  now rewrite IH.
Qed.

(** C2 (amended).  [start_workers] pushes exactly one sentinel per worker,
    each right after that worker has been started: the trace is
    [Start w0; Put; Start w1; Put; ...], so at every push the number of
    workers started is the number of sentinels already pushed plus one. *)
Theorem start_workers_starts_and_puts_in_turn (pt : Paratest W) (q : queue) (s : state W) :
  let q' := fst (start_workers pt q s) in
  let s' := snd (start_workers pt q s) in
  let new := appended s s' in
  trace s' = (trace s ++ new)%list /\
  new = Log DEBUG "start workers" :: flat_map (@start_and_put W) (_workers pt) /\
  starts new = map (@name W) (_workers pt) /\
  puts new = repeat (INFINITE, FINISH) (List.length (_workers pt)) /\
  Permutation q' (repeat (INFINITE, FINISH) (List.length (_workers pt)) ++ q) /\
  forall before after e,
    new = (before ++ Put e :: after)%list ->
    List.length (starts before) = S (List.length (puts before)).
Proof.
  intros q' s' new. unfold start_workers in q', s'.
  destruct (start_workers_loop_spec (_workers pt) q (emit (Log DEBUG "start workers") s))
    as (Ht & Hq & _).
  fold s' in Ht. fold q' in Hq. cbn [emit trace] in Ht. rewrite <- app_assoc in Ht.
  cbn [app] in Ht.
  assert (En : new = Log DEBUG "start workers" :: flat_map (@start_and_put W) (_workers pt))
    by (apply appended_app, Ht).
  rewrite En. split; [exact Ht|]. split; [reflexivity|].
  split; [apply (starts_flat_map (_workers pt))|].
  split; [apply (puts_flat_map (_workers pt))|].
  split; [exact Hq|].
  intros before after e E. destruct before as [|b before]; cbn [app] in E; [discriminate E|].
  injection E as <- E. apply interleaved_counts in E. exact E.
Qed.

End CoordinatorFacts.

(** C2 as stated fails: with two workers the first sentinel is pushed
    before the second worker is started. *)
Lemma second_worker_starts_after_first_sentinel :
  let s' := snd (@start_workers nat two_worker_paratest [] sample_state) in
  appended sample_state s' =
    [Log DEBUG "start workers"; Start "0"; Put (INFINITE, FINISH);
     Start "1"; Put (INFINITE, FINISH)] /\
  starts_precede_puts (appended sample_state s') = false.
Proof.
  cbv zeta. split; vm_compute; reflexivity.
Qed.

(** C2, at two workers: the first sentinel follows one start. *)
Lemma start_workers_starts_and_puts_in_turn_witness :
  let new := appended sample_state
               (snd (@start_workers nat two_worker_paratest [] sample_state)) in
  new = ([Log DEBUG "start workers"; Start "0"] ++
         Put (INFINITE, FINISH) :: [Start "1"; Put (INFINITE, FINISH)])%list /\
  List.length (starts [Log DEBUG "start workers"; Start "0"]) =
    S (List.length (puts [Log DEBUG "start workers"; Start "0"])).
Proof.
  cbv zeta.
  assert (E : appended sample_state
                (snd (@start_workers nat two_worker_paratest [] sample_state)) =
              ([Log DEBUG "start workers"; Start "0"] ++
               Put (INFINITE, FINISH) :: [Start "1"; Put (INFINITE, FINISH)])%list)
    by (vm_compute; reflexivity).
  split; [exact E|].
  destruct (@start_workers_starts_and_puts_in_turn nat two_worker_paratest []
              sample_state) as (_ & _ & _ & _ & _ & Hturn).
  exact (Hturn _ _ _ E).
Defined.

Section RunWithoutTests.
Context {W : Type} `{World W}.

Lemma Paratest_run_script_setup_spec (pt : Paratest W) (s : state W) :
  exists r s' new,
    Paratest_run_script_setup pt s = (r, s') /\
    r <> Blocked /\
    trace s' = (trace s ++ Hook HSetup MainThread :: new)%list /\
    forallb script_event new = true /\
    db s' = db s /\ pers s' = pers s.
Proof.
  unfold Paratest_run_script_setup.
  destruct (run_script_spec (setup (pt_scripts pt)) [("path", pt_workspace_path pt)]
              (emit (Hook HSetup MainThread) s)) as (rc & s' & new & E & Ht & Hn & Hd & Hp).
  rewrite E. cbn [emit trace db pers] in Ht, Hd, Hp. rewrite <- app_assoc in Ht.
  destruct (failed rc); eexists _, s', new; (split; [reflexivity|]);
    (split; [discriminate|]); auto.
Qed.

Lemma Paratest_run_script_teardown_spec (pt : Paratest W) (s : state W) :
  exists r s' new,
    Paratest_run_script_teardown pt s = (r, s') /\
    r <> Blocked /\
    trace s' = (trace s ++ Hook HTeardown MainThread :: new)%list /\
    forallb script_event new = true /\
    db s' = db s /\ pers s' = pers s.
Proof.
  unfold Paratest_run_script_teardown.
  destruct (run_script_spec (teardown (pt_scripts pt)) [("path", pt_workspace_path pt)]
              (emit (Hook HTeardown MainThread) s)) as (rc & s' & new & E & Ht & Hn & Hd & Hp).
  rewrite E. cbn [emit trace db pers] in Ht, Hd, Hp. rewrite <- app_assoc in Ht.
  destruct (failed rc); eexists _, s', new; (split; [reflexivity|]);
    (split; [discriminate|]); auto.
Qed.

Lemma range_nonpositive (n : Z) : n <= 0 -> range n = [].
Proof.
  intro Hn. unfold range. replace (Z.to_nat n) with 0%nat by lia. reflexivity.
Qed.

(** C9.  When the plugin finds no test and the run-wide hooks succeed,
    [run] returns: no worker is created, started or joined, no sentinel is
    pushed, the queue stays empty and the store is untouched. *)
Theorem run_without_tests (pt : Paratest W) (nm : string) (pluginobj : Plugin W)
        (s s1 s6 : state W) (w1 : W) :
  getPluginByName pt nm = Some pluginobj ->
  _workers pt = [] ->
  Paratest_run_script_setup pt s = (Return tt, s1) ->
  find pluginobj (pt_source_path pt) (test_pattern pt) (world s1) = ([], w1) ->
  Paratest_run_script_teardown pt
    (emit (Log DEBUG "wait for all workers to finish")
       (emit (Log DEBUG "start workers") (set_world w1 s1))) = (Return tt, s6) ->
  exists pt',
    Paratest_run pt nm [] s = (Return tt, pt', [], s6) /\
    _workers pt' = [] /\
    num_of_workers pt 0 <= 0 /\
    starts (appended s s6) = [] /\
    puts (appended s s6) = [] /\
    gets (appended s s6) = [] /\
    db s6 = db s.
Proof.
  intros Hplugin Hws Hsetup Hfind Hteardown.
  assert (Hn : num_of_workers pt 0 <= 0) by (unfold num_of_workers; lia).
  unfold Paratest_run. rewrite Hplugin, Hsetup.
  unfold queue_tests. rewrite Hfind. cbn [queue_tests_loop].
  unfold create_workers. rewrite (range_nonpositive Hn), Hws. cbn [map app].
  unfold start_workers, wait_workers. cbn [set_workers _workers start_workers_loop
    wait_workers_loop].
  change (Paratest_run_script_teardown (set_workers [] pt))
    with (Paratest_run_script_teardown pt).
  rewrite Hteardown. cbn [assert_all_messages_were_processed empty negb].
  eexists. split; [reflexivity|]. split; [reflexivity|]. split; [exact Hn|].
  destruct (Paratest_run_script_setup_spec pt s) as (r1 & s1' & n1 & E1 & _ & T1 & L1 & D1 & _).
  rewrite Hsetup in E1. injection E1 as <- <-.
  destruct (Paratest_run_script_teardown_spec pt
              (emit (Log DEBUG "wait for all workers to finish")
                 (emit (Log DEBUG "start workers") (set_world w1 s1))))
    as (r6 & s6' & n6 & E6 & _ & T6 & L6 & D6 & _).
  rewrite Hteardown in E6. injection E6 as <- <-.
  cbn [emit set_world trace db] in T6, D6. rewrite T1 in T6. rewrite <- !app_assoc in T6.
  assert (T : trace s6 =
              (trace s ++ [Hook HSetup MainThread] ++ n1 ++ [Log DEBUG "start workers"] ++
               [Log DEBUG "wait for all workers to finish"] ++
               [Hook HTeardown MainThread] ++ n6)%list) by exact T6.
  rewrite (@appended_app _ _ _ _ T).
  rewrite !starts_app, !puts_app, !gets_app.
  rewrite (starts_script_events _ L1), (starts_script_events _ L6),
    (puts_script_events _ L1), (puts_script_events _ L6),
    (gets_script_events _ L1), (gets_script_events _ L6).
  repeat split. rewrite D6. exact D1.
Qed.

End RunWithoutTests.

(** C9, with five configured workers and no test. *)
Lemma run_without_tests_witness :
  exists pt' s6,
    @Paratest_run nat tick_world no_test_paratest "list" [] sample_state
      = (Return tt, pt', [], s6) /\
    _workers pt' = [] /\
    starts (appended sample_state s6) = [] /\
    puts (appended sample_state s6) = [] /\
    db s6 = db sample_state.
Proof.
  destruct (@run_without_tests nat tick_world no_test_paratest "list" (list_plugin [])
              sample_state
              (snd (@Paratest_run_script_setup nat tick_world no_test_paratest sample_state))
              (snd (@Paratest_run_script_teardown nat tick_world no_test_paratest
                      (emit (Log DEBUG "wait for all workers to finish")
                         (emit (Log DEBUG "start workers")
                            (set_world 1%nat
                               (snd (@Paratest_run_script_setup nat tick_world
                                       no_test_paratest sample_state)))))))
              1%nat)
    as (pt' & E & Hw & _ & Hs & Hp & _ & Hd).
  - reflexivity.
  - reflexivity.
  - vm_compute. reflexivity.
  - vm_compute. reflexivity.
  - vm_compute. reflexivity.
  - eexists pt', _. split; [exact E|]. auto.
Defined.

Lemma entry_ltb_true (a b : entry) : entry_ltb a b = true -> priority_le a b.
Proof.
  unfold entry_ltb, priority_le. destruct (Qcompare (fst a) (fst b)) eqn:E; intro Hl.
  - apply Qeq_alt in E. rewrite E. apply Qle_refl.
  - apply Qlt_alt in E. apply Qlt_le_weak, E.
  - discriminate Hl.
Qed.

Lemma entry_ltb_false (a b : entry) : entry_ltb a b = false -> priority_le b a.
Proof.
  unfold entry_ltb, priority_le. destruct (Qcompare (fst a) (fst b)) eqn:E; intro Hl.
  - apply Qeq_alt in E. rewrite E. apply Qle_refl.
  - discriminate Hl.
  - apply Qgt_alt in E. apply Qlt_le_weak, E.
Qed.

Lemma priority_le_trans (a b c : entry) :
  priority_le a b -> priority_le b c -> priority_le a c.
Proof. unfold priority_le. apply Qle_trans. Qed.

Lemma put_sorted (e : entry) (q : queue) :
  StronglySorted priority_le q -> StronglySorted priority_le (put e q).
Proof.
  induction 1 as [|x q Hq IH Hx]; cbn [put].
  - constructor; constructor.
  - destruct (entry_ltb e x) eqn:E.
    + constructor; [constructor; assumption|].
      apply entry_ltb_true in E. constructor; [exact E|].
      eapply Forall_impl; [|exact Hx]. intros y Hy. eapply priority_le_trans; eassumption.
    + constructor; [exact IH|].
      apply entry_ltb_false in E.
      eapply Permutation_Forall; [apply Permutation_sym, put_permutation|].
      constructor; assumption.
Qed.

Lemma reachable_sorted (q : queue) : reachable q -> StronglySorted priority_le q.
Proof.
  induction 1 as [|e q _ IH|e q q' _ IH Hg].
  - constructor.
  - apply put_sorted, IH.
  - destruct q as [|x q0]; [discriminate Hg|]. injection Hg as _ <-.
    inversion IH; assumption.
Qed.

Lemma drain_all (q : queue) : drain (List.length q) q = q.
Proof.
  induction q as [|e q IH]; [reflexivity|]. cbn [List.length drain get]. now rewrite IH.
Qed.

Lemma firstn_sorted (A : Type) (R : A -> A -> Prop) (k : nat) (l : list A) :
  StronglySorted R l -> StronglySorted R (firstn k l).
Proof.
  intro Hs. revert k. induction Hs as [|x l Hl IH Hx]; intros [|k]; cbn [firstn];
    try constructor.
  - apply IH.
  - rewrite Forall_forall in *. intros y Hy. apply Hx.
    rewrite <- (firstn_skipn k l). apply in_or_app. left. exact Hy.
Qed.

Lemma firstn_then_firstn (A : Type) (k1 k2 : nat) (l : list A) :
  (firstn k1 l ++ firstn k2 (skipn k1 l))%list = firstn (k1 + k2) l.
Proof.
  revert l. induction k1 as [|k1 IH]; intro l; [reflexivity|].
  destruct l as [|x l]; cbn [firstn skipn Nat.add app].
  - now rewrite firstn_nil.
  - now rewrite IH.
Qed.

Lemma skipn_then_skipn (A : Type) (k1 k2 : nat) (l : list A) :
  skipn k2 (skipn k1 l) = skipn (k1 + k2) l.
Proof.
  revert l. induction k1 as [|k1 IH]; intro l; [reflexivity|].
  destruct l as [|x l]; cbn [skipn Nat.add].
  - now rewrite skipn_nil.
  - apply IH.
Qed.

Lemma in_order_quiet (q : queue) (new : list event) :
  gets new = [] -> execs new = [] -> puts new = [] -> starts new = [] ->
  in_order q q new.
Proof.
  intros Hg He Hp Hs. exists 0%nat. cbn [firstn skipn map filter]. auto.
Qed.

Lemma in_order_app (q q1 q2 : queue) (a b : list event) :
  in_order q q1 a -> in_order q1 q2 b -> in_order q q2 (a ++ b).
Proof.
  intros (k1 & G1 & Q1 & E1 & P1 & S1) (k2 & G2 & Q2 & E2 & P2 & S2).
  exists (k1 + k2)%nat. subst q1 q2.
  rewrite gets_app, execs_app, puts_app, starts_app, G1, G2, E1, E2, P1, P2, S1, S2.
  rewrite <- firstn_then_firstn, skipn_then_skipn, map_app, filter_app. auto.
Qed.

Lemma in_order_script (q : queue) (new : list event) :
  forallb script_event new = true -> in_order q q new.
Proof.
  intro Hl. apply in_order_quiet.
  - apply gets_script_events, Hl.
  - apply execs_script_events, Hl.
  - apply puts_script_events, Hl.
  - apply starts_script_events, Hl.
Qed.

Section OrderFacts.
Context {W : Type} `{World W}.

Lemma in_order_hook (q : queue) (h : hook) (who : string) (new : list event) :
  forallb script_event new = true -> in_order q q (Hook h who :: new).
Proof.
  intro Hl. apply (@in_order_app q q q [Hook h who] new).
  - apply in_order_quiet; reflexivity.
  - apply in_order_script, Hl.
Qed.

Lemma in_order_turn (w : Worker W) (e : entry) (q : queue) (pn n5 : list event) :
  gets pn = [] -> puts pn = [] -> starts pn = [] ->
  execs pn = (if String.eqb (snd e) FINISH then [] else [snd e]) ->
  forallb script_event n5 = true ->
  in_order (e :: q) q
    ([Get (name w) e] ++ pn ++ [TaskDone (name w)] ++ Hook HTeardownTest (name w) :: n5).
Proof.
  intros Hg Hp Hs He L5. exists 1%nat.
  rewrite !gets_app, !execs_app, !puts_app, !starts_app, Hg, Hp, Hs, He.
  change (Hook HTeardownTest (name w) :: n5) with ([Hook HTeardownTest (name w)] ++ n5)%list.
  rewrite !gets_app, !execs_app, !puts_app, !starts_app.
  rewrite (gets_script_events _ L5), (execs_script_events _ L5),
    (puts_script_events _ L5), (starts_script_events _ L5).
  cbn [firstn skipn map filter snd]. unfold truthy. unfold FINISH.
  destruct (String.eqb (snd e) ""); cbn; auto.
Qed.

(** The loop dequeues a prefix of the queue, in the order of the queue. *)
Lemma Worker_loop_order (w : Worker W) (q : queue) (s : state W) :
  exists new,
    trace (snd (Worker_loop w q s)) = (trace s ++ new)%list /\
    in_order q (snd (fst (Worker_loop w q s))) new.
Proof.
  revert s. induction q as [|[priority0 item] q' IH]; intro s; cbn [Worker_loop];
    unfold run_script_setup_test, run_script_teardown_test;
    destruct (Worker_run_script_spec w HSetupTest (setup_test (scripts w))
                ("setup_test failed on worker " ++ name w ++ ". Worker is dead") s)
      as (r1 & s1 & n1 & E1 & _ & T1 & L1 & _); rewrite E1.
  - exists (Hook HSetupTest (name w) :: n1).
    destruct r1 as [[]|e|]; cbn [fst snd]; (split; [exact T1|]);
      apply in_order_hook, L1.
  - destruct r1 as [[]|e|]; cbn [fst snd].
    2, 3: exists (Hook HSetupTest (name w) :: n1); (split; [exact T1|]);
          apply in_order_hook, L1.
    set (s2 := emit (Get (name w) (priority0, item)) s1).
    destruct (process_gets w item s2) as (pn & TP & GP & _ & EP & PP & SP).
    set (s3 := process w item s2) in *.
    set (s4 := emit (TaskDone (name w)) s3).
    destruct (Worker_run_script_spec w HTeardownTest (teardown_test (scripts w))
                ("teardown_test failed on worker " ++ name w ++ ". Worker is dead") s4)
      as (r5 & s5 & n5 & E5 & _ & T5 & L5 & _). rewrite E5.
    set (A := ((Hook HSetupTest (name w) :: n1) ++
               [Get (name w) (priority0, item)] ++ pn ++ [TaskDone (name w)] ++
               Hook HTeardownTest (name w) :: n5)%list).
    assert (TA : trace s5 = (trace s ++ A)%list).
    { rewrite T5. unfold s4. cbn [emit trace]. rewrite TP. unfold s2. cbn [emit trace].
      rewrite T1. unfold A. rewrite <- !app_assoc. reflexivity. }
    assert (OA : in_order ((priority0, item) :: q') q' A).
    { unfold A. eapply in_order_app; [apply in_order_hook, L1|].
      apply in_order_turn; assumption. }
    clearbody A.
    destruct r5 as [[]|e|]; cbn [fst snd].
    2, 3: exists A; split; [exact TA|exact OA].
    destruct (truthy item); cbn [fst snd]; [|exists A; split; [exact TA|exact OA]].
    destruct (IH s5) as (new & TN & ON).
    exists (A ++ new)%list. split.
    + rewrite TN, TA. now rewrite app_assoc.
    + eapply in_order_app; eassumption.
Qed.

Lemma Worker_run_order (w : Worker W) (q : queue) (s : state W) :
  exists new,
    trace (snd (Worker_run w q s)) = (trace s ++ new)%list /\
    in_order q (snd (fst (Worker_run w q s))) new.
Proof.
  unfold Worker_run, run_script_setup_workspace, run_script_teardown_workspace.
  set (s0 := emit (Log DEBUG (name w ++ " START")) s).
  destruct (Worker_run_script_spec w HSetupWorkspace (setup_workspace (scripts w))
              ("Setup workspace failed on worker " ++ name w ++
               " and could not initialize the environment. Worker is dead") s0)
    as (r1 & s1 & n1 & E1 & _ & T1 & L1 & _). rewrite E1.
  set (pre := ([Log DEBUG (name w ++ " START")] ++ Hook HSetupWorkspace (name w) :: n1)%list).
  assert (Tpre : trace s1 = (trace s ++ pre)%list).
  { rewrite T1. unfold s0, pre. cbn [emit trace]. rewrite <- !app_assoc. reflexivity. }
  assert (Opre : forall q0, in_order q0 q0 pre).
  { intro q0. unfold pre. eapply in_order_app; [|apply in_order_hook, L1].
    apply in_order_quiet; reflexivity. }
  clearbody pre.
  destruct r1 as [[]|e|]; cbn [fst snd].
  2, 3: exists pre; split; [exact Tpre|apply Opre].
  destruct (Worker_loop_order w q s1) as (new & TN & ON).
  destruct (Worker_loop w q s1) as [[r2 q2] s2]. cbn [fst snd] in TN, ON.
  assert (T2 : trace s2 = (trace s ++ pre ++ new)%list).
  { rewrite TN, Tpre. now rewrite app_assoc. }
  assert (O2 : in_order q q2 (pre ++ new)).
  { eapply in_order_app; [apply Opre|exact ON]. }
  destruct r2 as [[]|e|]; cbn [fst snd].
  2, 3: exists (pre ++ new)%list; split; [exact T2|exact O2].
  destruct (Worker_run_script_spec w HTeardownWorkspace (teardown_workspace (scripts w))
              ("Teardown workspace failed on worker " ++ name w ++ ". Worker is dead") s2)
    as (r3 & s3 & n3 & E3 & _ & T3 & L3 & _). rewrite E3. cbn [fst snd].
  exists ((pre ++ new) ++ Hook HTeardownWorkspace (name w) :: n3)%list. split.
  - rewrite T3, T2. rewrite <- !app_assoc. reflexivity.
  - eapply in_order_app; [exact O2|apply in_order_hook, L3].
Qed.

Lemma wait_workers_loop_order (ws : list (Worker W)) (q : queue) (s : state W) :
  exists new,
    trace (snd (wait_workers_loop ws q s)) = (trace s ++ new)%list /\
    in_order q (snd (fst (wait_workers_loop ws q s))) new.
Proof.
  revert q s. induction ws as [|t ws IH]; intros q s; cbn [wait_workers_loop].
  - exists []. cbn [fst snd]. rewrite app_nil_r. split; [reflexivity|].
    apply in_order_quiet; reflexivity.
  - destruct (Worker_run_order t q s) as (new & TN & ON).
    destruct (Worker_run t q s) as [[r1 q1] s1]. cbn [fst snd] in TN, ON.
    assert (Hgo : exists new0,
               trace (snd (wait_workers_loop ws q1 (emit (Join (name t)) s1)))
                 = (trace s ++ new0)%list /\
               in_order q (snd (fst (wait_workers_loop ws q1 (emit (Join (name t)) s1))))
                        new0).
    { destruct (IH q1 (emit (Join (name t)) s1)) as (new1 & T1 & O1).
      exists (new ++ [Join (name t)] ++ new1)%list. split.
      - rewrite T1. cbn [emit trace]. rewrite TN. rewrite <- !app_assoc. reflexivity.
      - eapply in_order_app; [exact ON|].
        eapply in_order_app; [|exact O1]. apply in_order_quiet; reflexivity. }
    destruct r1 as [[]|e|]; [exact Hgo|exact Hgo|].
    exists new. cbn [fst snd]. split; [exact TN|exact ON].
Qed.

End OrderFacts.

Section RunOrder.
Context {W : Type} `{World W}.

Lemma queue_tests_loop_spec (found : list string) (tids : Z) (q : queue) (s : state W) :
  exists new,
    trace (snd (queue_tests_loop found tids q s)) = (trace s ++ new)%list /\
    gets new = [] /\ execs new = [] /\ starts new = [] /\
    (reachable q -> reachable (snd (fst (queue_tests_loop found tids q s)))).
Proof.
  revert tids q s. induction found as [|tid rest IH]; intros tids q s;
    cbn [queue_tests_loop].
  - exists []. cbn [fst snd]. rewrite app_nil_r. auto.
  - destruct (Persistence_get_priority (pers s) tid (db s)) as [[priority|e|] f].
    + destruct (IH (tids + 1) (put (priority, tid) q)
                  (emit (Put (priority, tid)) (set_db f s))) as (new & T & G & E & S & R).
      exists (Put (priority, tid) :: new). cbn [emit set_db trace] in T.
      rewrite <- app_assoc in T. split; [exact T|].
      change (Put (priority, tid) :: new) with ([Put (priority, tid)] ++ new)%list.
      rewrite gets_app, execs_app, starts_app, G, E, S.
      repeat split. intro Hq. apply R. constructor. exact Hq.
    + exists []. cbn [fst snd set_db trace]. rewrite app_nil_r. auto.
    + exists []. cbn [fst snd set_db trace]. rewrite app_nil_r. auto.
Qed.

Lemma queue_tests_spec (pt : Paratest W) (pluginobj : Plugin W) (q : queue) (s : state W) :
  exists new,
    trace (snd (queue_tests pt pluginobj q s)) = (trace s ++ new)%list /\
    gets new = [] /\ execs new = [] /\ starts new = [] /\
    (reachable q -> reachable (snd (fst (queue_tests pt pluginobj q s)))).
Proof.
  unfold queue_tests.
  destruct (find pluginobj (pt_source_path pt) (test_pattern pt) (world s)) as [found w1].
  apply (queue_tests_loop_spec found 0 q (set_world w1 s)).
Qed.

Lemma start_workers_loop_reachable (ws : list (Worker W)) (q : queue) (s : state W) :
  reachable q -> reachable (fst (start_workers_loop ws q s)).
Proof.
  revert q s. induction ws as [|t ws IH]; intros q s Hq; cbn [start_workers_loop].
  - exact Hq.
  - apply IH. constructor. exact Hq.
Qed.

Lemma start_workers_spec (pt : Paratest W) (q : queue) (s : state W) :
  exists new,
    trace (snd (start_workers pt q s)) = (trace s ++ new)%list /\
    gets new = [] /\ execs new = [] /\
    (reachable q -> reachable (fst (start_workers pt q s))).
Proof.
  unfold start_workers.
  destruct (start_workers_loop_spec (_workers pt) q (emit (Log DEBUG "start workers") s))
    as (T & _).
  exists (Log DEBUG "start workers" :: flat_map (@start_and_put W) (_workers pt)).
  split; [|split; [|split]].
  - rewrite T. cbn [emit trace]. rewrite <- app_assoc. reflexivity.
  - clear. induction (_workers pt) as [|t ws IH]; [reflexivity|exact IH].
  - clear. induction (_workers pt) as [|t ws IH]; [reflexivity|exact IH].
  - apply start_workers_loop_reachable.
Qed.

Lemma seeded_queue_reachable (pt : Paratest W) (pluginobj : Plugin W) (s : state W) :
  reachable (seeded_queue pt pluginobj s).
Proof.
  unfold seeded_queue.
  destruct (queue_tests_spec pt pluginobj [] (snd (Paratest_run_script_setup pt s)))
    as (_ & _ & _ & _ & _ & R).
  destruct (queue_tests pt pluginobj [] (snd (Paratest_run_script_setup pt s)))
    as [[r q2] s2]. cbn [fst snd] in R.
  apply start_workers_loop_reachable. apply R. constructor.
Qed.

(** What a whole run dequeues is a prefix of the seeded queue. *)
Lemma Paratest_run_order (pt : Paratest W) (nm : string) (pluginobj : Plugin W)
      (s : state W) :
  getPluginByName pt nm = Some pluginobj ->
  exists new k,
    trace (snd (Paratest_run pt nm [] s)) = (trace s ++ new)%list /\
    gets new = firstn k (seeded_queue pt pluginobj s) /\
    execs new = filter truthy (map snd (firstn k (seeded_queue pt pluginobj s))).
Proof.
  intro Hplugin. unfold Paratest_run, seeded_queue. rewrite Hplugin.
  destruct (Paratest_run_script_setup_spec pt s) as (r1 & s1 & n1 & E1 & _ & T1 & L1 & _).
  rewrite E1. cbn [snd].
  assert (G1 : gets (Hook HSetup MainThread :: n1) = []).
  { change (Hook HSetup MainThread :: n1) with ([Hook HSetup MainThread] ++ n1)%list.
    now rewrite gets_app, (gets_script_events _ L1). }
  assert (X1 : execs (Hook HSetup MainThread :: n1) = []).
  { change (Hook HSetup MainThread :: n1) with ([Hook HSetup MainThread] ++ n1)%list.
    now rewrite execs_app, (execs_script_events _ L1). }
  destruct r1 as [[]|e|]; cbn [snd].
  2, 3: exists (Hook HSetup MainThread :: n1), 0%nat; rewrite G1, X1; auto.
  destruct (queue_tests_spec pt pluginobj [] s1) as (n2 & T2 & G2 & X2 & _).
  destruct (queue_tests pt pluginobj [] s1) as [[r2 q2] s2]. cbn [fst snd] in T2.
  destruct r2 as [test_number|e|]; cbn [snd].
  2, 3: exists ((Hook HSetup MainThread :: n1) ++ n2)%list, 0%nat;
        rewrite T2, T1, gets_app, execs_app, G1, X1, G2, X2, <- app_assoc; auto.
  set (pt3 := create_workers pt pluginobj (num_of_workers pt test_number)).
  destruct (start_workers_spec pt3 q2 s2) as (n4 & T4 & G4 & X4 & _).
  destruct (start_workers pt3 q2 s2) as [q4 s4]. cbn [fst snd] in T4 |- *.
  unfold wait_workers.
  set (s4' := emit (Log DEBUG "wait for all workers to finish") s4).
  destruct (wait_workers_loop_order (_workers pt3) q4 s4') as (n5 & T5 & O5).
  destruct (wait_workers_loop (_workers pt3) q4 s4') as [[r5 q5] s5].
  cbn [fst snd] in T5, O5.
  destruct O5 as (k & G5 & _ & X5 & _).
  set (pre := ((Hook HSetup MainThread :: n1) ++ n2 ++ n4 ++
               [Log DEBUG "wait for all workers to finish"])%list).
  assert (Tpre : trace s5 = (trace s ++ pre ++ n5)%list).
  { rewrite T5. unfold s4'. cbn [emit trace]. rewrite T4, T2, T1. unfold pre.
    rewrite <- !app_assoc. reflexivity. }
  assert (Gpre : gets pre = []).
  { unfold pre. now rewrite !gets_app, G1, G2, G4. }
  assert (Xpre : execs pre = []).
  { unfold pre. now rewrite !execs_app, X1, X2, X4. }
  clearbody pre.
  destruct r5 as [[]|e|]; cbn [snd].
  2, 3: exists (pre ++ n5)%list, k; rewrite gets_app, execs_app, Gpre, Xpre; auto.
  destruct (Paratest_run_script_teardown_spec pt3 s5)
    as (r6 & s6 & n6 & E6 & _ & T6 & L6 & _).
  rewrite E6.
  assert (G6 : gets (Hook HTeardown MainThread :: n6) = []).
  { change (Hook HTeardown MainThread :: n6) with ([Hook HTeardown MainThread] ++ n6)%list.
    now rewrite gets_app, (gets_script_events _ L6). }
  assert (X6 : execs (Hook HTeardown MainThread :: n6) = []).
  { change (Hook HTeardown MainThread :: n6) with ([Hook HTeardown MainThread] ++ n6)%list.
    now rewrite execs_app, (execs_script_events _ L6). }
  exists (pre ++ n5 ++ Hook HTeardown MainThread :: n6)%list, k.
  rewrite !gets_app, !execs_app, Gpre, Xpre, G6, X6, !app_nil_r. cbn [app].
  destruct r6 as [[]|e|]; cbn [snd]; rewrite T6, Tpre, <- !app_assoc; auto.
Qed.

End RunOrder.

Section ScenarioB.
Context {W : Type} `{World W}.

Lemma seeded_queue_two_tests (pt : Paratest W) (pluginobj : Plugin W) (s : state W)
      (d : database) (t1 t2 : string) :
  workspace_num pt = 1 ->
  _workers pt = [] ->
  (forall w, fst (find pluginobj (pt_source_path pt) (test_pattern pt) w) = [t1; t2]) ->
  db s = Db d ->
  or_zero (avg (durations (source (pers s)) t1 d)) == 5 ->
  durations (source (pers s)) t2 d = [] ->
  seeded_queue pt pluginobj s =
    [(0%Q, t2); (or_zero (avg (durations (source (pers s)) t1 d)), t1);
     (INFINITE, FINISH)].
Proof.
  intros Hone Hws Hfind Hdb H1 H2. unfold seeded_queue.
  destruct (Paratest_run_script_setup_spec pt s) as (r1 & s1 & n1 & E1 & _ & _ & _ & D1 & P1).
  rewrite E1. cbn [snd]. unfold queue_tests.
  specialize (Hfind (world s1)).
  destruct (find pluginobj (pt_source_path pt) (test_pattern pt) (world s1)) as [found w1].
  cbn [fst] in Hfind. subst found.
  cbn [queue_tests_loop set_world pers db]. rewrite P1, D1, Hdb.
  unfold Persistence_get_priority at 1. cbn [connect].
  cbn [set_db emit pers db]. unfold Persistence_get_priority at 1. cbn [connect].
  cbn [set_world pers]. rewrite P1, H2. cbn [avg or_zero].
  set (p1 := or_zero (avg (durations (source (pers s)) t1 d))) in *.
  assert (L1 : Qcompare 0 p1 = Lt) by (apply Qlt_alt; rewrite H1; reflexivity).
  assert (L2 : Qcompare INFINITE p1 = Gt) by (apply Qgt_alt; rewrite H1; reflexivity).
  cbn [put]. unfold entry_ltb at 1. cbn [fst snd]. rewrite L1.
  unfold num_of_workers. rewrite Hone.
  change (Z.min 1 (0 + 1 + 1)) with 1.
  unfold start_workers, create_workers. rewrite Hws.
  change (range 1) with [0%nat].
  cbn [map app set_workers _workers start_workers_loop fst].
  cbn [put]. unfold entry_ltb. cbn [fst snd].
  change (Qcompare INFINITE 0) with Gt. cbv iota. rewrite L2. reflexivity.
Qed.

(** C6.  In every queue state that [put] and [get] lead to, [get] hands out
    an entry whose priority is the least in the queue, and draining hands
    the entries out by ascending priority; what a run dequeues is in
    ascending priority and its tests are executed in that order.  With one
    worker, history 5 for [t1] and none for [t2], the dequeues are a prefix
    of [t2], [t1], sentinel. *)
Theorem dequeue_follows_ascending_priority (pt : Paratest W) (nm : string)
        (pluginobj : Plugin W) (s : state W) :
  getPluginByName pt nm = Some pluginobj ->
  let new := appended s (snd (Paratest_run pt nm [] s)) in
  (forall q e q', reachable q -> get q = Some (e, q') ->
                  Forall (priority_le e) q /\ Permutation q (e :: q')) /\
  (forall q, reachable q ->
             StronglySorted priority_le (drain (List.length q) q) /\
             Permutation (drain (List.length q) q) q) /\
  StronglySorted priority_le (gets new) /\
  execs new = filter truthy (map snd (gets new)) /\
  forall (d : database) (t1 t2 : string),
    workspace_num pt = 1 ->
    _workers pt = [] ->
    (forall w, fst (find pluginobj (pt_source_path pt) (test_pattern pt) w) = [t1; t2]) ->
    db s = Db d ->
    or_zero (avg (durations (source (pers s)) t1 d)) == 5 ->
    durations (source (pers s)) t2 d = [] ->
    exists (p1 : Q) (k : nat),
      p1 == 5 /\
      gets new = firstn k [(0%Q, t2); (p1, t1); (INFINITE, FINISH)].
Proof.
  intros Hplugin new. split; [|split].
  - intros q e q' Hr Hg. apply reachable_sorted in Hr.
    destruct q as [|x q0]; [discriminate Hg|]. injection Hg as <- <-.
    split; [|apply Permutation_refl].
    inversion Hr; subst. constructor; [apply Qle_refl|assumption].
  - intros q Hr. rewrite drain_all. split; [apply reachable_sorted, Hr|apply Permutation_refl].
  - destruct (Paratest_run_order pt nm s Hplugin) as (new0 & k & T & G & X).
    assert (En : new = new0) by (apply appended_app, T). rewrite En.
    split; [|split].
    + rewrite G. apply firstn_sorted, reachable_sorted, seeded_queue_reachable.
    + rewrite X, G. reflexivity.
    + intros d t1 t2 Hone Hws Hfind Hdb H1 H2.
      exists (or_zero (avg (durations (source (pers s)) t1 d))), k.
      split; [exact H1|].
      rewrite G, (seeded_queue_two_tests pt pluginobj s Hone Hws Hfind Hdb H1 H2).
      reflexivity.
Qed.

End ScenarioB.

(** C6, Scenario B run to its end: [t2] is executed before [t1]. *)
Lemma dequeue_follows_ascending_priority_witness :
  let new := appended history_state
               (snd (@Paratest_run nat tick_world single_worker_paratest "list" []
                       history_state)) in
  StronglySorted priority_le (gets new) /\
  map snd (gets new) = ["t2"; "t1"; FINISH] /\
  execs new = ["t2"; "t1"] /\
  fst (fst (fst (@Paratest_run nat tick_world single_worker_paratest "list" []
                   history_state))) = Return tt.
Proof.
  cbv zeta. split.
  - apply (@dequeue_follows_ascending_priority nat tick_world single_worker_paratest
             "list" (list_plugin ["t1"; "t2"]) history_state eq_refl).
  - split; [vm_compute; reflexivity|]. split; vm_compute; reflexivity.
Defined.

(* ================================================================= *)
(** ** Placeholder substitution *)

(* ---------- str.replace ---------- *)

Lemma prefix_head (c x : ascii) (old' s' : string) :
  Ascii.eqb x c = false -> String.prefix (String c old') (String x s') = false.
Proof.
  intro Hx. cbn [String.prefix]. destruct (ascii_dec c x) as [->|_]; [|reflexivity].
  rewrite Ascii.eqb_refl in Hx. discriminate Hx.
Qed.

Lemma prefix_append (old b : string) : String.prefix old (old ++ b) = true.
Proof.
  induction old as [|c old IH]; cbn [String.append String.prefix].
  - destruct b; reflexivity.
  - destruct (ascii_dec c c) as [_|Hn]; [exact IH|contradiction Hn; reflexivity].
Qed.

Lemma replace_from_skip (old new t b : string) :
  replace_from old new (String.length t) (t ++ b) = replace_from old new O b.
Proof.
  induction t as [|c t IH]; cbn [String.length String.append replace_from].
  - destruct b; reflexivity.
  - exact IH.
Qed.

Lemma append_assoc (a b c : string) : (a ++ b) ++ c = a ++ (b ++ c).
Proof.
  induction a as [|x a IH]; cbn [String.append]; [reflexivity|]. now rewrite IH.
Qed.

Lemma replace_skips_text (c : ascii) (old' new s : string) :
  occurs c s = false -> replace (String c old') new s = s.
Proof.
  unfold replace. induction s as [|x s IH]; intro Ho; [reflexivity|].
  cbn [occurs] in Ho. apply orb_false_iff in Ho. destruct Ho as [Hx Hs].
  cbn [replace_from]. rewrite (@prefix_head _ _ _ _ Hx), (IH Hs). reflexivity.
Qed.

(** X1.  A text in which the first character of [old] does not occur is left as
    it is. *)
Theorem replace_without_occurrence (c : ascii) (old' new s : string) :
  occurs c s = false -> replace (String c old') new s = s.
Proof. exact (@replace_skips_text c old' new s). Qed.

(** X2.  The first occurrence is replaced and the replacement goes on behind it,
    not inside the inserted text. *)
Theorem replace_first_occurrence (c : ascii) (old' new a b : string) :
  occurs c a = false ->
  replace (String c old') new (a ++ String c old' ++ b) =
  a ++ new ++ replace (String c old') new b.
Proof.
  unfold replace. induction a as [|x a IH]; intro Ho.
  - cbn [String.append replace_from].
    change (String c (old' ++ b)) with (String c old' ++ b).
    rewrite prefix_append. cbn [String.length Nat.pred].
    now rewrite replace_from_skip.
  - cbn [occurs] in Ho. apply orb_false_iff in Ho. destruct Ho as [Hx Ha].
    specialize (IH Ha). set (t := String c old' ++ b) in *.
    cbn [String.append replace_from]. rewrite (@prefix_head _ _ _ _ Hx), IH.
    reflexivity.
Qed.

Lemma replace_without_occurrence_witness :
  occurs "{" "make clean" = false /\
  replace "{id}" "3" "make clean" = "make clean".
Proof.
  split; [reflexivity|].
  apply (@replace_without_occurrence "{" "id}" "3" "make clean"). reflexivity.
Defined.

Lemma replace_first_occurrence_witness :
  occurs "{" "cd " = false /\
  replace "{workspace}" "/tmp/w/0" ("cd " ++ "{workspace}" ++ " && ls {workspace}") =
  "cd " ++ "/tmp/w/0" ++ replace "{workspace}" "/tmp/w/0" " && ls {workspace}".
Proof.
  split; [reflexivity|].
  apply (@replace_first_occurrence "{" "workspace}" "/tmp/w/0" "cd " " && ls {workspace}").
  reflexivity.
Defined.


Section RunScript.
Context {W : Type} `{World W}.


End RunScript.


(* ================================================================= *)
(** ** Workers and queued tests *)

(* ---------- create_workers ---------- *)

Lemma to_uint_nonnil (i : nat) : Nat.to_uint i <> Decimal.Nil.
Proof.
  intro E.
  assert (Hi : i = 0%nat) by (rewrite <- (DecimalNat.Unsigned.of_to i), E; reflexivity).
  subst i. discriminate E.
Qed.

Lemma str_injective (i j : nat) : str i = str j -> i = j.
Proof.
  unfold str. intro E.
  apply (f_equal NilZero.uint_of_string) in E.
  rewrite !NilZero.usu in E by apply to_uint_nonnil.
  injection E as E. apply DecimalNat.Unsigned.to_uint_inj, E.
Qed.

Lemma str_not_absolute (i : nat) : String.prefix "/" (str i) = false.
Proof.
  unfold str, NilZero.string_of_uint. destruct (Nat.to_uint i); reflexivity.
Qed.

Lemma append_injective (a b c : string) : a ++ b = a ++ c -> b = c.
Proof.
  induction a as [|x a IH]; cbn [String.append]; intro E; [exact E|].
  injection E as E. apply IH, E.
Qed.

Lemma path_join_injective (ws a b : string) :
  String.prefix "/" a = false -> String.prefix "/" b = false ->
  path_join ws a = path_join ws b -> a = b.
Proof.
  unfold path_join. intros Ha Hb. rewrite Ha, Hb.
  destruct (String.eqb ws ""); [auto|].
  destruct (ends_with_slash ws); intro E.
  - apply append_injective in E. exact E.
  - apply append_injective in E. apply (append_injective "/") in E. exact E.
Qed.

Lemma NoDup_map_injective (A B : Type) (f : A -> B) (l : list A) :
  (forall x y, In x l -> In y l -> f x = f y -> x = y) -> NoDup l -> NoDup (map f l).
Proof.
  intros Hf Hl. induction Hl as [|x l Hx Hl IH]; cbn [map]; constructor.
  - intro Hin. apply in_map_iff in Hin. destruct Hin as [y [E Hy]].
    apply Hf in E; [|right; exact Hy|left; reflexivity]. subst y. contradiction.
  - apply IH. intros a b Ha Hb. apply Hf; right; assumption.
Qed.

Section CreateWorkers.
Context {W : Type} `{World W}.

Lemma create_workers_spec (pt : Paratest W) (pluginobj : Plugin W) (n : Z) :
  _workers pt = [] ->
  let ws := _workers (create_workers pt pluginobj n) in
  map (@name W) ws = map str (range n) /\
  List.length ws = Z.to_nat n /\
  NoDup (map (@name W) ws) /\
  NoDup (map (@workspace_path W) ws) /\
  Forall (fun t => workspace_path t = path_join (pt_workspace_path pt) (name t) /\
                   plugin t = pluginobj /\ scripts t = pt_scripts pt) ws.
Proof.
  intros Hws ws. subst ws. unfold create_workers. cbn [set_workers _workers].
  rewrite Hws. cbn [app].
  assert (Hnd : NoDup (range n)) by apply seq_NoDup.
  rewrite !map_map. cbn [Worker_init name workspace_path].
  split; [reflexivity|]. split; [|split; [|split]].
  - rewrite length_map. unfold range. apply length_seq.
  - apply NoDup_map_injective; [|exact Hnd]. intros x y _ _. apply str_injective.
  - apply NoDup_map_injective; [|exact Hnd]. intros x y _ _ E.
    apply path_join_injective in E; [apply str_injective, E| |]; apply str_not_absolute.
  - apply Forall_forall. intros t Ht. apply in_map_iff in Ht.
    destruct Ht as [i [<- _]]. cbn. auto.
Qed.

(** X4.  Starting without workers, [create_workers] builds as many workers as
    asked for (none for a count of zero or less), named [0], [1], ...; no two
    of them share a name or a workspace directory. *)
Theorem create_workers_are_distinct (pt : Paratest W) (pluginobj : Plugin W) (n : Z) :
  _workers pt = [] ->
  let ws := _workers (create_workers pt pluginobj n) in
  map (@name W) ws = map str (range n) /\
  List.length ws = Z.to_nat n /\
  NoDup (map (@name W) ws) /\
  NoDup (map (@workspace_path W) ws) /\
  Forall (fun t => workspace_path t = path_join (pt_workspace_path pt) (name t) /\
                   plugin t = pluginobj /\ scripts t = pt_scripts pt) ws.
Proof. apply create_workers_spec. Qed.

(** X5.  Never more workers than tests, never more than configured. *)
Theorem num_of_workers_bounds (pt : Paratest W) (pluginobj : Plugin W) (test_number : Z) :
  _workers pt = [] ->
  let ws := _workers (create_workers pt pluginobj (num_of_workers pt test_number)) in
  (Z.of_nat (List.length ws) <= Z.max 0 test_number) /\
  (Z.of_nat (List.length ws) <= Z.max 0 (workspace_num pt)) /\
  (0 <= test_number -> 0 <= workspace_num pt ->
   Z.of_nat (List.length ws) = Z.min (workspace_num pt) test_number).
Proof.
  intros Hws ws.
  destruct (create_workers_spec pt pluginobj (num_of_workers pt test_number) Hws)
    as (_ & Hl & _).
  fold ws in Hl. rewrite Hl. unfold num_of_workers. lia.
Qed.

End CreateWorkers.

Lemma create_workers_are_distinct_witness :
  let ws := _workers (create_workers no_test_paratest (list_plugin []) 3) in
  _workers no_test_paratest = [] /\
  map (@name nat) ws = map str (range 3) /\
  NoDup (map (@workspace_path nat) ws).
Proof.
  cbv zeta. split; [reflexivity|].
  destruct (@create_workers_are_distinct nat no_test_paratest (list_plugin []) 3 eq_refl)
    as (Hn & _ & _ & Hw & _).
  split; [exact Hn|exact Hw].
Defined.

Lemma num_of_workers_bounds_witness :
  let ws := _workers (create_workers no_test_paratest (list_plugin [])
                        (num_of_workers no_test_paratest 2)) in
  _workers no_test_paratest = [] /\
  Z.of_nat (List.length ws) = Z.min (workspace_num no_test_paratest) 2.
Proof.
  cbv zeta. split; [reflexivity|].
  destruct (@num_of_workers_bounds nat no_test_paratest (list_plugin []) 2 eq_refl)
    as (_ & _ & Hmin).
  apply Hmin; [lia|cbn; lia].
Defined.

(* ---------- queue_tests ---------- *)

Section QueueTests.
Context {W : Type} `{World W}.

Lemma puts_map_Put (l : list entry) : puts (map Put l) = l.
Proof.
  induction l as [|e l IH]; [reflexivity|]. unfold puts in *. cbn [map flat_map app].
  now rewrite IH.
Qed.

Lemma queue_tests_loop_contents (found : list string) (tids : Z) (q : queue)
      (s : state W) (d : database) :
  db s = Db d ->
  exists q' s',
    queue_tests_loop found tids q s = (Return (tids + Z.of_nat (List.length found)), q', s') /\
    Permutation q'
      (map (fun tid => (or_zero (avg (durations (source (pers s)) tid d)), tid)) found ++ q) /\
    db s' = Db d /\ pers s' = pers s /\ world s' = world s /\
    trace s' =
      (trace s ++
       map Put (map (fun tid => (or_zero (avg (durations (source (pers s)) tid d)), tid))
                    found))%list.
Proof.
  revert tids q s. induction found as [|tid rest IH]; intros tids q s Hdb;
    cbn [queue_tests_loop List.length map app].
  - exists q, s. rewrite Z.add_0_r, app_nil_r. repeat split; auto.
  - rewrite Hdb. unfold Persistence_get_priority. cbn [connect].
    set (e := (or_zero (avg (durations (source (pers s)) tid d)), tid)).
    destruct (IH (tids + 1) (put e q) (emit (Put e) (set_db (Db d) s)) eq_refl)
      as (q' & s' & E & Hq & Hd & Hp & Hw & Ht).
    exists q', s'. cbn [emit set_db pers world trace] in *.
    split.
    { replace (tids + Z.of_nat (S (List.length rest)))
        with (tids + 1 + Z.of_nat (List.length rest)) by lia. exact E. }
    split; [|split; [exact Hd|split; [exact Hp|split; [exact Hw|]]]].
    + eapply Permutation_trans; [exact Hq|].
      eapply Permutation_trans; [apply Permutation_app_head, put_permutation|].
      apply Permutation_sym, Permutation_middle.
    + rewrite Ht, <- app_assoc. reflexivity.
Qed.

(** X6.  On a store with its tables, [queue_tests] returns the number of tests
    that the plugin found and puts one entry per test, with the priority
    that [get_priority] gives it; the store is not changed. *)
Theorem queue_tests_queues_every_test (pt : Paratest W) (pluginobj : Plugin W) (q : queue)
        (s : state W) (d : database) :
  db s = Db d ->
  let found := fst (find pluginobj (pt_source_path pt) (test_pattern pt) (world s)) in
  let entries :=
    map (fun tid => (or_zero (avg (durations (source (pers s)) tid d)), tid)) found in
  exists q' s',
    queue_tests pt pluginobj q s = (Return (Z.of_nat (List.length found)), q', s') /\
    Permutation q' (entries ++ q) /\
    puts (appended s s') = entries /\
    db s' = Db d /\ pers s' = pers s.
Proof.
  intros Hdb found entries. unfold queue_tests. subst found entries.
  destruct (find pluginobj (pt_source_path pt) (test_pattern pt) (world s)) as [found w1].
  cbn [fst].
  destruct (queue_tests_loop_contents found 0 q (set_world w1 s) Hdb)
    as (q' & s' & E & Hq & Hd & Hp & _ & Ht).
  exists q', s'. cbn [set_world pers trace] in *. rewrite E. cbn [Z.add].
  rewrite (@appended_app _ _ _ _ Ht), puts_map_Put. repeat split; auto.
Qed.

End QueueTests.

Lemma queue_tests_queues_every_test_witness :
  exists q' s',
    @queue_tests nat single_worker_paratest (list_plugin ["t1"; "t2"]) []
      history_state = (Return 2, q', s') /\
    Permutation q' ([((10 # 2)%Q, "t1"); (0%Q, "t2")] ++ []) /\
    db s' = db history_state.
Proof.
  destruct (@queue_tests_queues_every_test nat single_worker_paratest
              (list_plugin ["t1"; "t2"]) [] history_state _ eq_refl)
    as (q' & s' & E & Hq & _ & Hd & _).
  exists q', s'. split; [exact E|]. split; [exact Hq|exact Hd].
Defined.

(* ================================================================= *)
(** ** The timing store *)

(* ---------- initialize ---------- *)

Lemma next_rowid_above (l : list Z) : Forall (fun i => i < next_rowid l) l.
Proof.
  unfold next_rowid, max_id. destruct l as [|a l]; [constructor|].
  assert (Hb : forall (l0 : list Z) (b : Z),
             Forall (fun i => i <= fold_left Z.max l0 b) l0).
  { induction l0 as [|x l0 IH]; intro b; [constructor|]. cbn [fold_left]. constructor.
    - pose proof (fold_max_ge l0 (Z.max b x)). lia.
    - apply IH. }
  constructor.
  - pose proof (fold_max_ge l a). lia.
  - eapply Forall_impl; [|apply (Hb l a)]. cbn beta. intros. lia.
Qed.

Lemma max_id_snoc (l : list Z) (n : Z) :
  Forall (fun i => i < n) l -> max_id (l ++ [n]) = Some n.
Proof.
  intro Hl. destruct l as [|a l]; [reflexivity|]. cbn [app max_id].
  rewrite fold_left_app. cbn [fold_left]. f_equal.
  inversion Hl as [|a0 l0 Ha Hl']; subst.
  assert (fold_left Z.max l a <= n).
  { apply fold_max_bound; [lia|]. eapply Forall_impl; [|exact Hl']. cbn beta. intros. lia. }
  lia.
Qed.

Lemma insert_execution_fresh (src now : string) (d : database) :
  let n := next_rowid (map ex_id (executions d)) in
  executions (insert_execution src now d) =
    (executions d ++ [{| ex_id := n; ex_source := src; ex_timestamp := now |}])%list /\
  Forall (fun r => ex_id r < n) (executions d) /\
  max_id (ids_of_source src (insert_execution src now d)) = Some n.
Proof.
  intro n. split; [reflexivity|].
  assert (Ha : Forall (fun r => ex_id r < n) (executions d)).
  { pose proof (next_rowid_above (map ex_id (executions d))) as Hn.
    rewrite Forall_forall in *. intros r Hr. apply Hn, in_map, Hr. }
  split; [exact Ha|].
  unfold ids_of_source. cbn [insert_execution executions].
  rewrite filter_app, map_app. cbn [filter ex_source]. rewrite String.eqb_refl.
  cbn [map ex_id]. apply max_id_snoc.
  rewrite Forall_forall in *. intros i Hi. apply in_map_iff in Hi.
  destruct Hi as [r [<- Hr]]. apply filter_In in Hr. apply Ha, Hr.
Qed.

Lemma next_rowid_bound (l : list Z) (m : Z) :
  1 <= m -> Forall (fun i => i < m) l -> next_rowid l <= m.
Proof.
  intros Hm Hl. unfold next_rowid, max_id. destruct l as [|a l]; [exact Hm|].
  inversion Hl as [|a0 l0 Ha Hl']; subst.
  assert (fold_left Z.max l a <= m - 1); [|lia].
  apply fold_max_bound; [lia|]. eapply Forall_impl; [|exact Hl']. cbn beta. intros. lia.
Qed.

Lemma select_deprecated_kept (src : string) (d : database) (m : Z) :
  Forall (fun r => ex_id r < m) (executions d) ->
  Forall (fun r => ex_id r < m)
         (executions match select_deprecated src d with
                     | Some c => delete_upto c d
                     | None => d
                     end).
Proof.
  intro Hd. destruct (select_deprecated src d) as [c|]; [|exact Hd].
  cbn [delete_upto executions]. rewrite Forall_forall in *. intros r Hr.
  apply filter_In in Hr. apply Hd, Hr.
Qed.

(** X7.  On a store whose execution records are all below the largest rowid,
    whenever [initialize] returns, the last execution record is the new one,
    of the object's source, with an id above every record that is kept and
    not above the largest rowid; the object remembers exactly that id and
    will not create the tables again. *)
Theorem initialize_remembers_new_execution (p : Persistence) (now : string) (f : dbfile)
        (p' : Persistence) (d' : database) :
  Forall (fun r => ex_id r < MAX_ROWID) (executions (tables f)) ->
  Persistence_initialize p now f = (Return tt, p', Db d') ->
  exists kept n,
    executions d' =
      (kept ++ [{| ex_id := n; ex_source := source p; ex_timestamp := now |}])%list /\
    Forall (fun r => ex_id r < n) kept /\
    n <= MAX_ROWID /\
    execution p' = Some n /\
    create p' = false /\ source p' = source p /\ db_path p' = db_path p.
Proof.
  unfold Persistence_initialize. intros Hlim E.
  assert (Hgo : forall d (p1 : Persistence),
             Forall (fun r => ex_id r < MAX_ROWID) (executions d) ->
             source p1 = source p -> db_path p1 = db_path p -> create p1 = false ->
             (let d1 := match select_deprecated (source p1) d with
                        | Some c => delete_upto c d
                        | None => d
                        end in
              let d2 := insert_execution (source p1) now d1 in
              (Return tt,
               {| create := create p1; source := source p1; db_path := db_path p1;
                  execution := max_id (ids_of_source (source p1) d2) |},
               Db d2)) = (Return tt, p', Db d') ->
             exists kept n,
               executions d' =
                 (kept ++ [{| ex_id := n; ex_source := source p; ex_timestamp := now |}])%list /\
               Forall (fun r => ex_id r < n) kept /\
               n <= MAX_ROWID /\
               execution p' = Some n /\
               create p' = false /\ source p' = source p /\ db_path p' = db_path p).
  { intros d p1 Hd Hs Hp Hc Eq. cbv zeta in Eq. injection Eq as <- <-.
    set (d1 := match select_deprecated (source p1) d with
               | Some c => delete_upto c d
               | None => d
               end).
    destruct (insert_execution_fresh (source p1) now d1) as (He & Ha & Hm).
    exists (executions d1), (next_rowid (map ex_id (executions d1))).
    cbn [create source db_path execution]. rewrite <- Hs.
    split; [exact He|]. split; [exact Ha|]. split.
    { apply next_rowid_bound; [unfold MAX_ROWID; lia|].
      pose proof (@select_deprecated_kept (source p1) d MAX_ROWID Hd) as Hk. fold d1 in Hk.
      rewrite Forall_forall in *. intros i Hi. apply in_map_iff in Hi.
      destruct Hi as [r [<- Hr]]. apply Hk, Hr. }
    split; [exact Hm|].
    split; [exact Hc|]. split; [reflexivity|exact Hp]. }
  destruct (create p) eqn:Hc.
  - destruct f as [| |d]; cbn [connect] in E; try discriminate E.
    + apply (Hgo empty_database
               {| create := false; source := source p; db_path := db_path p;
                  execution := execution p |}); auto; constructor.
    + apply (Hgo empty_database
               {| create := false; source := source p; db_path := db_path p;
                  execution := execution p |}); auto; constructor.
  - destruct f as [| |d]; cbn [connect] in E; try discriminate E.
    apply (Hgo d p); auto.
Qed.

Lemma initialize_remembers_new_execution_witness :
  Forall (fun r => ex_id r < MAX_ROWID) (executions (tables (Db two_source_store))) /\
  exists p' d' kept n,
    Persistence_initialize (Persistence_init "paratest.db" "src" (Db two_source_store))
      "2020-02-02 20:20:22" (Db two_source_store) = (Return tt, p', Db d') /\
    executions d' =
      (kept ++ [{| ex_id := n; ex_source := "src";
                   ex_timestamp := "2020-02-02 20:20:22" |}])%list /\
    n <= MAX_ROWID /\
    execution p' = Some n.
Proof.
  assert (Hlim : Forall (fun r => ex_id r < MAX_ROWID)
                        (executions (tables (Db two_source_store)))).
  { apply Forall_forall. intros r Hr. vm_compute in Hr.
    repeat (destruct Hr as [<-|Hr]; [reflexivity|]). destruct Hr. }
  split; [exact Hlim|].
  eexists _, _.
  destruct (@initialize_remembers_new_execution
              (Persistence_init "paratest.db" "src" (Db two_source_store))
              "2020-02-02 20:20:22" (Db two_source_store) _ _ Hlim eq_refl)
    as (kept & n & He & _ & Hn & Hx & _).
  exists kept, n. split; [reflexivity|]. split; [exact He|]. split; [exact Hn|exact Hx].
Defined.

(** X8.  Two objects built before the file exists both mean to create the
    tables: once the first has done so, [initialize] of the second raises
    and leaves the store of the first as it is. *)
Theorem second_creator_fails (path src1 src2 now1 now2 : string) :
  let p1 := Persistence_init path src1 Missing in
  let p2 := Persistence_init path src2 Missing in
  exists p1' d,
    Persistence_initialize p1 now1 Missing = (Return tt, p1', Db d) /\
    Persistence_initialize p2 now2 (Db d) =
      (Raise (OperationalError "table executions already exists"), p2, Db d) /\
    Persistence_initialize p1' now2 (Db d) <>
      (Raise (OperationalError "table executions already exists"), p1', Db d).
Proof.
  intros p1 p2. eexists _, _. split; [reflexivity|]. split; [reflexivity|].
  unfold Persistence_initialize. cbn [create connect].
  destruct (select_deprecated _ _); discriminate.
Qed.

(* ---------- add and get_priority ---------- *)

Lemma mean_singleton (x : Q) : mean [x] == x.
Proof.
  unfold mean, Qsum. cbn [fold_right List.length Z.of_nat]. field.
Qed.

(** X9.  The first timing of a test is its priority afterwards, and adding it
    changes the priority of no other test or source. *)
Theorem add_then_get_priority (p : Persistence) (test : string) (x : Q) (d : database) :
  durations (source p) test d = [] ->
  let f' := snd (Persistence_add p test x (Db d)) in
  (exists q, Persistence_get_priority p test f' = (Return q, f') /\ q == x) /\
  forall (p' : Persistence) (test' : string),
    source p' <> source p \/ test' <> test ->
    fst (Persistence_get_priority p' test' f') =
    fst (Persistence_get_priority p' test' (Db d)).
Proof.
  intros Hd f'. subst f'. unfold Persistence_add, Persistence_get_priority.
  cbn [connect snd fst]. split.
  - eexists. split; [reflexivity|].
    rewrite durations_insert, Hd, !String.eqb_refl. cbn [andb app].
    rewrite (or_zero_mean [x]). apply mean_singleton.
  - intros p' test' Hne. rewrite durations_insert.
    assert (E : String.eqb (source p) (source p') && String.eqb test test' = false).
    { apply andb_false_iff. destruct Hne as [Hs|Ht]; [left|right];
        apply String.eqb_neq; congruence. }
    rewrite E, app_nil_r. reflexivity.
Qed.

Lemma add_then_get_priority_witness :
  let p := Persistence_init "paratest.db" "src" (Db empty_database) in
  let f' := snd (Persistence_add p "t" (7 # 2)%Q (Db empty_database)) in
  durations (source p) "t" empty_database = [] /\
  exists q, Persistence_get_priority p "t" f' = (Return q, f') /\ q == (7 # 2)%Q.
Proof.
  cbv zeta. split; [reflexivity|].
  apply (@add_then_get_priority
           (Persistence_init "paratest.db" "src" (Db empty_database)) "t" (7 # 2)%Q
           empty_database eq_refl).
Defined.

Lemma Qsum_nonnegative (l : list Q) : Forall (fun x => 0 <= x)%Q l -> (0 <= Qsum l)%Q.
Proof.
  unfold Qsum. induction 1 as [|x l Hx _ IH]; cbn [fold_right]; [apply Qle_refl|].
  replace 0%Q with (0 + 0)%Q by reflexivity. apply Qplus_le_compat; assumption.
Qed.

(** X10.  With no negative duration in the store, no priority is negative. *)
Theorem get_priority_nonnegative (p : Persistence) (test : string) (d : database) :
  Forall (fun r => 0 <= tt_duration r)%Q (testtime d) ->
  exists q, Persistence_get_priority p test (Db d) = (Return q, Db d) /\ (0 <= q)%Q.
Proof.
  intro Hd. unfold Persistence_get_priority. cbn [connect].
  eexists. split; [reflexivity|].
  assert (Hl : Forall (fun x => 0 <= x)%Q (durations (source p) test d)).
  { unfold durations. rewrite Forall_forall in *. intros x Hx.
    apply in_map_iff in Hx. destruct Hx as [r [<- Hr]]. apply filter_In in Hr.
    apply Hd, Hr. }
  destruct (durations (source p) test d) as [|x l] eqn:E; [apply Qle_refl|].
  cbn [avg or_zero].
  destruct (Qeq_bool (mean (x :: l)) 0); [apply Qle_refl|].
  unfold mean. apply Qle_shift_div_l.
  - cbn [List.length]. unfold Qlt. cbn. lia.
  - rewrite Qmult_0_l. apply Qsum_nonnegative, Hl.
Qed.

Lemma get_priority_nonnegative_witness :
  exists q,
    Persistence_get_priority (pers history_state) "t1" (db history_state) =
      (Return q, db history_state) /\ (0 <= q)%Q.
Proof.
  apply (@get_priority_nonnegative (pers history_state) "t1" (tables (db history_state))).
  repeat constructor; discriminate.
Defined.

(* ---------- show ---------- *)

Lemma NoDup_distinct (l : list string) : NoDup (distinct l).
Proof.
  induction l as [|x l IH]; cbn [distinct]; constructor.
  - intro Hin. apply filter_In in Hin. destruct Hin as [_ Hx].
    rewrite String.eqb_refl in Hx. discriminate Hx.
  - apply NoDup_filter, IH.
Qed.

Lemma printed_sources_show (d : database) (sources : list string) :
  printed_sources (flat_map (show_source d) sources) = sources.
Proof.
  induction sources as [|src sources IH]; [reflexivity|].
  cbn [flat_map]. unfold printed_sources in *. rewrite flat_map_app, IH.
  unfold show_source. cbn [flat_map app].
  assert (E : flat_map (fun l => match l with PrintStr s => [s] | PrintRow _ _ => [] end)
                (map (fun ta : string * Q => PrintRow (fst ta) (snd ta))
                     (group_by_test src d)) = []).
  { induction (group_by_test src d) as [|ta l IHl]; [reflexivity|exact IHl]. }
  rewrite E. reflexivity.
Qed.

Lemma printed_tests_rows (src : string) (under : bool) (l : list (string * Q))
      (rest : list line) :
  printed_tests_from src under
    (map (fun ta : string * Q => PrintRow (fst ta) (snd ta)) l ++ rest) =
  ((if under then map fst l else []) ++ printed_tests_from src under rest)%list.
Proof.
  induction l as [|ta l IH]; cbn [map app printed_tests_from].
  - destruct under; reflexivity.
  - rewrite IH. destruct under; reflexivity.
Qed.

Lemma printed_tests_show (d : database) (src : string) (sources : list string)
      (under : bool) :
  printed_tests_from src under (flat_map (show_source d) sources) =
  flat_map (fun s' => if String.eqb s' src then tests_of_source s' d else []) sources.
Proof.
  revert under. induction sources as [|s' sources IH]; intro under; [reflexivity|].
  cbn [flat_map]. unfold show_source at 1. cbn [app printed_tests_from].
  rewrite printed_tests_rows, IH. unfold group_by_test. rewrite map_map. cbn [fst].
  rewrite map_id. destruct (String.eqb s' src); reflexivity.
Qed.

Lemma flat_map_absent (src : string) (f : string -> list string) (l : list string) :
  ~ In src l -> flat_map (fun s' => if String.eqb s' src then f s' else []) l = [].
Proof.
  induction l as [|x l IH]; intro Hn; [reflexivity|]. cbn [flat_map].
  destruct (String.eqb_spec x src) as [->|_].
  - contradiction Hn. left. reflexivity.
  - apply IH. intro Hin. apply Hn. right. exact Hin.
Qed.

Lemma flat_map_present (src : string) (f : string -> list string) (l : list string) :
  NoDup l -> In src l ->
  flat_map (fun s' => if String.eqb s' src then f s' else []) l = f src.
Proof.
  induction 1 as [|x l Hx Hl IH]; intro Hin; [destruct Hin|]. cbn [flat_map].
  destruct (String.eqb_spec x src) as [->|Hne].
  - rewrite (@flat_map_absent src f l Hx). apply app_nil_r.
  - destruct Hin as [->|Hin]; [contradiction Hne; reflexivity|]. apply IH, Hin.
Qed.

(** X11.  [show] prints every source that has a timing row, and each one
    once; on the lines under a source it prints every test that has a timing
    row for that source, and each one once. *)
Theorem show_prints_each_source_once (p : Persistence) (d : database) :
  let printed := snd (fst (Persistence_show p (Db d))) in
  NoDup (printed_sources printed) /\
  (forall src, In src (printed_sources printed) <->
               exists r, In r (testtime d) /\ tt_source r = src) /\
  (forall src, NoDup (printed_tests src printed)) /\
  (forall src t, In t (printed_tests src printed) <->
                 exists r, In r (testtime d) /\ tt_source r = src /\ tt_test r = t).
Proof.
  intro printed. subst printed. cbn [Persistence_show fst snd].
  rewrite printed_sources_show. split; [apply NoDup_distinct|]. split.
  { intro src. rewrite distinct_in, in_map_iff. split; intros [r [A B]]; exists r; auto. }
  unfold printed_tests.
  assert (Hsrc : forall src,
             In src (distinct (map tt_source (testtime d))) <->
             exists r, In r (testtime d) /\ tt_source r = src).
  { intro src. rewrite distinct_in, in_map_iff. split; intros [r [A B]]; exists r; auto. }
  assert (Htest : forall src t,
             In t (tests_of_source src d) <->
             exists r, In r (testtime d) /\ tt_source r = src /\ tt_test r = t).
  { intros src t. unfold tests_of_source. rewrite distinct_in, in_map_iff. split.
    - intros [r [Ht Hr]]. apply filter_In in Hr. destruct Hr as [Hr Hs].
      exists r. split; [exact Hr|]. split; [apply String.eqb_eq, Hs|exact Ht].
    - intros [r [Hr [Hs Ht]]]. exists r. split; [exact Ht|].
      apply filter_In. split; [exact Hr|]. apply String.eqb_eq, Hs. }
  split.
  - intro src. rewrite printed_tests_show.
    destruct (in_dec string_dec src (distinct (map tt_source (testtime d)))) as [Hin|Hn].
    + rewrite (@flat_map_present src _ _ (NoDup_distinct _) Hin). apply NoDup_distinct.
    + rewrite (@flat_map_absent src _ _ Hn). constructor.
  - intros src t. rewrite printed_tests_show.
    destruct (in_dec string_dec src (distinct (map tt_source (testtime d)))) as [Hin|Hn].
    + rewrite (@flat_map_present src _ _ (NoDup_distinct _) Hin). apply Htest.
    + rewrite (@flat_map_absent src _ _ Hn). split; [intros []|].
      intros [r [Hr [Hs _]]]. contradiction Hn. apply Hsrc. exists r. auto.
Qed.

(* ================================================================= *)
(** ** The order of the queue *)

(* ---------- the tuple order of the queue ---------- *)

Lemma string_ltb_lt (a b : string) : String.ltb a b = true <-> String_as_OT.lt a b.
Proof.
  unfold String.ltb. rewrite <- String_as_OT.cmp_lt. unfold String_as_OT.cmp.
  destruct (String.compare a b); split; intro E; try reflexivity; discriminate E.
Qed.

Lemma string_ltb_trans (a b c : string) :
  String.ltb a b = true -> String.ltb b c = true -> String.ltb a c = true.
Proof.
  rewrite !string_ltb_lt. apply String_as_OT.lt_trans.
Qed.

Lemma string_ltb_asym (a b : string) : String.ltb a b = true -> String.ltb b a = false.
Proof.
  unfold String.ltb. rewrite (String.compare_antisym a b).
  destruct (String.compare b a); cbn; intro E; try reflexivity; discriminate E.
Qed.

Lemma entry_ltb_trans (a b c : entry) :
  entry_ltb a b = true -> entry_ltb b c = true -> entry_ltb a c = true.
Proof.
  unfold entry_ltb.
  destruct (Qcompare (fst a) (fst b)) eqn:Eab; try discriminate;
    destruct (Qcompare (fst b) (fst c)) eqn:Ebc; try discriminate; intros Hab Hbc.
  - apply Qeq_alt in Eab, Ebc.
    assert (Eac : Qcompare (fst a) (fst c) = Eq) by (apply Qeq_alt; now rewrite Eab).
    rewrite Eac. eapply string_ltb_trans; eassumption.
  - apply Qeq_alt in Eab. apply Qlt_alt in Ebc.
    assert (Eac : Qcompare (fst a) (fst c) = Lt) by (apply Qlt_alt; now rewrite Eab).
    now rewrite Eac.
  - apply Qlt_alt in Eab. apply Qeq_alt in Ebc.
    assert (Eac : Qcompare (fst a) (fst c) = Lt) by (apply Qlt_alt; now rewrite <- Ebc).
    now rewrite Eac.
  - apply Qlt_alt in Eab, Ebc.
    assert (Eac : Qcompare (fst a) (fst c) = Lt)
      by (apply Qlt_alt; eapply Qlt_trans; eassumption).
    now rewrite Eac.
Qed.

Lemma entry_ltb_asym (a b : entry) : entry_ltb a b = true -> entry_ltb b a = false.
Proof.
  unfold entry_ltb. destruct (Qcompare (fst a) (fst b)) eqn:Eab; try discriminate; intro H.
  - apply Qeq_alt in Eab.
    assert (Eba : Qcompare (fst b) (fst a) = Eq) by (apply Qeq_alt; now symmetry).
    rewrite Eba. apply string_ltb_asym, H.
  - apply Qlt_alt in Eab.
    assert (Eba : Qcompare (fst b) (fst a) = Gt) by (apply Qgt_alt, Eab).
    now rewrite Eba.
Qed.

Lemma put_sorted_tuples (e : entry) (q : queue) :
  StronglySorted entry_le q -> StronglySorted entry_le (put e q).
Proof.
  induction 1 as [|x q Hq IH Hx]; cbn [put].
  - constructor; constructor.
  - destruct (entry_ltb e x) eqn:E.
    + constructor; [constructor; assumption|]. constructor.
      * apply entry_ltb_asym, E.
      * eapply Forall_impl; [|exact Hx]. intros y Hy. unfold entry_le in *.
        destruct (entry_ltb y e) eqn:Eye; [|reflexivity].
        rewrite (entry_ltb_trans _ _ _ Eye E) in Hy. discriminate Hy.
    + constructor; [exact IH|].
      eapply Permutation_Forall; [apply Permutation_sym, put_permutation|].
      constructor; [exact E|exact Hx].
Qed.

Lemma reachable_sorted_tuples (q : queue) : reachable q -> StronglySorted entry_le q.
Proof.
  induction 1 as [|e q _ IH|e q q' _ IH Hg].
  - constructor.
  - apply put_sorted_tuples, IH.
  - destruct q as [|x q0]; [discriminate Hg|]. injection Hg as _ <-.
    inversion IH; assumption.
Qed.

(** X12.  What [get] hands out is least in the order of the Python tuples: no
    entry left in the queue is smaller, and among the entries of the same
    priority none has a smaller test identifier. *)
Theorem get_breaks_ties_by_tid (q q' : queue) (e : entry) :
  reachable q ->
  get q = Some (e, q') ->
  Forall (fun e' => entry_ltb e' e = false) q' /\
  forall e', In e' q' -> fst e' == fst e -> String.ltb (snd e') (snd e) = false.
Proof.
  intros Hr Hg. apply reachable_sorted_tuples in Hr.
  destruct q as [|x q0]; [discriminate Hg|]. injection Hg as <- <-.
  inversion Hr as [|x0 q1 _ Hx]; subst.
  split; [exact Hx|]. intros e' Hin Heq.
  rewrite Forall_forall in Hx. specialize (Hx e' Hin). unfold entry_le, entry_ltb in Hx.
  apply Qeq_alt in Heq. rewrite Heq in Hx. exact Hx.
Qed.

Lemma get_breaks_ties_by_tid_witness :
  let q := put (0%Q, "b") (put (0%Q, "a") (put (0%Q, "c") [])) in
  reachable q /\
  get q = Some ((0%Q, "a"), [(0%Q, "b"); (0%Q, "c")]) /\
  Forall (fun e' => entry_ltb e' (0%Q, "a") = false) [(0%Q, "b"); (0%Q, "c")].
Proof.
  cbv zeta.
  assert (Hr : reachable (put (0%Q, "b") (put (0%Q, "a") (put (0%Q, "c") []))))
    by (repeat constructor).
  assert (Hg : get (put (0%Q, "b") (put (0%Q, "a") (put (0%Q, "c") []))) =
               Some ((0%Q, "a"), [(0%Q, "b"); (0%Q, "c")])) by reflexivity.
  split; [exact Hr|]. split; [exact Hg|].
  apply (@get_breaks_ties_by_tid _ _ _ Hr Hg).
Defined.

(** X13.  In every queue state, whatever sits behind a sentinel has a priority of
    at least [sys.maxsize]: a test with a smaller priority is dequeued
    before every sentinel. *)
Theorem sentinels_wait_for_tests (q before behind : queue) :
  reachable q ->
  q = (before ++ (INFINITE, FINISH) :: behind)%list ->
  Forall (fun e => (INFINITE <= fst e)%Q) behind /\
  Forall (fun e => (fst e <= INFINITE)%Q) before.
Proof.
  intros Hr ->. apply reachable_sorted in Hr. split.
  - clear -Hr. induction before as [|x before IH]; cbn [app] in Hr.
    + inversion Hr; subst. assumption.
    + inversion Hr; subst. auto.
  - clear -Hr. induction before as [|x before IH]; [constructor|]. cbn [app] in Hr.
    inversion Hr as [|x0 l Hl Hx]; subst. constructor; [|auto].
    rewrite Forall_forall in Hx. apply (Hx (INFINITE, FINISH)).
    apply in_or_app. right. left. reflexivity.
Qed.

Lemma sentinels_wait_for_tests_witness :
  let q := put (3%Q, "slow") (put (INFINITE, FINISH) (put (0%Q, "new") [])) in
  reachable q /\
  q = ([(0%Q, "new"); (3%Q, "slow")] ++ (INFINITE, FINISH) :: [])%list /\
  Forall (fun e => (fst e <= INFINITE)%Q) [(0%Q, "new"); (3%Q, "slow")].
Proof.
  cbv zeta.
  assert (Hr : reachable (put (3%Q, "slow") (put (INFINITE, FINISH) (put (0%Q, "new") []))))
    by (repeat constructor).
  split; [exact Hr|]. split; [reflexivity|].
  apply (@sentinels_wait_for_tests _ [(0%Q, "new"); (3%Q, "slow")] [] Hr eq_refl).
Defined.

(* ================================================================= *)
(** ** Workers without hooks *)

Section Unscripted.
Context {W : Type} `{World W}.

Lemma Worker_run_script_no_hook (w : Worker W) (h : hook) (script : option string)
      (message : string) (s : state W) :
  no_hook script = true ->
  Worker_run_script w h script message s = (Return tt, emit (Hook h (name w)) s).
Proof.
  unfold no_hook, Worker_run_script, run_script. destruct script as [sc|]; [|reflexivity].
  intro Hs. apply negb_true_iff in Hs. rewrite Hs. reflexivity.
Qed.

Lemma unscripted_hooks (sc : Scripts) :
  unscripted sc = true ->
  no_hook (setup_workspace sc) = true /\ no_hook (setup_test sc) = true /\
  no_hook (teardown_test sc) = true /\ no_hook (teardown_workspace sc) = true.
Proof.
  unfold unscripted. intro Hu. repeat (apply andb_prop in Hu; destruct Hu as [Hu ?]).
  auto.
Qed.

Lemma Worker_loop_unscripted (w : Worker W) (ents rest : queue) (priority : Q)
      (item : string) (s : state W) :
  unscripted (scripts w) = true ->
  Forall (fun e => truthy (snd e) = true) ents ->
  truthy item = false ->
  exists s' new,
    Worker_loop w (ents ++ (priority, item) :: rest)%list s = (Return tt, rest, s') /\
    trace s' = (trace s ++ new)%list /\
    gets new = (ents ++ [(priority, item)])%list /\
    execs new = map snd ents /\
    pers s' = pers s.
Proof.
  intros Hu Hents Hitem. destruct (unscripted_hooks _ Hu) as (_ & Hst & Htt & _).
  revert s. induction Hents as [|[p0 tid] ents Htid _ IH]; intro s; cbn [app Worker_loop];
    unfold run_script_setup_test, run_script_teardown_test;
    rewrite Worker_run_script_no_hook by exact Hst.
  - set (s2 := emit (Get (name w) (priority, item)) (emit (Hook HSetupTest (name w)) s)).
    destruct (process_gets w item s2) as (pn & TP & GP & _ & EP & _).
    destruct (process_spec w item s2) as (_ & _ & _ & PP).
    rewrite Worker_run_script_no_hook by exact Htt. rewrite Hitem.
    eexists _, _. split; [reflexivity|]. cbn [emit trace pers]. rewrite TP, PP.
    subst s2. cbn [emit trace pers]. rewrite <- !app_assoc. split; [reflexivity|].
    rewrite !gets_app, !execs_app, GP, EP.
    unfold truthy in Hitem. apply negb_false_iff in Hitem. unfold FINISH. rewrite Hitem.
    repeat split.
  - cbn [snd] in Htid.
    set (s2 := emit (Get (name w) (p0, tid)) (emit (Hook HSetupTest (name w)) s)).
    destruct (process_gets w tid s2) as (pn & TP & GP & _ & EP & _).
    destruct (process_spec w tid s2) as (_ & _ & _ & PP).
    rewrite Worker_run_script_no_hook by exact Htt. rewrite Htid.
    destruct (IH (emit (Hook HTeardownTest (name w))
                    (emit (TaskDone (name w)) (process w tid s2))))
      as (s' & new & E & T & G & X & P).
    exists s'. eexists. split; [exact E|]. rewrite T, P. cbn [emit trace pers].
    rewrite TP, PP. subst s2. cbn [emit trace pers]. rewrite <- !app_assoc.
    split; [reflexivity|].
    rewrite !gets_app, !execs_app, GP, EP, G, X.
    unfold truthy in Htid. apply negb_true_iff in Htid. unfold FINISH. rewrite Htid.
    repeat split.
Qed.

Lemma Worker_run_unscripted (w : Worker W) (ents rest : queue)
        (priority : Q) (item : string) (s : state W) :
  unscripted (scripts w) = true ->
  Forall (fun e => truthy (snd e) = true) ents ->
  truthy item = false ->
  exists s',
    Worker_run w (ents ++ (priority, item) :: rest)%list s = (Return tt, rest, s') /\
    gets (appended s s') = (ents ++ [(priority, item)])%list /\
    execs (appended s s') = map snd ents /\
    pers s' = pers s.
Proof.
  intros Hu Hents Hitem. destruct (unscripted_hooks _ Hu) as (Hsw & _ & _ & Htw).
  unfold Worker_run, run_script_setup_workspace, run_script_teardown_workspace.
  rewrite Worker_run_script_no_hook by exact Hsw.
  destruct (@Worker_loop_unscripted w ents rest priority item
              (emit (Hook HSetupWorkspace (name w))
                 (emit (Log DEBUG (name w ++ " START")) s)) Hu Hents Hitem)
    as (s' & new & E & T & G & X & P).
  rewrite E; rewrite Worker_run_script_no_hook by exact Htw.
  eexists. split; [reflexivity|]. cbn [emit trace pers] in *.
  assert (T' : trace (emit (Hook HTeardownWorkspace (name w)) s') =
               (trace s ++ [Log DEBUG (name w ++ " START")] ++
                [Hook HSetupWorkspace (name w)] ++ new ++
                [Hook HTeardownWorkspace (name w)])%list).
  { cbn [emit trace]. rewrite T, <- !app_assoc. reflexivity. }
  rewrite (@appended_app _ _ _ _ T'), !gets_app, !execs_app, G, X.
  cbn [app]. rewrite !app_nil_r. auto.
Qed.

(** X14.  With no hook configured, a worker takes the entries up to and including
    the first one whose test identifier is empty, runs the tests before it,
    and returns; the rest of the queue is left for the others. *)
Theorem worker_stops_at_first_empty_tid (w : Worker W) (ents rest : queue)
        (priority : Q) (item : string) (s : state W) :
  unscripted (scripts w) = true ->
  Forall (fun e => truthy (snd e) = true) ents ->
  truthy item = false ->
  exists s',
    Worker_run w (ents ++ (priority, item) :: rest)%list s = (Return tt, rest, s') /\
    gets (appended s s') = (ents ++ [(priority, item)])%list /\
    execs (appended s s') = map snd ents /\
    pers s' = pers s.
Proof. apply Worker_run_unscripted. Qed.

Lemma Worker_loop_starved (w : Worker W) (q : queue) (s : state W) :
  unscripted (scripts w) = true ->
  Forall (fun e => truthy (snd e) = true) q ->
  fst (Worker_loop w q s) = (Blocked, []).
Proof.
  intros Hu Hq. destruct (unscripted_hooks _ Hu) as (_ & Hst & Htt & _).
  revert s. induction Hq as [|[p0 tid] q Htid _ IH]; intro s; cbn [Worker_loop];
    unfold run_script_setup_test, run_script_teardown_test;
    rewrite Worker_run_script_no_hook by exact Hst; [reflexivity|].
  rewrite Worker_run_script_no_hook by exact Htt. cbn [snd] in Htid. rewrite Htid.
  apply IH.
Qed.

Lemma Worker_run_unscripted_outcome (w : Worker W) (q : queue) (s : state W) :
  unscripted (scripts w) = true ->
  (Exists (fun e => truthy (snd e) = false) q /\
   fst (fst (Worker_run w q s)) = Return tt) \/
  (Forall (fun e => truthy (snd e) = true) q /\
   fst (Worker_run w q s) = (Blocked, [])).
Proof.
  intro Hu.
  assert (Hsplit : (exists ents e rest,
                       q = (ents ++ e :: rest)%list /\
                       Forall (fun e => truthy (snd e) = true) ents /\
                       truthy (snd e) = false) \/
                   Forall (fun e => truthy (snd e) = true) q).
  { clear. induction q as [|x q IH]; [right; constructor|].
    destruct (truthy (snd x)) eqn:Hx.
    - destruct IH as [(ents & e & rest & -> & Hents & He)|Hall].
      + left. exists (x :: ents), e, rest. repeat split; auto.
      + right. constructor; assumption.
    - left. exists [], x, q. repeat split; auto. }
  destruct Hsplit as [(ents & [p item] & rest & -> & Hents & He)|Hall].
  - left. split.
    + apply Exists_exists. exists (p, item). split; [|exact He].
      apply in_or_app. right. left. reflexivity.
    + destruct (@Worker_run_unscripted w ents rest p item s Hu Hents He) as (s' & E & _).
      exact (f_equal (fun r => fst (fst r)) E).
  - right. split; [exact Hall|].
    destruct (unscripted_hooks _ Hu) as (Hsw & _).
    unfold Worker_run, run_script_setup_workspace.
    rewrite Worker_run_script_no_hook by exact Hsw.
    pose proof (@Worker_loop_starved w q
                  (emit (Hook HSetupWorkspace (name w))
                     (emit (Log DEBUG (name w ++ " START")) s)) Hu Hall) as E.
    destruct (Worker_loop w q _) as [[r q'] s']. cbn [fst] in E. injection E as -> ->.
    reflexivity.
Qed.

(** X15.  With no hook configured a worker thread never ends with [Abort],
    nor with an [sqlite3.OperationalError] or an [AttributeError], whatever
    the queue holds: only a hook makes a worker raise [Abort], and [process]
    catches every [Exception] of the plugin and of the store. *)
Theorem worker_without_hooks_never_aborts (w : Worker W) (q : queue) (s : state W)
        (e : exn) :
  unscripted (scripts w) = true ->
  fst (fst (Worker_run w q s)) <> Raise e.
Proof.
  intros Hu E. destruct (Worker_run_unscripted_outcome w q s Hu) as [[_ R]|[_ B]].
  - rewrite R in E. discriminate E.
  - rewrite B in E. discriminate E.
Qed.

End Unscripted.

Lemma worker_stops_at_first_empty_tid_witness :
  exists s',
    @Worker_run nat tick_world plain_worker
      ([(0%Q, "t2"); (5%Q, "t1")] ++ (INFINITE, FINISH) :: [(INFINITE, FINISH)])%list
      sample_state = (Return tt, [(INFINITE, FINISH)], s') /\
    execs (appended sample_state s') = map snd [(0%Q, "t2"); (5%Q, "t1")].
Proof.
  destruct (@worker_stops_at_first_empty_tid nat tick_world plain_worker
              [(0%Q, "t2"); (5%Q, "t1")] [(INFINITE, FINISH)] INFINITE FINISH sample_state)
    as (s' & E & _ & X & _).
  - reflexivity.
  - repeat constructor.
  - reflexivity.
  - exists s'. split; [exact E|exact X].
Defined.

Lemma worker_without_hooks_never_aborts_witness :
  unscripted (scripts plain_worker) = true /\
  fst (fst (@Worker_run nat tick_world plain_worker
              [(0%Q, "bad"); (5%Q, "t1"); (INFINITE, FINISH)] sample_state))
    <> Raise (Abort "teardown_test failed on worker 0. Worker is dead").
Proof.
  split; [reflexivity|].
  apply (@worker_without_hooks_never_aborts nat tick_world plain_worker
           [(0%Q, "bad"); (5%Q, "t1"); (INFINITE, FINISH)] sample_state). reflexivity.
Defined.

(* ================================================================= *)
(** ** What a run leaves of the store *)

Lemma timings_added_refl (p : Persistence) (d : database) : timings_added p d d.
Proof.
  split; [reflexivity|]. exists []. rewrite app_nil_r. split; [reflexivity|constructor].
Qed.

Lemma timings_added_trans (p : Persistence) (d1 d2 d3 : database) :
  timings_added p d1 d2 -> timings_added p d2 d3 -> timings_added p d1 d3.
Proof.
  intros (E1 & a1 & T1 & F1) (E2 & a2 & T2 & F2). split; [congruence|].
  exists (a1 ++ a2)%list. rewrite T2, T1, app_assoc. split; [reflexivity|].
  apply Forall_app. split; assumption.
Qed.

Section StoreFrame.
Context {W : Type} `{World W}.

Lemma store_kept_refl (s : state W) (d : database) : db s = Db d -> store_kept s s d.
Proof.
  intro Hd. exists d. split; [exact Hd|]. split; [apply timings_added_refl|reflexivity].
Qed.

Lemma store_kept_same (s s' : state W) (d : database) :
  db s = Db d -> db s' = db s -> pers s' = pers s -> store_kept s s' d.
Proof.
  intros Hd Hd' Hp. exists d. split; [congruence|].
  split; [apply timings_added_refl|exact Hp].
Qed.

Lemma store_kept_trans (s1 s2 s3 : state W) (d d2 : database) :
  store_kept s1 s2 d -> db s2 = Db d2 -> store_kept s2 s3 d2 -> store_kept s1 s3 d.
Proof.
  intros (d2' & D2 & A2 & P2) Hd2 (d3 & D3 & A3 & P3).
  assert (d2' = d2) by congruence. subst d2'.
  exists d3. split; [exact D3|]. split; [|congruence].
  eapply timings_added_trans; [exact A2|]. rewrite <- P2. exact A3.
Qed.

Lemma store_kept_step (s1 s2 s3 : state W) (d : database) :
  store_kept s1 s2 d ->
  (forall d2, db s2 = Db d2 -> store_kept s2 s3 d2) ->
  store_kept s1 s3 d.
Proof.
  intros K12 K23. destruct K12 as (d2 & D2 & A2 & P2).
  apply (@store_kept_trans s1 s2 s3 d d2).
  - exists d2. split; [exact D2|]. split; [exact A2|exact P2].
  - exact D2.
  - apply K23, D2.
Qed.

Lemma process_store (w : Worker W) (tid : string) (s : state W) (d : database) :
  db s = Db d -> store_kept s (process w tid s) d.
Proof.
  intro Hd. unfold process. destruct (String.eqb tid FINISH); [apply store_kept_refl, Hd|].
  destruct (clock (world s)) as [start w1].
  destruct (plugin_run _ _ _ _ _ _) as [[e|] w2].
  - apply store_kept_same; [exact Hd|reflexivity|reflexivity].
  - destruct (clock w2) as [stop w3]. cbn [set_world emit pers db]. rewrite Hd.
    unfold Persistence_add. cbn [connect set_db db pers].
    eexists. split; [reflexivity|]. split; [|reflexivity].
    split; [reflexivity|]. eexists. split; [reflexivity|].
    constructor; [split; reflexivity|constructor].
Qed.

Lemma hook_store (w : Worker W) (h : hook) (script : option string) (message : string)
      (s : state W) (d : database) :
  db s = Db d -> store_kept s (snd (Worker_run_script w h script message s)) d.
Proof.
  intro Hd.
  destruct (Worker_run_script_spec w h script message s)
    as (r & s' & new & E & _ & _ & _ & D & P).
  rewrite E. cbn [snd]. apply store_kept_same; assumption.
Qed.

Lemma Worker_loop_store (w : Worker W) (q : queue) (s : state W) (d : database) :
  db s = Db d -> store_kept s (snd (Worker_loop w q s)) d.
Proof.
  revert s d. induction q as [|[p0 item] q IH]; intros s d Hd; cbn [Worker_loop];
    unfold run_script_setup_test, run_script_teardown_test;
    pose proof (hook_store w HSetupTest (setup_test (scripts w))
                  ("setup_test failed on worker " ++ name w ++ ". Worker is dead") s Hd) as K1;
    destruct (Worker_run_script w HSetupTest _ _ s) as [r1 s1]; cbn [snd] in K1.
  - destruct r1 as [[]|e|]; exact K1.
  - destruct r1 as [[]|e|]; [|exact K1|exact K1].
    apply (store_kept_step K1). intros d1 Hd1.
    set (s2 := emit (Get (name w) (p0, item)) s1).
    assert (K2 : store_kept s1 (process w item s2) d1).
    { destruct (process_store w item s2 Hd1) as (d3 & D3 & A3 & P3).
      exists d3. auto. }
    apply (store_kept_step K2). intros d3 Hd3.
    set (s4 := emit (TaskDone (name w)) (process w item s2)).
    pose proof (hook_store w HTeardownTest (teardown_test (scripts w))
                  ("teardown_test failed on worker " ++ name w ++ ". Worker is dead")
                  s4 Hd3) as K5.
    destruct (Worker_run_script w HTeardownTest _ _ s4) as [r5 s5]. cbn [snd] in K5.
    assert (K5' : store_kept (process w item s2) s5 d3) by exact K5.
    destruct r5 as [[]|e|]; [|exact K5'|exact K5'].
    destruct (truthy item); [|exact K5'].
    apply (store_kept_step K5'). intros d5 Hd5. apply IH, Hd5.
Qed.

Lemma Worker_run_store (w : Worker W) (q : queue) (s : state W) (d : database) :
  db s = Db d -> store_kept s (snd (Worker_run w q s)) d.
Proof.
  intro Hd. unfold Worker_run, run_script_setup_workspace, run_script_teardown_workspace.
  set (s0 := emit (Log DEBUG (name w ++ " START")) s).
  pose proof (hook_store w HSetupWorkspace (setup_workspace (scripts w))
                ("Setup workspace failed on worker " ++ name w ++
                 " and could not initialize the environment. Worker is dead")
                s0 Hd) as K1.
  destruct (Worker_run_script w HSetupWorkspace _ _ s0) as [r1 s1]. cbn [snd] in K1.
  assert (K1' : store_kept s s1 d) by exact K1.
  destruct r1 as [[]|e|]; [|exact K1'|exact K1'].
  apply (store_kept_step K1'). intros d1 Hd1.
  pose proof (Worker_loop_store w q s1 Hd1) as K2.
  destruct (Worker_loop w q s1) as [[r2 q2] s2]. cbn [snd] in K2.
  destruct r2 as [[]|e|]; [|exact K2|exact K2].
  apply (store_kept_step K2). intros d2 Hd2.
  pose proof (hook_store w HTeardownWorkspace (teardown_workspace (scripts w))
                ("Teardown workspace failed on worker " ++ name w ++ ". Worker is dead")
                s2 Hd2) as K3.
  destruct (Worker_run_script w HTeardownWorkspace _ _ s2) as [r3 s3]. exact K3.
Qed.

Lemma wait_workers_loop_store (ws : list (Worker W)) (q : queue) (s : state W)
      (d : database) :
  db s = Db d -> store_kept s (snd (wait_workers_loop ws q s)) d.
Proof.
  revert q s d. induction ws as [|t ws IH]; intros q s d Hd; cbn [wait_workers_loop].
  - apply store_kept_refl, Hd.
  - pose proof (Worker_run_store t q s Hd) as K1.
    destruct (Worker_run t q s) as [[r1 q1] s1]. cbn [snd] in K1.
    assert (Hgo : store_kept s (snd (wait_workers_loop ws q1 (emit (Join (name t)) s1))) d).
    { apply (store_kept_step K1). intros d1 Hd1.
      assert (K : store_kept (emit (Join (name t)) s1)
                    (snd (wait_workers_loop ws q1 (emit (Join (name t)) s1))) d1)
        by (apply IH; exact Hd1).
      exact K. }
    destruct r1 as [[]|e|]; [exact Hgo|exact Hgo|exact K1].
Qed.

Lemma Paratest_run_store_frame (pt : Paratest W) (nm : string) (q : queue) (s : state W)
        (d : database) :
  db s = Db d ->
  exists d',
    db (snd (Paratest_run pt nm q s)) = Db d' /\
    executions d' = executions d /\
    (exists added,
        testtime d' = (testtime d ++ added)%list /\
        Forall (fun r => tt_source r = source (pers s) /\
                         tt_execution r = execution (pers s)) added) /\
    pers (snd (Paratest_run pt nm q s)) = pers s.
Proof.
  intro Hd.
  assert (K : store_kept s (snd (Paratest_run pt nm q s)) d).
  { unfold Paratest_run. destruct (getPluginByName pt nm) as [pluginobj|];
      [|apply store_kept_refl, Hd].
    destruct (Paratest_run_script_setup_spec pt s)
      as (r1 & s1 & n1 & E1 & _ & _ & _ & D1 & P1).
    rewrite E1.
    assert (K1 : store_kept s s1 d) by (apply store_kept_same; assumption).
    destruct r1 as [[]|e|]; [|exact K1|exact K1].
    apply (store_kept_step K1). intros d1 Hd1.
    unfold queue_tests.
    destruct (find pluginobj (pt_source_path pt) (test_pattern pt) (world s1))
      as [found w1].
    destruct (queue_tests_loop_contents found 0 q (set_world w1 s1) Hd1)
      as (q2 & s2 & E2 & _ & D2 & P2 & _).
    rewrite E2. cbn [set_world pers] in P2.
    assert (K2 : store_kept s1 s2 d1).
    { exists d1. split; [exact D2|]. split; [apply timings_added_refl|exact P2]. }
    apply (store_kept_step K2). intros d2 Hd2.
    set (pt3 := create_workers pt pluginobj
                  (num_of_workers pt (0 + Z.of_nat (List.length found)))).
    destruct (start_workers_loop_spec (_workers pt3) q2
                (emit (Log DEBUG "start workers") s2)) as (_ & _ & _ & D4 & P4).
    unfold start_workers.
    destruct (start_workers_loop (_workers pt3) q2 (emit (Log DEBUG "start workers") s2))
      as [q4 s4]. cbn [fst snd emit db pers] in D4, P4.
    assert (K4 : store_kept s2 s4 d2) by (apply store_kept_same; assumption).
    apply (store_kept_step K4). intros d4 Hd4.
    unfold wait_workers.
    set (s4' := emit (Log DEBUG "wait for all workers to finish") s4).
    pose proof (wait_workers_loop_store (_workers pt3) q4 s4' Hd4) as K5.
    destruct (wait_workers_loop (_workers pt3) q4 s4') as [[r5 q5] s5]. cbn [snd] in K5.
    assert (K5' : store_kept s4 s5 d4) by exact K5.
    destruct r5 as [[]|e|]; [|exact K5'|exact K5'].
    apply (store_kept_step K5'). intros d5 Hd5.
    destruct (Paratest_run_script_teardown_spec pt3 s5)
      as (r6 & s6 & n6 & E6 & _ & _ & _ & D6 & P6).
    rewrite E6.
    assert (K6 : store_kept s5 s6 d5) by (apply store_kept_same; assumption).
    destruct r6 as [[]|e|]; exact K6. }
  destruct K as (d' & D & (E & A) & P). exists d'. auto.
Qed.

(** X16.  A run leaves the execution records alone; it only appends timing rows,
    each of the source and the execution of the shared [Persistence] object,
    and does not change that object. *)
Theorem run_only_adds_timings (pt : Paratest W) (nm : string) (q : queue) (s : state W)
        (d : database) :
  db s = Db d ->
  exists d',
    db (snd (Paratest_run pt nm q s)) = Db d' /\
    executions d' = executions d /\
    (exists added,
        testtime d' = (testtime d ++ added)%list /\
        Forall (fun r => tt_source r = source (pers s) /\
                         tt_execution r = execution (pers s)) added) /\
    pers (snd (Paratest_run pt nm q s)) = pers s.
Proof. apply Paratest_run_store_frame. Qed.

End StoreFrame.

(* ================================================================= *)
(** ** Runs one after the other *)

Lemma run_only_adds_timings_witness :
  exists d',
    db (snd (@Paratest_run nat tick_world single_worker_paratest "list" [] history_state))
      = Db d' /\
    executions d' = executions (tables (db history_state)).
Proof.
  destruct (@run_only_adds_timings nat tick_world single_worker_paratest "list" []
              history_state _ eq_refl) as (d' & D & E & _).
  exists d'. split; [exact D|exact E].
Defined.

Lemma retained_timings (src : string) (lo n : nat) (e : Z) (p : Persistence)
      (d d' : database) :
  retained src lo n d ->
  execution p = Some e ->
  Z.of_nat lo <= e < Z.of_nat (lo + n) ->
  executions d' = executions d ->
  (exists added,
      testtime d' = (testtime d ++ added)%list /\
      Forall (fun r => tt_source r = source p /\ tt_execution r = execution p) added) ->
  retained src lo n d'.
Proof.
  intros [Hi Hs Ht] He Hb Hex (added & Htt & Ha). split.
  - now rewrite Hex.
  - now rewrite Hex.
  - rewrite Htt. apply Forall_app. split; [exact Ht|].
    eapply Forall_impl; [|exact Ha]. cbn beta. intros r [_ Hr].
    exists e. split; [congruence|exact Hb].
Qed.

Section MainRotation.
Context {W : Type} `{World W}.

Lemma main_run_after_initialize (args : Args W) (w : W) (f : dbfile) (p1 : Persistence)
      (d1 : database) :
  action args = run ->
  Persistence_initialize (Persistence_init (path_db args) (arg_source args) f)
    (sqlite_now w) f = (Return tt, p1, Db d1) ->
  exists d2,
    db (snd (main args w f)) = Db d2 /\
    executions d2 = executions d1 /\
    exists added,
      testtime d2 = (testtime d1 ++ added)%list /\
      Forall (fun r => tt_source r = source p1 /\ tt_execution r = execution p1) added.
Proof.
  intros Ha Hi. unfold main. rewrite Ha. unfold initialize.
  cbn [world db pers]. rewrite Hi. unfold set_pers, set_db. cbn [world db pers trace].
  destruct (arg_plugin args) as [nm|].
  - set (s1 := {| world := w; db := Db d1; pers := p1; trace := [] |}).
    destruct (Paratest_run_store_frame (Paratest_init args) nm [] s1 (d:=d1) eq_refl)
      as (d2 & D & E & A & _).
    destruct (Paratest_run (Paratest_init args) nm [] s1) as [[[r pt'] q'] s2].
    cbn [snd] in *. exists d2. split; [exact D|]. split; [exact E|exact A].
  - cbn [snd db]. exists d1. split; [reflexivity|]. split; [reflexivity|].
    exists []. rewrite app_nil_r. split; [reflexivity|constructor].
Qed.

Lemma main_run_first (args : Args W) (w : W) :
  action args = run ->
  exists d, db (snd (main args w Missing)) = Db d /\ retained (arg_source args) 1 1 d.
Proof.
  intro Ha.
  destruct (@main_run_after_initialize args w Missing
              {| create := false; source := arg_source args; db_path := path_db args;
                 execution := Some 1 |}
              (insert_execution (arg_source args) (sqlite_now w) empty_database) Ha)
    as (d2 & D & E & A).
  { unfold Persistence_initialize, Persistence_init. cbn.
    rewrite String.eqb_refl. reflexivity. }
  exists d2. split; [exact D|].
  assert (R0 : retained (arg_source args) 1 1
                 (insert_execution (arg_source args) (sqlite_now w) empty_database)).
  { split; cbn.
    - reflexivity.
    - constructor; [reflexivity|constructor].
    - constructor. }
  refine (@retained_timings _ _ _ 1 _ _ _ R0 _ _ E A); [reflexivity|lia].
Qed.

Lemma main_run_next (args : Args W) (w : W) (lo n : nat) (d : database) :
  action args = run ->
  retained (arg_source args) lo (S n) d ->
  (S n <= 6)%nat ->
  exists d',
    db (snd (main args w (Db d))) = Db d' /\
    retained (arg_source args) (if (S n =? 6)%nat then S lo else lo)
             (if (S n =? 6)%nat then 6 else S (S n)) d'.
Proof.
  intros Ha Hr Hn.
  destruct (@initialize_retained
              (Persistence_init (path_db args) (arg_source args) (Db d))
              (sqlite_now w) lo n d eq_refl Hr Hn) as (d1 & Hi & Hr1).
  destruct (@main_run_after_initialize args w (Db d) _ d1 Ha Hi) as (d2 & D & E & A).
  exists d2. split; [exact D|].
  refine (@retained_timings _ _ _ (Z.of_nat (lo + S n)) _ _ _ Hr1 _ _ E A);
    [reflexivity|].
  destruct (Nat.eqb_spec (S n) 6); lia.
Qed.

Lemma mains_retained (src : string) (argss : list (Args W)) (w : W) (M : nat)
      (d : database) :
  Forall (fun a => action a = run /\ arg_source a = src) argss ->
  (1 <= M)%nat ->
  retained src (Nat.max 1 (M - 5)) (Nat.min M 6) d ->
  exists d',
    snd (mains argss w (Db d)) = Db d' /\
    retained src (Nat.max 1 (M + List.length argss - 5))
             (Nat.min (M + List.length argss) 6) d'.
Proof.
  intro Hall. revert w M d.
  induction Hall as [|args argss [Ha Hs] _ IH]; intros w M d HM Hr.
  - exists d. cbn [mains snd List.length]. rewrite Nat.add_0_r. auto.
  - cbn [mains List.length]. subst src.
    destruct (Nat.min M 6) as [|n] eqn:En; [lia|].
    destruct (@main_run_next args w _ n d Ha Hr) as (d1 & D1 & R1); [lia|].
    rewrite D1.
    destruct (IH (world (snd (main args w (Db d)))) (S M) d1) as (d' & E & R); [lia| |].
    + destruct (Nat.eqb_spec (S n) 6).
      * replace (Nat.max 1 (S M - 5)) with (S (Nat.max 1 (M - 5))) by lia.
        replace (Nat.min (S M) 6) with 6%nat by lia. exact R1.
      * replace (Nat.max 1 (S M - 5)) with (Nat.max 1 (M - 5)) by lia.
        replace (Nat.min (S M) 6) with (S (S n)) by lia. exact R1.
    + exists d'. split; [exact E|].
      replace (M + S (List.length argss))%nat with (S M + List.length argss)%nat by lia.
      exact R.
Qed.

(** X17.  After [M] processes that run the action [run] for one source, one after
    the other from a missing file, whatever their plugins, hooks and tests
    do, the store holds the execution records [max 1 (M-5) .. M] of that
    source and every timing row points at one of them. *)
Theorem mains_keep_six_executions (src : string) (argss : list (Args W)) (w : W) :
  Forall (fun a => action a = run /\ arg_source a = src) argss ->
  let M := List.length argss in
  let d := tables (snd (mains argss w Missing)) in
  map ex_id (executions d) = ids_from (Nat.max 1 (M - 5)) (Nat.min M 6) /\
  Forall (fun r => ex_source r = src) (executions d) /\
  Forall (fun r => exists e, tt_execution r = Some e /\ In e (map ex_id (executions d)))
         (testtime d).
Proof.
  intros Hall M d. subst M d. destruct argss as [|args argss].
  - cbn. repeat split; constructor.
  - inversion Hall as [|a l [Ha Hs] Hrest]; subst.
    cbn [mains]. destruct (main_run_first args w Ha) as (d1 & D1 & R1). rewrite D1.
    destruct (@mains_retained (arg_source args) argss
                (world (snd (main args w Missing))) 1 d1 Hrest) as (d' & E & [Hi Hsrc Ht]);
      [lia|exact R1|].
    rewrite E. cbn [tables List.length].
    replace (S (List.length argss)) with (1 + List.length argss)%nat by lia.
    split; [exact Hi|]. split; [exact Hsrc|].
    eapply Forall_impl; [|exact Ht]. intros row [e [He Hb]].
    exists e. split; [exact He|]. rewrite Hi. unfold ids_from.
    apply in_map_iff. exists (Z.to_nat e). split; [lia|]. apply in_seq. lia.
Qed.

End MainRotation.

(* ================================================================= *)
(** ** Failing hooks *)

Lemma mains_keep_six_executions_witness :
  let d := tables (snd (@mains nat tick_world (repeat run_args 7) O Missing)) in
  Forall (fun a => action a = run /\ arg_source a = "src") (repeat run_args 7) /\
  map ex_id (executions d) = ids_from 2 6.
Proof.
  cbv zeta.
  assert (Hall : Forall (fun a : Args nat => action a = run /\ arg_source a = "src")
                        (repeat run_args 7)) by (repeat constructor).
  split; [exact Hall|].
  apply (@mains_keep_six_executions nat tick_world "src" (repeat run_args 7) O Hall).
Defined.

Section Failures.
Context {W : Type} `{World W}.

Lemma failed_nonzero (rc : Z) : rc <> 0 -> failed (Some rc) = true.
Proof.
  intro Hrc. unfold failed. apply negb_true_iff, Z.eqb_neq, Hrc.
Qed.

(** X18.  When the run-wide setup script ends with a status other than 0, [run]
    raises [Abort] at once: nothing is queued, no worker is created or
    started, no test is executed and the store is untouched. *)
Theorem failing_setup_aborts_run (pt : Paratest W) (nm : string) (pluginobj : Plugin W)
        (q : queue) (s s1 : state W) (rc : Z) :
  getPluginByName pt nm = Some pluginobj ->
  run_script (setup (pt_scripts pt)) [("path", pt_workspace_path pt)]
             (emit (Hook HSetup MainThread) s) = (Return (Some rc), s1) ->
  rc <> 0 ->
  Paratest_run pt nm q s =
    (Raise (Abort "The setup script failed. aborting."), pt, q, s1) /\
  db s1 = db s /\
  puts (appended s s1) = [] /\ starts (appended s s1) = [] /\
  gets (appended s s1) = [] /\ execs (appended s s1) = [].
Proof.
  intros Hplugin Hsetup Hrc.
  destruct (run_script_spec (setup (pt_scripts pt)) [("path", pt_workspace_path pt)]
              (emit (Hook HSetup MainThread) s)) as (rc' & s' & new & E & T & L & D & _).
  rewrite Hsetup in E. injection E as <- <-.
  unfold Paratest_run, Paratest_run_script_setup. rewrite Hplugin, Hsetup.
  rewrite (failed_nonzero Hrc). split; [reflexivity|]. split; [exact D|].
  cbn [emit trace] in T. rewrite <- app_assoc in T.
  rewrite (@appended_app _ _ _ _ T).
  rewrite puts_app, starts_app, gets_app, execs_app,
    (puts_script_events _ L), (starts_script_events _ L),
    (gets_script_events _ L), (execs_script_events _ L).
  repeat split.
Qed.

(** X19.  When the workspace setup script of a worker fails, its thread ends with
    [Abort] without touching the queue or the store; the exception stays in
    the thread: [join] returns and the coordinator goes on to the next
    worker. *)
Theorem failed_worker_is_joined (t : Worker W) (ws : list (Worker W)) (q : queue)
        (s s1 : state W) (rc : Z) :
  run_script (setup_workspace (scripts t))
             [("id", name t); ("workspace", workspace_path t);
              ("source", source_path t); ("output", output_path t)]
             (emit (Hook HSetupWorkspace (name t))
                (emit (Log DEBUG (name t ++ " START")) s)) = (Return (Some rc), s1) ->
  rc <> 0 ->
  (exists message, Worker_run t q s = (Raise (Abort message), q, s1)) /\
  db s1 = db s /\ pers s1 = pers s /\
  gets (appended s s1) = [] /\
  wait_workers_loop (t :: ws) q s = wait_workers_loop ws q (emit (Join (name t)) s1).
Proof.
  intros Hsetup Hrc.
  destruct (run_script_spec (setup_workspace (scripts t))
              [("id", name t); ("workspace", workspace_path t);
               ("source", source_path t); ("output", output_path t)]
              (emit (Hook HSetupWorkspace (name t))
                 (emit (Log DEBUG (name t ++ " START")) s)))
    as (rc' & s' & new & E & T & L & D & P).
  rewrite Hsetup in E. injection E as <- <-.
  assert (Hrun : Worker_run t q s =
                 (Raise (Abort ("Setup workspace failed on worker " ++ name t ++
                    " and could not initialize the environment. Worker is dead")), q, s1)).
  { unfold Worker_run, run_script_setup_workspace, Worker_run_script.
    rewrite Hsetup, (failed_nonzero Hrc). reflexivity. }
  split; [eexists; exact Hrun|]. split; [exact D|]. split; [exact P|]. split.
  - cbn [emit trace] in T. rewrite <- !app_assoc in T.
    rewrite (@appended_app _ _ _ _ T), !gets_app, (gets_script_events _ L). reflexivity.
  - cbn [wait_workers_loop]. rewrite Hrun. reflexivity.
Qed.

End Failures.

Lemma failing_setup_aborts_run_witness :
  exists s1,
    @Paratest_run nat tick_world failing_paratest "list" [] sample_state =
      (Raise (Abort "The setup script failed. aborting."), failing_paratest, [], s1) /\
    db s1 = db sample_state.
Proof.
  destruct (@failing_setup_aborts_run nat tick_world failing_paratest "list"
              (list_plugin ["t1"; "t2"]) [] sample_state
              (snd (@run_script nat tick_world (setup (pt_scripts failing_paratest))
                      [("path", pt_workspace_path failing_paratest)]
                      (emit (Hook HSetup MainThread) sample_state)))
              1) as (E & D & _).
  - reflexivity.
  - vm_compute. reflexivity.
  - discriminate.
  - eexists. split; [exact E|exact D].
Defined.

Lemma failed_worker_is_joined_witness :
  exists s1 message,
    @Worker_run nat tick_world failing_worker [(0%Q, "t1"); (INFINITE, FINISH)]
      sample_state = (Raise (Abort message), [(0%Q, "t1"); (INFINITE, FINISH)], s1) /\
    db s1 = db sample_state.
Proof.
  destruct (@failed_worker_is_joined nat tick_world failing_worker []
              [(0%Q, "t1"); (INFINITE, FINISH)] sample_state
              (snd (@run_script nat tick_world (setup_workspace (scripts failing_worker))
                      [("id", name failing_worker);
                       ("workspace", workspace_path failing_worker);
                       ("source", source_path failing_worker);
                       ("output", output_path failing_worker)]
                      (emit (Hook HSetupWorkspace (name failing_worker))
                         (emit (Log DEBUG (name failing_worker ++ " START"))
                            sample_state))))
              1) as ((message & E) & D & _).
  - vm_compute. reflexivity.
  - discriminate.
  - eexists _, message. split; [exact E|exact D].
Defined.

(* ================================================================= *)
(** ** A run without hooks *)

Lemma cheap_lt (e : entry) : cheap e = true <-> (fst e < INFINITE)%Q.
Proof.
  unfold cheap. rewrite negb_true_iff. split.
  - intro Hb. apply Qnot_le_lt. intro Hle. apply Qle_bool_iff in Hle. congruence.
  - intro Hlt. destruct (Qle_bool INFINITE (fst e)) eqn:E; [|reflexivity].
    apply Qle_bool_iff in E. exfalso. apply (Qlt_not_le _ _ Hlt E).
Qed.

Lemma filter_permutation (A : Type) (f : A -> bool) (l l' : list A) :
  Permutation l l' -> Permutation (filter f l) (filter f l').
Proof.
  induction 1 as [|x l l' _ IH|x y l|l1 l2 l3 _ IH1 _ IH2]; cbn [filter].
  - constructor.
  - destruct (f x); [constructor|]; exact IH.
  - destruct (f x), (f y); try constructor; apply Permutation_refl.
  - eapply Permutation_trans; eassumption.
Qed.

Lemma sorted_cheap_first (q : queue) :
  StronglySorted priority_le q ->
  q = (filter cheap q ++ filter (fun e => negb (cheap e)) q)%list.
Proof.
  induction 1 as [|x q Hq IH Hx]; [reflexivity|]. cbn [filter].
  destruct (cheap x) eqn:Ex; cbn [negb app].
  - f_equal. exact IH.
  - assert (Hnone : Forall (fun e => cheap e = false) q).
    { eapply Forall_impl; [|exact Hx]. intros y Hy. unfold priority_le in Hy.
      destruct (cheap y) eqn:Ey; [|reflexivity].
      apply cheap_lt in Ey. exfalso.
      assert (Hlt : (fst x < INFINITE)%Q) by (eapply Qle_lt_trans; eassumption).
      apply cheap_lt in Hlt. congruence. }
    rewrite (filter_none _ Hnone). cbn [app]. f_equal. symmetry. apply filter_all.
    eapply Forall_impl; [|exact Hnone]. cbn beta. intros y Hy. now rewrite Hy.
Qed.

(** A sorted queue made of cheap entries and [n] sentinels is the cheap
    entries followed by the sentinels. *)
Lemma sorted_queue_shape (q entries : queue) (n : nat) :
  StronglySorted priority_le q ->
  Permutation q (entries ++ repeat (INFINITE, FINISH) n) ->
  Forall (fun e => cheap e = true) entries ->
  exists ents,
    q = (ents ++ repeat (INFINITE, FINISH) n)%list /\ Permutation ents entries.
Proof.
  intros Hs Hp Hc. exists (filter cheap q).
  assert (Hsent : Forall (fun e => cheap e = false) (repeat (INFINITE, FINISH) n)).
  { apply Forall_forall. intros e He. apply repeat_spec in He. subst e. reflexivity. }
  assert (P1 : Permutation (filter cheap q) entries).
  { eapply Permutation_trans; [apply filter_permutation, Hp|].
    rewrite filter_app, (filter_none _ Hsent), app_nil_r, (filter_all _ Hc).
    apply Permutation_refl. }
  assert (P2 : Permutation (filter (fun e => negb (cheap e)) q)
                           (repeat (INFINITE, FINISH) n)).
  { eapply Permutation_trans; [apply filter_permutation, Hp|].
    rewrite filter_app. rewrite (@filter_none _ (fun e => negb (cheap e)) entries).
    - cbn [app]. rewrite filter_all; [apply Permutation_refl|].
      eapply Forall_impl; [|exact Hsent]. cbn beta. intros e He. now rewrite He.
    - eapply Forall_impl; [|exact Hc]. cbn beta. intros e He. now rewrite He. }
  apply Permutation_repeat in P2.
  split; [|exact P1]. rewrite <- P2. apply sorted_cheap_first, Hs.
Qed.

Lemma execs_map_Put (l : list entry) : execs (map Put l) = [].
Proof. induction l as [|e l IH]; [reflexivity|exact IH]. Qed.

Lemma execs_start_and_put (W : Type) (ws : list (Worker W)) :
  execs (flat_map (@start_and_put W) ws) = [].
Proof. induction ws as [|t ws IH]; [reflexivity|exact IH]. Qed.

Section Drain.
Context {W : Type} `{World W}.

Lemma wait_workers_loop_unscripted (ws : list (Worker W)) (ents : queue) (s : state W) :
  Forall (fun t => unscripted (scripts t) = true) ws ->
  Forall (fun e => truthy (snd e) = true) ents ->
  ents = [] \/ ws <> [] ->
  exists s' new,
    wait_workers_loop ws (ents ++ repeat (INFINITE, FINISH) (List.length ws))%list s
      = (Return tt, [], s') /\
    trace s' = (trace s ++ new)%list /\
    execs new = map snd ents.
Proof.
  intro Hws. revert ents s. induction Hws as [|t ws Ht _ IH]; intros ents s Hents Hor.
  - destruct Hor as [->|Hne]; [|contradiction Hne; reflexivity].
    exists s, []. cbn. rewrite app_nil_r. auto.
  - cbn [List.length repeat wait_workers_loop].
    destruct (@Worker_run_unscripted W _ t ents (repeat (INFINITE, FINISH) (List.length ws))
                INFINITE FINISH s Ht Hents eq_refl) as (s1 & E1 & _ & X1 & _).
    destruct (Worker_run_order t
                (ents ++ (INFINITE, FINISH) :: repeat (INFINITE, FINISH) (List.length ws))%list
                s) as (new1 & T1 & _).
    rewrite E1 in T1 |- *. cbn [snd] in T1. rewrite (@appended_app _ _ _ _ T1) in X1.
    destruct (IH [] (emit (Join (name t)) s1) (Forall_nil _) (or_introl eq_refl))
      as (s' & new2 & E2 & T2 & X2).
    cbn [app] in E2. exists s', (new1 ++ [Join (name t)] ++ new2)%list.
    split; [exact E2|]. split.
    + rewrite T2. cbn [emit trace]. rewrite T1, <- !app_assoc. reflexivity.
    + rewrite !execs_app, X1, X2. cbn [map app]. now rewrite app_nil_r.
Qed.

Lemma Paratest_setup_no_hook (pt : Paratest W) (s : state W) :
  no_hook (setup (pt_scripts pt)) = true ->
  Paratest_run_script_setup pt s = (Return tt, emit (Hook HSetup MainThread) s).
Proof.
  unfold no_hook, Paratest_run_script_setup, run_script.
  destruct (setup (pt_scripts pt)) as [sc|]; [|reflexivity].
  intro Hs. apply negb_true_iff in Hs. rewrite Hs. reflexivity.
Qed.

Lemma Paratest_teardown_no_hook (pt : Paratest W) (s : state W) :
  no_hook (teardown (pt_scripts pt)) = true ->
  Paratest_run_script_teardown pt s = (Return tt, emit (Hook HTeardown MainThread) s).
Proof.
  unfold no_hook, Paratest_run_script_teardown, run_script.
  destruct (teardown (pt_scripts pt)) as [sc|]; [|reflexivity].
  intro Hs. apply negb_true_iff in Hs. rewrite Hs. reflexivity.
Qed.

(** X20.  With no hook configured, at least one worker allowed, real test
    identifiers and priorities below [sys.maxsize], a run on a store with its
    tables returns with the queue drained, and the tests it has executed are
    the tests that the plugin found, each once. *)
Theorem run_executes_every_test (pt : Paratest W) (nm : string) (pluginobj : Plugin W)
        (s : state W) (d : database) :
  getPluginByName pt nm = Some pluginobj ->
  _workers pt = [] ->
  db s = Db d ->
  no_scripts_at_all (pt_scripts pt) = true ->
  1 <= workspace_num pt ->
  let found := fst (find pluginobj (pt_source_path pt) (test_pattern pt) (world s)) in
  Forall (fun tid => truthy tid = true) found ->
  Forall (fun tid => (or_zero (avg (durations (source (pers s)) tid d)) < INFINITE)%Q)
         found ->
  exists pt' s',
    Paratest_run pt nm [] s = (Return tt, pt', [], s') /\
    Permutation (execs (appended s s')) found /\
    Z.of_nat (List.length (_workers pt')) =
      Z.min (workspace_num pt) (Z.of_nat (List.length found)).
Proof.
  intros Hplugin Hws Hdb Hsc Hwn found Htruthy Hcheap.
  unfold no_scripts_at_all in Hsc.
  apply andb_prop in Hsc. destruct Hsc as [Hsc Htd].
  apply andb_prop in Hsc. destruct Hsc as [Hun Hsu].
  unfold Paratest_run. rewrite Hplugin, (Paratest_setup_no_hook _ _ Hsu).
  unfold queue_tests. cbn [emit world]. subst found.
  destruct (find pluginobj (pt_source_path pt) (test_pattern pt) (world s)) as [found w1].
  cbn [fst] in Htruthy, Hcheap.
  set (s1 := set_world w1 (emit (Hook HSetup MainThread) s)).
  set (entries := map (fun tid => (or_zero (avg (durations (source (pers s)) tid d)), tid))
                      found).
  destruct (@queue_tests_loop_contents W found 0 [] s1 d Hdb)
    as (q2 & s2 & E2 & Hq2 & D2 & P2 & _ & T2).
  destruct (queue_tests_loop_spec found 0 [] s1) as (_ & _ & _ & _ & _ & R2).
  rewrite E2 in R2 |- *. cbn [fst snd] in R2. specialize (R2 reachable_empty).
  cbn [Z.add]. rewrite app_nil_r in Hq2.
  change (pers s1) with (pers s) in Hq2, T2. fold entries in Hq2, T2.
  set (n := num_of_workers pt (Z.of_nat (List.length found))).
  set (pt3 := create_workers pt pluginobj n).
  assert (Hws3 : _workers pt3 =
                 map (fun i => Worker_init pluginobj (pt_scripts pt) (pt_workspace_path pt)
                                 (pt_source_path pt) (pt_output_path pt) (str i))
                     (range n)).
  { unfold pt3, create_workers. cbn [set_workers _workers]. now rewrite Hws. }
  assert (Hlen : List.length (_workers pt3) = Z.to_nat n).
  { rewrite Hws3, length_map. unfold range. apply length_seq. }
  assert (Hun3 : Forall (fun t => unscripted (scripts t) = true) (_workers pt3)).
  { rewrite Hws3. apply Forall_forall. intros t Ht. apply in_map_iff in Ht.
    destruct Ht as [i [<- _]]. exact Hun. }
  unfold start_workers.
  set (s2' := emit (Log DEBUG "start workers") s2).
  destruct (start_workers_loop_spec (_workers pt3) q2 s2') as (T4 & Hq4 & _).
  pose proof (start_workers_loop_reachable (_workers pt3) s2' R2) as R4.
  destruct (start_workers_loop (_workers pt3) q2 s2') as [q4 s4]. cbn [fst snd] in *.
  assert (Hshape : exists ents,
             q4 = (ents ++ repeat (INFINITE, FINISH) (List.length (_workers pt3)))%list /\
             Permutation ents entries).
  { apply sorted_queue_shape.
    - apply reachable_sorted, R4.
    - eapply Permutation_trans; [exact Hq4|].
      eapply Permutation_trans; [apply Permutation_app_comm|].
      apply Permutation_app_tail, Hq2.
    - unfold entries. rewrite Forall_forall in *. intros e He. apply in_map_iff in He.
      destruct He as [tid [<- Htid]]. apply cheap_lt. cbn [fst]. apply Hcheap, Htid. }
  destruct Hshape as (ents & -> & Hents).
  assert (Htr : Forall (fun e => truthy (snd e) = true) ents).
  { rewrite Forall_forall in *. intros e He.
    apply (Permutation_in _ Hents) in He. unfold entries in He. apply in_map_iff in He.
    destruct He as [tid [<- Htid]]. cbn [snd]. apply Htruthy, Htid. }
  assert (Hor : ents = [] \/ _workers pt3 <> []).
  { destruct found as [|tid0 found'].
    - left. apply Permutation_nil. apply Permutation_sym. exact Hents.
    - right. intro Hnil. rewrite Hnil in Hlen. cbn [List.length] in Hlen.
      unfold n, num_of_workers in Hlen. cbn [List.length] in Hlen. lia. }
  unfold wait_workers.
  destruct (wait_workers_loop_unscripted
              (emit (Log DEBUG "wait for all workers to finish") s4) Hun3 Htr Hor)
    as (s5 & new5 & E5 & T5 & X5).
  exists pt3, (emit (Hook HTeardown MainThread) s5). split; [|split].
  { match goal with
    | |- context [wait_workers_loop ?a ?b ?c] =>
        replace (wait_workers_loop a b c) with (Return tt, ([] : queue), s5)
          by (symmetry; exact E5)
    end.
    change (Paratest_run_script_teardown pt3) with (Paratest_run_script_teardown pt).
    rewrite (Paratest_teardown_no_hook _ _ Htd). reflexivity. }
  - assert (T : trace (emit (Hook HTeardown MainThread) s5) =
                (trace s ++ [Hook HSetup MainThread] ++ map Put entries ++
                 [Log DEBUG "start workers"] ++
                 flat_map (@start_and_put W) (_workers pt3) ++
                 [Log DEBUG "wait for all workers to finish"] ++ new5 ++
                 [Hook HTeardown MainThread])%list).
    { cbn [emit trace]. rewrite T5. cbn [emit trace]. rewrite T4. unfold s2'.
      cbn [emit trace]. rewrite T2. unfold s1. cbn [set_world emit trace].
      rewrite <- !app_assoc. reflexivity. }
    rewrite (@appended_app _ _ _ _ T), !execs_app, execs_map_Put, execs_start_and_put, X5.
    cbn [app]. rewrite app_nil_r.
    eapply Permutation_trans; [apply Permutation_map, Hents|].
    unfold entries. rewrite map_map. cbn [snd]. rewrite map_id. apply Permutation_refl.
  - rewrite Hlen. unfold n, num_of_workers. lia.
Qed.

End Drain.

Lemma run_executes_every_test_witness :
  exists pt' s',
    @Paratest_run nat tick_world
      {| workspace_num := 2; pt_workspace_path := "/tmp/ws"; pt_scripts := no_scripts;
         pt_source_path := "src"; pt_output_path := "/tmp/out"; test_pattern := "";
         _workers := []; pluginmgr := [list_plugin ["t1"; "t2"; "t3"]] |}
      "list" [] history_state = (Return tt, pt', [], s') /\
    Permutation (execs (appended history_state s')) ["t1"; "t2"; "t3"].
Proof.
  destruct (@run_executes_every_test nat tick_world
              {| workspace_num := 2; pt_workspace_path := "/tmp/ws";
                 pt_scripts := no_scripts;
                 pt_source_path := "src"; pt_output_path := "/tmp/out"; test_pattern := "";
                 _workers := []; pluginmgr := [list_plugin ["t1"; "t2"; "t3"]] |}
              "list" (list_plugin ["t1"; "t2"; "t3"]) history_state _
              eq_refl eq_refl eq_refl eq_refl) as (pt' & s' & E & P & _).
  - cbn. lia.
  - repeat constructor.
  - repeat constructor.
  - exists pt', s'. split; [exact E|exact P].
Defined.
